(** * df-analyze: configuration hashing, output directories, result saving
      and the grid run loop

    A shallow embedding of [src/saving.py], [src/cli/cli.py] and
    [df-analyze.py].  Python values are modelled by small inductive types,
    exceptions by an error type, and every interaction with the operating
    system, the clock, pandas and the analysis routine is an event of a
    trace whose answer is supplied by an environment that may look at the
    whole history. *)

From Stdlib Require Import String Ascii List Bool Arith ZArith Lia.
From Stdlib Require Import Permutation Sorted OrderedTypeEx.
From Stdlib Require Import QArith Qcanon DecimalString.
Import ListNotations.
Close Scope Qc_scope.
Close Scope Q_scope.
Open Scope string_scope.
Open Scope list_scope.

(** ** Python strings *)

Module PyStr.

(** [sub in s] *)
Fixpoint contains (sub s : string) : bool :=
  if String.prefix sub s then true
  else match s with
       | EmptyString => false
       | String _ s' => contains sub s'
       end.

(** [c.lower()] on one ASCII letter; other bytes are left alone (the
    column and option names of this program are ASCII). *)
Definition lower_ascii (c : ascii) : ascii :=
  let n := nat_of_ascii c in
  if (65 <=? n)%nat && (n <=? 90)%nat then ascii_of_nat (n + 32) else c.

Fixpoint lower (s : string) : string :=
  match s with
  | EmptyString => EmptyString
  | String c s' => String (lower_ascii c) (lower s')
  end.

(** [sep.join(parts)] *)
Fixpoint join (sep : string) (parts : list string) : string :=
  match parts with
  | [] => ""
  | [p] => p
  | p :: rest => p ++ sep ++ join sep rest
  end.

(** [s.replace(old, new)] for a non-empty [old]: occurrences are replaced
    from left to right without overlap.  [skip] counts the bytes of an
    occurrence that are still to be dropped. *)
Fixpoint replace_from (old new : string) (skip : nat) (s : string) : string :=
  match s with
  | EmptyString => EmptyString
  | String c s' =>
      match skip with
      | S n => replace_from old new n s'
      | O =>
          if String.prefix old s
          then new ++ replace_from old new (String.length old - 1) s'
          else String c (replace_from old new 0 s')
      end
  end.

Definition replace (old new s : string) : string := replace_from old new 0 s.

(** [s.split(sep)] on a one-byte separator. *)
Fixpoint split_on (sep : ascii) (s : string) : list string :=
  match s with
  | EmptyString => [""]
  | String c s' =>
      if Ascii.eqb c sep then "" :: split_on sep s'
      else match split_on sep s' with
           | [] => [String c ""]
           | w :: ws => String c w :: ws
           end
  end.

(** [repr] of a string that holds no quote, backslash or control byte. *)
Definition repr_plain (s : string) : string := "'" ++ s ++ "'".

(** The text of a tuple whose items have the texts [items]. *)
Definition tuple_text (items : list string) : string :=
  match items with
  | [] => "()"
  | [x] => "(" ++ x ++ ",)"
  | _ => "(" ++ join ", " items ++ ")"
  end.

(** [str(t)] for a tuple [t] of strings. *)
Definition str_tuple (items : list string) : string :=
  tuple_text (map repr_plain items).

End PyStr.

(** ** pathlib paths (POSIX flavour) *)

Module PyPath.

(** A path is the list of its components below the anchor. *)
Definition Path := list string.

Definition keep_part (s : string) : bool :=
  negb (String.eqb s "") && negb (String.eqb s ".").

Definition parts_of (s : string) : list string :=
  filter keep_part (PyStr.split_on "/" s).

(** [p / s]: an absolute right operand replaces the left one; empty and
    [.] components are dropped. *)
Definition div (p : Path) (s : string) : Path :=
  if String.prefix "/" s then parts_of s else p ++ parts_of s.

(** [p.parent] *)
Definition parent (p : Path) : Path := removelast p.

(** [str(p)] *)
Definition to_str (p : Path) : string := "/" ++ PyStr.join "/" p.

(** [p.name] and [p.stem]: the stem is the last component up to its last
    dot, unless that dot is its first or its last byte. *)
Definition name (p : Path) : string := last p "".

Definition stem (p : Path) : string :=
  let n := name p in
  let ps := PyStr.split_on "." n in
  match ps with
  | [] | [_] => n
  | _ =>
      if String.eqb (last ps "") "" then n
      else let pre := PyStr.join "." (removelast ps) in
           if String.eqb pre "" then n else pre
  end.

Definition eqb (p q : Path) : bool :=
  if list_eq_dec string_dec p q then true else false.

End PyPath.
Export PyPath.

Infix "//" := PyPath.div (at level 40, left associativity).

(** ** Exceptions, tables, events *)

(** The subclasses of [OSError] the operating system can answer with. *)
Inductive os_error :=
| PermissionError
| FileExistsError
| FileNotFoundError
| NotADirectoryError
| OtherOSError.

(** The exceptions of the program; all derive from [Exception]. *)
Inductive exn :=
| ValueError (msg : string)
| KeyError (key : string)
| TypeError
| IndexError
| AttributeError
| OSError (kind : os_error)
| OtherException (what : string).

Inductive Result (A : Type) :=
| Ok (a : A)
| Raise (e : exn).
Arguments Ok {A} a.
Arguments Raise {A} e.

(** A cell of a table: text or a number. *)
Inductive cell :=
| CStr (s : string)
| CNum (q : Q).

(** A pandas [DataFrame], as its column names and its rows in order. *)
Record DataFrame := mkDF {
  columns : list string;
  rows : list (list cell)
}.

(** [ProgramOptions] as the run loop reads it. *)
Record RunOptions := mkRunOptions {
  run_outdir : option Path
}.

(** [LoopArgs] of [df-analyze.py]. *)
Record LoopArgs := mkLoopArgs {
  options : RunOptions;
  estimator : string;
  feature_selection : option string
}.

(** What the program did to the outside world, with the answer it got. *)
Inductive event :=
| EAccessW (p : Path) (ans : bool)                  (* os.access(p, os.W_OK) *)
| EExists (p : Path) (ans : bool)                   (* p.exists() *)
| EIsDir (p : Path) (ans : bool)                    (* p.is_dir() *)
| EIsFile (p : Path) (ans : bool)                   (* p.is_file() *)
| EMkdir (p : Path) (err : option os_error)         (* p.mkdir(parents=True, exist_ok=True), os.makedirs(p, exist_ok=True) *)
| EMkdtemp (prefix : string) (res : os_error + Path) (* mkdtemp(prefix=...) *)
| EWarn (msg : string)                              (* warnings.warn *)
| EPrint (msg : string)                             (* print, to standard output *)
| ETraceback                                        (* traceback.print_exc(), to standard error *)
| EToJson (df : DataFrame) (p : Path) (err : option exn)   (* df.to_json(p) *)
| EToCsv (df : DataFrame) (p : Path) (err : option exn)    (* df.to_csv(p) *)
| ECtime (stamp : string)                           (* time.ctime() *)
| EAnalysis (arg : LoopArgs) (res : Result DataFrame) (* the call of full_estimator_analysis *)
| EExternal (what : string).                        (* an effect of code outside these files *)

Definition World := list event.

(** [ProgramDirs] of [src/saving.py]. *)
Record ProgramDirs := mkProgramDirs {
  root : option Path;
  joblib_cache : option Path;
  inspection : option Path;
  features : option Path;
  associations : option Path;
  predictions : option Path;
  selection : option Path;
  tuning : option Path;
  results : option Path;
  needs_clean : bool
}.

(** The outside world and the library code the program calls.  Every
    answer may depend on the history so far. *)
Class Env := {
  env_access_w : World -> Path -> bool;
  env_exists : World -> Path -> bool;
  env_is_dir : World -> Path -> bool;
  env_is_file : World -> Path -> bool;
  env_mkdir : World -> Path -> option os_error;
  env_mkdtemp : World -> string -> os_error + Path;
  env_to_json : World -> DataFrame -> Path -> option exn;
  env_to_csv : World -> DataFrame -> Path -> option exn;
  env_ctime : World -> string;
  env_analysis : World -> LoopArgs -> Result DataFrame;
  (** [Path.home().resolve()] and [Path.cwd().resolve()] *)
  env_home : Path;
  env_cwd : Path;
  (** [traceback.format_exc()] while handling [e] *)
  format_exc : exn -> string;
  (** [hashlib.md5(s.encode()).hexdigest()] *)
  md5_hexdigest : string -> string;
  (** [repr] of a finite float *)
  float_repr : Qc -> string;
  (** [df.to_markdown(tablefmt=..., floatfmt=...)] *)
  to_markdown : DataFrame -> string -> string -> string;
  (** [pd.concat(frames, axis=0, ignore_index=True)] on a non-empty list *)
  pd_concat : list DataFrame -> DataFrame;
  (** [setup_io], which [src/cli/cli.py] imports from [src.saving] and
      [src/saving.py] does not define: the events it adds and what it
      returns. *)
  setup_io : World -> Path -> list event * Result ProgramDirs
}.

(** ** The monad of effectful code: a trace and an exception *)

Definition M (A : Type) : Type := World -> Result A * World.

Definition ret {A} (a : A) : M A := fun w => (Ok a, w).

Definition bind {A B} (m : M A) (k : A -> M B) : M B :=
  fun w => match m w with
           | (Ok a, w') => k a w'
           | (Raise e, w') => (Raise e, w')
           end.

Definition raise {A} (e : exn) : M A := fun w => (Raise e, w).

(** [try: m except Exception as e: ...] with the outcome handed to the
    continuation. *)
Definition attempt {A} (m : M A) : M (Result A) :=
  fun w => let '(r, w') := m w in (Ok r, w').

Definition emit (e : event) : M unit := fun w => (Ok tt, w ++ [e]).

(** An expression statement whose value is dropped. *)
Definition discard {A} (a : A) : M unit := ret tt.

Declare Scope py_scope.
Delimit Scope py_scope with py.
Notation "x <- m ;; k" := (bind m (fun x => k))
  (at level 61, m at next level, right associativity) : py_scope.
Notation "m ;; k" := (bind m (fun _ => k))
  (at level 61, right associativity) : py_scope.
Notation "' pat <- m ;; k" := (bind m (fun x => match x with pat => k end))
  (at level 61, pat pattern, m at next level, right associativity) : py_scope.
Open Scope py_scope.

Section Primitives.
Context {E : Env}.

Definition os_access_w (p : Path) : M bool :=
  fun w => let b := env_access_w w p in (Ok b, w ++ [EAccessW p b]).

Definition path_exists (p : Path) : M bool :=
  fun w => let b := env_exists w p in (Ok b, w ++ [EExists p b]).

Definition path_is_dir (p : Path) : M bool :=
  fun w => let b := env_is_dir w p in (Ok b, w ++ [EIsDir p b]).

Definition path_is_file (p : Path) : M bool :=
  fun w => let b := env_is_file w p in (Ok b, w ++ [EIsFile p b]).

(** [p.mkdir(exist_ok=True, parents=True)] and
    [os.makedirs(p, exist_ok=True)] *)
Definition mkdir_p (p : Path) : M unit :=
  fun w => match env_mkdir w p with
           | None => (Ok tt, w ++ [EMkdir p None])
           | Some k => (Raise (OSError k), w ++ [EMkdir p (Some k)])
           end.

Definition mkdtemp (prefix : string) : M Path :=
  fun w => match env_mkdtemp w prefix with
           | inr p => (Ok p, w ++ [EMkdtemp prefix (inr p)])
           | inl k => (Raise (OSError k), w ++ [EMkdtemp prefix (inl k)])
           end.

Definition warn (msg : string) : M unit := emit (EWarn msg).
Definition print (msg : string) : M unit := emit (EPrint msg).
Definition print_exc : M unit := emit ETraceback.

Definition df_to_json (df : DataFrame) (p : Path) : M unit :=
  fun w => match env_to_json w df p with
           | None => (Ok tt, w ++ [EToJson df p None])
           | Some e => (Raise e, w ++ [EToJson df p (Some e)])
           end.

Definition df_to_csv (df : DataFrame) (p : Path) : M unit :=
  fun w => match env_to_csv w df p with
           | None => (Ok tt, w ++ [EToCsv df p None])
           | Some e => (Raise e, w ++ [EToCsv df p (Some e)])
           end.

Definition ctime : M string :=
  fun w => let s := env_ctime w in (Ok s, w ++ [ECtime s]).

Definition full_estimator_analysis (arg : LoopArgs) : M DataFrame :=
  fun w => let r := env_analysis w arg in (r, w ++ [EAnalysis arg r]).

Definition call_setup_io (p : Path) : M ProgramDirs :=
  fun w => let '(evs, r) := setup_io w p in (r, w ++ evs).

End Primitives.

(** ** Sorting as [sorted] does it *)

Section Sorting.
Context {A : Type} (lt : A -> A -> bool).

(** [x] goes before the first element that is not below it, so equal
    elements keep their order: [sorted] is stable. *)
Fixpoint insert_sorted (x : A) (l : list A) : list A :=
  match l with
  | [] => [x]
  | y :: l' => if lt y x then y :: insert_sorted x l' else x :: l
  end.

Definition sorted (l : list A) : list A := fold_right insert_sorted [] l.

End Sorting.

(** ** Numbers of the size options *)

(** An [int], or a finite [float] given by the rational it denotes. *)
Inductive num :=
| NInt (z : Z)
| NFloat (q : Qc).

Definition num_value (x : num) : Qc :=
  match x with
  | NInt z => Q2Qc (inject_Z z)
  | NFloat q => q
  end.

(** [x == y]: an [int] and a [float] of the same value are equal, and
    hash alike. *)
Definition num_eqb (x y : num) : bool := Qeq_bool (num_value x) (num_value y).

(** [x < y] *)
Definition num_ltb (x y : num) : bool := negb (Qle_bool (num_value y) (num_value x)).

(** What [set(xs)] keeps of a list of numbers: of the numbers that are
    equal, the one that comes first. *)
Fixpoint num_dedup (xs : list num) : list num :=
  match xs with
  | [] => []
  | x :: rest => x :: filter (fun y => negb (num_eqb x y)) (num_dedup rest)
  end.

(** No number of the list comes both as an [int] and as a [float]. *)
Definition unmixed (xs : list num) : Prop :=
  forall x y, In x xs -> In y xs -> num_eqb x y = true -> x = y.

(** A size as [cv_size] of [src/cli/cli.py] returns it: an [int] from 2
    on, or a [float] strictly between 0 and 1. *)
Definition cli_size (x : num) : Prop :=
  match x with
  | NInt z => (2 <= z)%Z
  | NFloat q => (0 < q)%Q /\ (q < 1)%Q
  end.

(** ** Python values that reach [get_hash] *)

#[warnings="-register-all"]
Inductive pyval :=
| VNone
| VBool (b : bool)
| VInt (z : Z)
| VFloat (q : Qc)
| VStr (s : string)
| VTuple (items : list pyval).

Definition num_val (x : num) : pyval :=
  match x with
  | NInt z => VInt z
  | NFloat q => VFloat q
  end.

Fixpoint repr {E : Env} (v : pyval) : string :=
  match v with
  | VNone => "None"
  | VBool true => "True"
  | VBool false => "False"
  | VInt z => NilZero.string_of_int (Z.to_int z)
  | VFloat q => float_repr q
  | VStr s => PyStr.repr_plain s
  | VTuple items =>
      PyStr.tuple_text
        ((fix reprs (l : list pyval) : list string :=
            match l with
            | [] => []
            | x :: r => repr x :: reprs r
            end) items)
  end.

(** A [dict] with string keys, in insertion order; the keys of one
    dictionary are pairwise distinct. *)
Definition dict (V : Type) := list (string * V).

Definition keys {V} (d : dict V) : list string := map fst d.

(** [d.get(k)] *)
Fixpoint dict_get {V} (k : string) (d : dict V) : option V :=
  match d with
  | [] => None
  | (k', v) :: d' => if String.eqb k k' then Some v else dict_get k d'
  end.

(** [d.pop(k)], keeping the dictionary only. *)
Fixpoint dict_pop {V} (k : string) (d : dict V) : Result (dict V) :=
  match d with
  | [] => Raise (KeyError k)
  | (k', v) :: d' =>
      if String.eqb k k' then Ok d'
      else match dict_pop k d' with
           | Ok r => Ok ((k', v) :: r)
           | Raise e => Raise e
           end
  end.

(** Tuples [(key, value)] of one dictionary differ in their keys, so their
    comparison is decided by the keys and never looks at the values. *)
Definition item_lt {V} (a b : string * V) : bool := String.ltb (fst a) (fst b).

(** [set(xs)] yields each element once, in an order the language does not
    fix; of numbers that are equal it holds the one inserted first. *)
Class PySet := {
  set_iter : list string -> list string;
  set_iter_perm : forall xs, Permutation (set_iter xs) (nodup string_dec xs);
  set_iter_num : list num -> list num;
  set_iter_num_perm : forall xs, Permutation (set_iter_num xs) (num_dedup xs)
}.

(** [tuple(sorted(set(xs)))] of [ProgramOptions.__init__] *)
Definition normalized {S : PySet} (xs : list string) : list string :=
  sorted String.ltb (set_iter xs).

(** [tuple(sorted(set(test_val_sizes)))] *)
Definition normalized_sizes {S : PySet} (xs : list num) : list num :=
  sorted num_ltb (set_iter_num xs).

(** An option as the constructor receives it: one value, several values
    for a string-valued option that may be repeated, and for
    [test_val_sizes] one number or several. *)
Inductive raw_option :=
| Single (v : pyval)
| Multi (xs : list string)
| OneSize (x : num)
| Sizes (xs : list num).

(** What [ProgramOptions.__init__] keeps of an option: a repeated option
    goes through [tuple(sorted(set(...)))], a single number given as
    [test_val_sizes] becomes a tuple of one, the others are kept as
    given. *)
Definition stored {S : PySet} (o : raw_option) : pyval :=
  match o with
  | Single v => v
  | Multi xs => VTuple (map VStr (normalized xs))
  | OneSize x => VTuple [num_val x]
  | Sizes xs => VTuple (map num_val (normalized_sizes xs))
  end.

Definition stored_args {S : PySet} (raw : dict raw_option) : dict pyval :=
  map (fun kv => (fst kv, stored (snd kv))) raw.


Definition ignored (ignores : option (list string)) : list string :=
  match ignores with None => [] | Some l => l end.

(** The dictionary [d] with the entries of the given names left out. *)
Definition without_keys {V} (names : list string) (d : dict V) : dict V :=
  filter (fun kv => negb (existsb (String.eqb (fst kv)) names)) d.

(** ** src/saving.py *)

Module Saving.

Inductive FileType := Interim | Final | Feature | Params | Univariate.

(** What a caller can pass as [file_type]: a member of the enumeration
    or any other object. *)
Inductive file_type_arg :=
| Member (ft : FileType)
| Foreign (what : string).

Definition JOBLIB : string := "__JOBLIB_CACHE__".

(** [ProgramDirs()] and [ProgramDirs(root=None)] *)
Definition ProgramDirs_default : ProgramDirs :=
  mkProgramDirs None None None None None None None None None false.

(** The objects a loop over an instance dictionary can meet. *)
Inductive pyobj :=
| ONone
| OBool (b : bool)
| OStr (s : string)
| OPath (p : Path).

Definition opath (o : option Path) : pyobj :=
  match o with Some p => OPath p | None => ONone end.

(** [new.__dict__]: the fields in declaration order. *)
Definition instance_dict (d : ProgramDirs) : dict pyobj :=
  [ ("root", opath (root d));
    ("joblib_cache", opath (joblib_cache d));
    ("inspection", opath (inspection d));
    ("features", opath (features d));
    ("associations", opath (associations d));
    ("predictions", opath (predictions d));
    ("selection", opath (selection d));
    ("tuning", opath (tuning d));
    ("results", opath (results d));
    ("needs_clean", OBool (needs_clean d)) ].

(** [for x in d]: iterating a dictionary yields its keys. *)
Definition dict_iter (d : dict pyobj) : list pyobj := map (fun kv => OStr (fst kv)) d.

(** [program_dirs.name]: the data attributes of a [ProgramDirs] object are
    the fields its dataclass body declares; reading another name is an
    [AttributeError]. *)
Definition getattr (d : ProgramDirs) (name : string) : Result pyobj :=
  match dict_get name (instance_dict d) with
  | Some v => Ok v
  | None => Raise AttributeError
  end.

(** [base / sub], where [base] is what an attribute holds. *)
Definition div_path (base : pyobj) (sub : string) : Result Path :=
  match base with
  | OPath p => Ok (p // sub)
  | _ => Raise TypeError
  end.

(** [get_hash] *)
Section Hash.
Context {E : Env}.

Fixpoint pop_all (ignores : list string) (to_hash : dict pyval) : Result (dict pyval) :=
  match ignores with
  | [] => Ok to_hash
  | ignore :: rest =>
      match dict_pop ignore to_hash with
      | Ok d => pop_all rest d
      | Raise e => Raise e
      end
  end.

Definition items_tuple (d : dict pyval) : pyval :=
  VTuple (map (fun kv => VTuple [VStr (fst kv); snd kv]) d).

Definition get_hash (args : dict pyval) (ignores : option (list string)) : Result string :=
  let ignores := ignored ignores in
  let to_hash := args in
  match pop_all ignores to_hash with
  | Raise e => Raise e
  | Ok to_hash => Ok (md5_hexdigest (repr (items_tuple (sorted item_lt to_hash))))
  end.

End Hash.

Section Dirs.
Context {E : Env}.

Definition temp_failed (e : exn) (needs_clean : bool) : M (option Path * bool) :=
  match e with
  | OSError FileExistsError =>
      warn "Found existing temporary data. Holding results in memory instead. " ;;
      ret (None, needs_clean)
  | _ =>
      warn ("Could not create temporary directory. Falling back to storing results in memory. Error details:"
            ++ format_exc e) ;;
      ret (None, needs_clean)
  end.

(** The body of the outer [try] of [configure_root]. *)
Definition configure_root_body (root : option Path) : M (option Path * bool) :=
  denied <- match root with
            | Some r => b <- os_access_w r ;; ret (negb b)
            | None => ret false
            end ;;
  if denied then raise (OSError PermissionError)
  else
    let needs_clean := false in
    let outdir := match root with
                  | Some r => r
                  | None => env_home // "df-analyze-outputs"
                  end in
    writable <- os_access_w outdir ;;
    if negb writable then
      let new := env_cwd // "df-analyze-outputs" in
      warn ("Do not have write permissions for " ++ to_str outdir
            ++ ". Trying: " ++ to_str new ++ ".") ;;
      let outdir := new in
      writable <- os_access_w outdir ;;
      if negb writable then
        made <- attempt (mkdtemp "df_analyze_tmp") ;;
        match made with
        | Raise e => temp_failed e needs_clean
        | Ok new =>
            let needs_clean := true in
            warn ("Did not have write permissions for " ++ to_str outdir
                  ++ ". Created a temporary directory at " ++ to_str new ++ " instead.") ;;
            let outdir := new in
            made <- attempt (mkdir_p outdir) ;;
            match made with
            | Raise e => temp_failed e needs_clean
            | Ok _ => ret (Some outdir, needs_clean)
            end
        end
      else
        mkdir_p outdir ;;
        ret (Some outdir, needs_clean)
    else
      mkdir_p outdir ;;
      ret (Some outdir, needs_clean).

Definition configure_root (root : option Path) : M (option Path * bool) :=
  r <- attempt (configure_root_body root) ;;
  match r with
  | Ok v => ret v
  | Raise e =>
      warn ("Could not create temporary directory. Falling back to storing results in memory. Error details:"
            ++ format_exc e) ;;
      ret (None, false)
  end.

(** The loop of [ProgramDirs.new] over the objects it iterates. *)
Fixpoint make_dirs (items : list pyobj) (new : ProgramDirs) : M ProgramDirs :=
  match items with
  | [] => ret new
  | OPath path :: rest =>
      if PyStr.contains "JOBLIB" (to_str path) then make_dirs rest new
      else
        made <- attempt (mkdir_p path) ;;
        match made with
        | Ok _ => make_dirs rest new
        | Raise e =>
            warn ("Got error creating output directories:" ++ format_exc e
                  ++ "Defaulting to in-memory results.") ;;
            ret ProgramDirs_default
        end
  | _ :: rest => make_dirs rest new
  end.

Definition new (root : option Path) : M ProgramDirs :=
  '(root, needs_clean) <- configure_root root ;;
  match root with
  | None => ret ProgramDirs_default
  | Some root =>
      let new :=
        {| root := Some root;
           joblib_cache := Some (root // "__JOBLIB_CACHE__");
           inspection := Some (root // "inspection");
           features := Some (root // "features");
           associations := Some (root // "features/associations");
           predictions := Some (root // "features/predictions");
           selection := Some (root // "selection");
           tuning := Some (root // "tuning");
           results := Some (root // "results");
           needs_clean := needs_clean |} in
      make_dirs (dict_iter (instance_dict new)) new
  end.

End Dirs.

Section Save.
Context {E : Env}.

Definition selection_label (selection : option string) : string :=
  match selection with
  | None => "no-selection"
  | Some sel => if String.eqb sel "none" then "no-selection" else sel ++ "-selection"
  end.

Definition cleaning_label (cleaning : list string) : string :=
  if (0 <? List.length cleaning)%nat
  then "_cleaning=" ++ PyStr.join "-" cleaning
  else "".

(** The chain of tests on [file_type] that opens [try_save]: the
    output directory and the description, or the error.  The directory is
    read from the attributes [interim_results], [final_results] and
    [feature_selection] of [program_dirs]. *)
Definition target_of (program_dirs : ProgramDirs) (file_type : file_type_arg)
    (selection : option string) (cleaning : list string) : Result (pyobj * string) :=
  match file_type with
  | Member Interim =>
      match getattr program_dirs "interim_results" with
      | Raise e => Raise e
      | Ok outdir => Ok (outdir, "interim results")
      end
  | Member Final =>
      match getattr program_dirs "final_results" with
      | Raise e => Raise e
      | Ok outdir => Ok (outdir, "final results for all options")
      end
  | Member Feature =>
      let selection := selection_label selection in
      let clean := cleaning_label cleaning in
      match getattr program_dirs "feature_selection" with
      | Raise e => Raise e
      | Ok base =>
          match div_path base (selection ++ clean) with
          | Raise e => Raise e
          | Ok outdir => Ok (OPath outdir, "selected/cleaned features")
          end
      end
  | Member Params =>
      let selection := selection_label selection in
      let clean := cleaning_label cleaning in
      match getattr program_dirs "feature_selection" with
      | Raise e => Raise e
      | Ok base =>
          match div_path base (selection ++ clean) with
          | Raise e => Raise e
          | Ok outdir => Ok (OPath outdir, "selected/cleaned features")
          end
      end
  | _ => Raise (ValueError "Invalid FileType for manual saving")
  end.

Definition write_json (df : DataFrame) (json : Path) (desc : string) : M unit :=
  r <- attempt (df_to_json df json ;;
                print ("Saved " ++ desc ++ " to " ++ to_str json)) ;;
  match r with
  | Ok _ => ret tt
  | Raise _ =>
      print_exc ;;
      print ("Failed to save following results to " ++ to_str json) ;;
      discard (to_markdown df "simple" "0.5f")
  end.

Definition write_csv (df : DataFrame) (csv : Path) (desc : string) : M unit :=
  r <- attempt (df_to_csv df csv ;;
                print ("Saved " ++ desc ++ " to " ++ to_str csv)) ;;
  match r with
  | Ok _ => ret tt
  | Raise _ =>
      print_exc ;;
      print ("Failed to save " ++ desc ++ " results to " ++ to_str csv ++ ":") ;;
      discard (to_markdown df "simple" "0.5f")
  end.

Definition try_save (program_dirs : ProgramDirs) (df : DataFrame) (file_stem : string)
    (file_type : file_type_arg) (selection : option string) (cleaning : list string)
    : M unit :=
  match target_of program_dirs file_type selection cleaning with
  | Raise e => raise e
  | Ok (outdir, desc) =>
      match div_path outdir ("json/" ++ file_stem ++ ".json") with
      | Raise e => raise e
      | Ok json =>
          match div_path outdir ("csv/" ++ file_stem ++ ".csv") with
          | Raise e => raise e
          | Ok csv =>
              mkdir_p (parent json) ;;
              mkdir_p (parent csv) ;;
              write_json df json desc ;;
              write_csv df csv desc
          end
      end
  end.

End Save.

End Saving.

(** ** src/cli/cli.py *)

Module Cli.

Inductive Verbosity := ERROR | INFO | DEBUG.

(** The arguments of [ProgramOptions.__init__].  The two size arguments
    ([htune_val_size], [test_val_sizes]) are numbers that are stored, the
    second one sorted; nothing else in the constructor reads them and they
    are left out. *)
Record InitArgs := mkInitArgs {
  a_datapath : Path;
  a_target : string;
  a_drop_nan : string;
  a_feat_clean : list string;
  a_feat_select : list string;
  a_n_feat : Z;
  a_mode : string;
  a_classifiers : list string;
  a_regressors : list string;
  a_htune : bool;
  a_htune_val : string;
  a_htune_trials : Z;
  a_test_val : string;
  a_outdir : option Path;
  a_is_spreadsheet : bool;
  a_verbosity : Verbosity
}.

Record CleaningOptions := mkCleaningOptions {
  co_datapath : Path;
  co_target : string;
  co_feat_clean : list string;
  co_drop_nan : string
}.

Record SelectionOptions := mkSelectionOptions {
  so_cleaning_options : CleaningOptions;
  so_mode : string;
  so_classifiers : list string;
  so_regressors : list string;
  so_feat_select : list string;
  so_n_feat : Z
}.

Record ProgramOptions := mkProgramOptions {
  cleaning_options : CleaningOptions;
  selection_options : SelectionOptions;
  datapath : Path;
  target : string;
  drop_nan : string;
  feat_clean : list string;
  feat_select : list string;
  n_feat : Z;
  mode : string;
  classifiers : list string;
  regressors : list string;
  htune : bool;
  htune_val : string;
  htune_trials : Z;
  test_val : string;
  outdir : Path;
  program_dirs : ProgramDirs;
  is_spreadsheet : bool;
  verbosity : Verbosity
}.

Definition mem (x : string) (l : list string) : bool := existsb (String.eqb x) l.

Section Options.
Context {E : Env} {S : PySet}.

(** [validate_datapath]; paths are kept resolved. *)
Definition validate_datapath (df_path : Path) : M Path :=
  let datapath := df_path in
  found <- path_exists datapath ;;
  if negb found then raise (OSError FileNotFoundError)
  else
    is_file <- path_is_file datapath ;;
    if negb is_file then raise (OSError FileNotFoundError)
    else ret datapath.

Definition ensure_outdir (datapath : Path) (outdir : option Path) : M Path :=
  let outdir := match outdir with
                | Some o => o
                | None => parent datapath // ("df-analyze-results__" ++ stem datapath)
                end in
  found <- path_exists outdir ;;
  (if found then
     is_dir <- path_is_dir outdir ;;
     if negb is_dir then raise (OSError FileExistsError) else ret tt
   else mkdir_p outdir) ;;
  ret outdir.

Definition regress_error (feat_select : list string) : exn :=
  ValueError
    ("Feature selection with Cohen's d or AUC values is not supported "
     ++ "for regression tasks. Do not pass arguments `d` or `auc` to "
     ++ "`--feat-select` CLI option. [Got arguments: "
     ++ PyStr.join " " feat_select ++ "]").

Definition spam_warnings (self : ProgramOptions) : M unit :=
  match verbosity self with
  | ERROR => ret tt
  | _ =>
      (if (htune_trials self <? 100)%Z
       then warn "Without pruning, Optuna generally only shows clear superiority to random search at roughly 50-100 trials."
       else ret tt) ;;
      (if mem "step-up" (feat_select self) || mem "step-down" (feat_select self)
       then warn "Step-up and step-down feature selection can have very high time-complexity."
       else ret tt) ;;
      (if mem "step-down" (feat_select self)
       then warn "Step-down feature selection in particular will usually be intractable"
       else ret tt) ;;
      print "To silence these warnings, use `--verbosity=0`."
  end.

(** [ProgramOptions.__init__] *)
Definition init (a : InitArgs) : M ProgramOptions :=
  datapath' <- validate_datapath (a_datapath a) ;;
  let feat_clean' := normalized (a_feat_clean a) in
  let feat_select' := normalized (a_feat_select a) in
  let classifiers' := normalized (a_classifiers a) in
  let regressors' := normalized (a_regressors a) in
  outdir' <- ensure_outdir datapath' (a_outdir a) ;;
  program_dirs' <- call_setup_io outdir' ;;
  let cleaning_options' :=
    mkCleaningOptions datapath' (a_target a) feat_clean' (a_drop_nan a) in
  let selection_options' :=
    mkSelectionOptions cleaning_options' (a_mode a) classifiers' regressors'
      feat_select' (a_n_feat a) in
  let self :=
    mkProgramOptions cleaning_options' selection_options' datapath' (a_target a)
      (a_drop_nan a) feat_clean' feat_select' (a_n_feat a) (a_mode a) classifiers'
      regressors' (a_htune a) (a_htune_val a) (a_htune_trials a) (a_test_val a)
      outdir' program_dirs' (a_is_spreadsheet a) (a_verbosity a) in
  (if String.eqb (mode self) "regress"
   then if mem "d" (feat_select self) || mem "auc" (feat_select self)
        then raise (regress_error (feat_select self))
        else ret tt
   else ret tt) ;;
  spam_warnings self ;;
  ret self.

End Options.

(** *** Sizes on the command line *)

(** A float as [float(text)] yields it: every finite float is a rational
    number, and the tests below compare it with 0 and 1 exactly. *)
Inductive pyfloat :=
| FNan
| FInf (negative : bool)
| FFinite (q : Q).

(** [Union[float, int]] *)
Inductive Size :=
| SizeInt (n : Z)
| SizeFloat (cv : pyfloat).

(** [float(text)], or nothing when it raises. *)
Class FloatText := {
  float_of_str : string -> option pyfloat
}.

Definition f_isnan (cv : pyfloat) : bool :=
  match cv with FNan => true | _ => false end.

(** [cv <= 0] *)
Definition f_le0 (cv : pyfloat) : bool :=
  match cv with
  | FNan => false
  | FInf negative => negative
  | FFinite q => Qle_bool q 0
  end.

(** [cv == 1] *)
Definition f_eq1 (cv : pyfloat) : bool :=
  match cv with
  | FFinite q => Qeq_bool q 1
  | _ => false
  end.

(** [cv > 1] *)
Definition f_gt1 (cv : pyfloat) : bool :=
  match cv with
  | FNan => false
  | FInf negative => negb negative
  | FFinite q => negb (Qle_bool q 1)
  end.

(** [cv.is_integer()] *)
Definition f_is_integer (cv : pyfloat) : bool :=
  match cv with
  | FFinite q => Z.eqb (Z.modulo (Qnum q) (Zpos (Qden q))) 0
  | _ => false
  end.

(** [int(cv)] of a finite float: the fraction is cut off. *)
Definition f_int (cv : pyfloat) : Z :=
  match cv with
  | FFinite q => Z.quot (Qnum q) (Zpos (Qden q))
  | _ => 0%Z
  end.

Definition cv_size {F : FloatText} (cv_str : string) : Result Size :=
  match float_of_str cv_str with
  | None =>
      Raise (ValueError
               "Could not convert a `... -size` argument (e.g. --htune-val-size) value to float")
  | Some cv =>
      if f_isnan cv then Raise (ValueError "NaN is not a valid size")
      else if f_le0 cv then
        Raise (ValueError "`... -size` arguments (e.g. --htune-val-size) must be positive")
      else if f_eq1 cv then
        Raise (ValueError
                 "'1' is not a valid value for `... -size` arguments (e.g. --htune-val-size).")
      else if f_gt1 cv && negb (f_is_integer cv) then
        Raise (ValueError
                 "Passing a float greater than 1.0 for `... -size` arguments (e.g. --htune-val-size) is not valid.")
      else if f_gt1 cv then Ok (SizeInt (f_int cv))
      else Ok (SizeFloat cv)
  end.

(** *** From the parsed command line to the options *)

(** [resolved_path] on what the parser hands over: [Path(None)] is a
    [TypeError], which the function turns into a [ValueError]. *)
Definition resolved_path (p : option Path) : Result Path :=
  match p with
  | None => Raise (ValueError "Could not interpret string None as path")
  | Some path => Ok path
  end.

(** The namespace [parse_args] returns, without the sizes, and without
    [separator] and [mc_repeats], which [get_options] does not pass on. *)
Record ParsedArgs := mkParsedArgs {
  p_spreadsheet : option Path;
  p_df : option Path;
  p_target : string;
  p_mode : string;
  p_classifiers : list string;
  p_regressors : list string;
  p_feat_select : list string;
  p_feat_clean : list string;
  p_drop_nan : string;
  p_n_feat : Z;
  p_htune : bool;
  p_htune_val : string;
  p_htune_trials : Z;
  p_test_val : string;
  p_outdir : option Path;
  p_verbosity : Verbosity
}.

Definition with_df (d : option Path) (c : ParsedArgs) : ParsedArgs :=
  mkParsedArgs (p_spreadsheet c) d (p_target c) (p_mode c) (p_classifiers c)
    (p_regressors c) (p_feat_select c) (p_feat_clean c) (p_drop_nan c) (p_n_feat c)
    (p_htune c) (p_htune_val c) (p_htune_trials c) (p_test_val c) (p_outdir c)
    (p_verbosity c).

Section Parsed.
Context {E : Env} {S : PySet}.

(** [get_options] after [parse_args]; the constructor starts with
    [validate_datapath], whose first step is [resolved_path]. *)
Definition get_options (cargs : ParsedArgs) : M ProgramOptions :=
  match p_spreadsheet cargs, p_df cargs with
  | None, None =>
      raise (ValueError "Must specify one of either `--spreadsheet [file]` or `--df [file]`.")
  | _, _ =>
      let datapath := match p_df cargs with
                      | None => p_spreadsheet cargs
                      | Some _ => p_spreadsheet cargs
                      end in
      match resolved_path datapath with
      | Raise e => raise e
      | Ok path =>
          init (mkInitArgs path (p_target cargs) (p_drop_nan cargs) (p_feat_clean cargs)
                  (p_feat_select cargs) (p_n_feat cargs) (p_mode cargs)
                  (p_classifiers cargs) (p_regressors cargs) (p_htune cargs)
                  (p_htune_val cargs) (p_htune_trials cargs) (p_test_val cargs)
                  (p_outdir cargs)
                  (match p_spreadsheet cargs with Some _ => true | None => false end)
                  (p_verbosity cargs))
      end
  end.

End Parsed.

End Cli.

(** ** df-analyze.py *)

Module DfAnalyze.

(** *** Tables *)

Definition cell_is_num (c : cell) : bool :=
  match c with CNum _ => true | CStr _ => false end.

Definition Qltb (a b : Q) : bool := negb (Qle_bool b a).

(** [a < b] on cells of one kind. *)
Definition cell_lt (a b : cell) : bool :=
  match a, b with
  | CNum x, CNum y => Qltb x y
  | CStr x, CStr y => String.ltb x y
  | _, _ => false
  end.

Fixpoint index_of (name : string) (cols : list string) : option nat :=
  match cols with
  | [] => None
  | c :: rest =>
      if String.eqb c name then Some 0%nat
      else option_map S (index_of name rest)
  end.

Definition cell_at (i : nat) (row : list cell) : cell := nth i row (CStr "").

(** [df.sort_values(by=by_, ascending=ascending)] on a table whose rows
    are as long as its header: an unknown label is a [KeyError], a column
    that mixes text and numbers cannot be ordered.  The labels of a table
    are taken to be distinct.  Rows with equal keys keep their order here;
    pandas leaves their order open. *)
Definition sort_values (df : DataFrame) (by_ : string) (ascending : bool) : Result DataFrame :=
  match index_of by_ (columns df) with
  | None => Raise (KeyError by_)
  | Some i =>
      let keys := map (cell_at i) (rows df) in
      if forallb cell_is_num keys || forallb (fun c => negb (cell_is_num c)) keys
      then
        let lt := fun (r1 r2 : list cell) =>
                    if ascending then cell_lt (cell_at i r1) (cell_at i r2)
                    else cell_lt (cell_at i r2) (cell_at i r1) in
        Ok (mkDF (columns df) (sorted lt (rows df)))
      else Raise TypeError
  end.

(** The loop of [sort_df] and [print_sorted] over the lowered names. *)
Fixpoint find_sort_col (cols : list string) : option string :=
  match cols with
  | [] => None
  | col :: rest =>
      if PyStr.contains "mae" col && negb (PyStr.contains "sd" col)
      then Some col
      else find_sort_col rest
  end.

Definition sort_df (df : DataFrame) : Result DataFrame :=
  let cols := map PyStr.lower (columns df) in
  match find_sort_col cols with
  | None => Ok df
  | Some sort_col =>
      let is_regression := true in
      let ascending := is_regression in
      sort_values df sort_col ascending
  end.

Definition lift {A} (r : Result A) : M A := fun w => (r, w).

Section Run.
Context {E : Env}.

Definition print_sorted (df : DataFrame) : M unit :=
  let cols := map PyStr.lower (columns df) in
  match find_sort_col cols with
  | None => print (to_markdown df "simple" "0.3f")
  | Some sort_col =>
      sorted_df <- lift (sort_values df sort_col true) ;;
      print (to_markdown sorted_df "simple" "0.3f")
  end.

Definition write_json (df : DataFrame) (json : Path) : M unit :=
  r <- attempt (df_to_json df json ;;
                print ("Saved interim result to " ++ to_str json)) ;;
  match r with
  | Ok _ => ret tt
  | Raise _ =>
      print_exc ;;
      print ("Failed to save following results to " ++ to_str json) ;;
      discard (to_markdown df "simple" "0.5f")
  end.

Definition write_csv (df : DataFrame) (csv : Path) : M unit :=
  r <- attempt (df_to_csv df csv ;;
                print ("Saved interim result to " ++ to_str csv)) ;;
  match r with
  | Ok _ => ret tt
  | Raise _ =>
      print_exc ;;
      print ("Failed to save following results to " ++ to_str csv) ;;
      discard (to_markdown df "simple" "0.5f")
  end.

Definition try_save (df : DataFrame) (outdir : Path) (file_info : string) : M unit :=
  let json := outdir // (file_info ++ ".json") in
  let csv := outdir // (file_info ++ ".csv") in
  write_json df json ;;
  write_csv df csv.

(** [ctime().replace(":", "-").replace("  ", " ").replace(" ", "_")] *)
Definition timestamp_now : M string :=
  t <- ctime ;;
  ret (PyStr.replace " " "_" (PyStr.replace "  " " " (PyStr.replace ":" "-" t))).

Definition save_interim_result (args : LoopArgs) (result : DataFrame) : M unit :=
  let estimator := estimator args in
  match run_outdir (options args) with
  | None => ret tt
  | Some outdir =>
      let step := match feature_selection args with
                  | Some sel => String.eqb "step-up" sel
                  | None => false
                  end in
      timestamp <- timestamp_now ;;
      let file_info := ("results__" ++ estimator ++ (if step then "_step-up" else "")
                        ++ "__" ++ timestamp)%string in
      try_save result outdir file_info
  end.

(** One turn of the loop of [run_analysis]; the progress bar is display
    only and is left out. *)
Definition loop_body (results : list DataFrame) (arg : LoopArgs) : M (list DataFrame) :=
  result <- full_estimator_analysis arg ;;
  let results := results ++ [result] in
  save_interim_result arg result ;;
  ret results.

Fixpoint run_loop (loop_args : list LoopArgs) (results : list DataFrame)
    : M (list DataFrame) :=
  match loop_args with
  | [] => ret results
  | arg :: rest =>
      results <- loop_body results arg ;;
      run_loop rest results
  end.

(** [str(estimators)] with blanks, commas, brackets and quotes rewritten *)
Definition models_text (estimators : list string) : string :=
  PyStr.replace "'" ""
    (PyStr.replace ")" ""
       (PyStr.replace "(" ""
          (PyStr.replace "," "_"
             (PyStr.replace " " "" (PyStr.str_tuple estimators))))).

(** What [run_analysis] does before the loop. *)
Definition prepare (loop_args : list LoopArgs) : M Path :=
  match loop_args with
  | [] => raise IndexError
  | first :: _ =>
      match run_outdir (options first) with
      | None => raise AttributeError
      | Some results_dir =>
          found <- path_exists results_dir ;;
          (if negb found then mkdir_p results_dir else ret tt) ;;
          ret results_dir
      end
  end.

(** What [run_analysis] does after the loop. *)
Definition finish (results_dir : Path) (results : list DataFrame)
    (estimators : list string) (is_stepup : bool) : M DataFrame :=
  df <- lift (sort_df (pd_concat results)) ;;
  timestamp <- timestamp_now ;;
  let models := models_text estimators in
  let file_info := ("results__" ++ models ++ (if is_stepup then "__step-up" else "")
                    ++ "__" ++ timestamp)%string in
  try_save df results_dir file_info ;;
  print_sorted df ;;
  ret df.

Definition run_analysis (loop_args : list LoopArgs) (estimators : list string)
    (is_stepup : bool) : M DataFrame :=
  results_dir <- prepare loop_args ;;
  results <- run_loop loop_args [] ;;
  finish results_dir results estimators is_stepup.

End Run.

(** The grid of the main block: [ParameterGrid] goes through its keys in
    sorted order ([estimator], [feature_selection], [options]) and lets
    the last one run fastest; [options] has one value.  This is the grid
    of non-empty tuples: what [ParameterGrid] makes of an empty one is
    for the installed library to say. *)
Definition grid (opts : Cli.ProgramOptions) (estimators feature_selection : list string)
  : list LoopArgs :=
  flat_map
    (fun e =>
       map (fun f => mkLoopArgs (mkRunOptions (Some (Cli.outdir opts))) e (Some f))
           feature_selection)
    estimators.

End DfAnalyze.

(** ** A small world to run the code in *)

Module Demo.

(** The table the analysis of estimator [e] returns. *)
Definition table_of (e : string) : DataFrame :=
  mkDF ["model"; "acc"] [[CStr e; CNum (4 # 5)]].

Definition five : Qc := Q2Qc 5.

(** [repr] of a float: right for whole numbers below [10 ^ 16] and for
    the fractions listed; other fractions are shown as a quotient. *)
Definition float_text (q : Qc) : string :=
  if Z.eqb (Zpos (Qden q)) 1
  then NilZero.string_of_int (Z.to_int (Qnum q)) ++ ".0"
  else if Qeq_bool q (1 # 5) then "0.2"
  else if Qeq_bool q (1 # 2) then "0.5"
  else NilZero.string_of_int (Z.to_int (Qnum q)) ++ "/"
       ++ NilZero.string_of_int (Z.to_int (Zpos (Qden q))).

(** Everything exists and is writable except what [missing] and
    [readonly] name; writes fail as [json_err] and [csv_err] say. *)
Definition env (missing readonly : Path -> bool)
    (json_err csv_err : option exn) : Env := {|
  env_access_w := fun _ p => negb (missing p) && negb (readonly p);
  env_exists := fun _ p => negb (missing p);
  env_is_dir := fun _ p => negb (missing p);
  env_is_file := fun _ p => negb (missing p);
  env_mkdir := fun _ _ => None;
  env_mkdtemp := fun _ _ => inr ["tmp"; "df_analyze_tmp0"];
  env_to_json := fun _ _ _ => json_err;
  env_to_csv := fun _ _ _ => csv_err;
  env_ctime := fun w => "Tue Nov  3 10:20:30 2026";
  env_analysis := fun _ arg => Ok (table_of (estimator arg));
  env_home := ["home"; "user"];
  env_cwd := ["work"];
  format_exc := fun _ => "Traceback";
  md5_hexdigest := fun s => s;
  float_repr := float_text;
  to_markdown := fun _ _ _ => "TABLE";
  pd_concat := fun frames =>
    mkDF (match frames with f :: _ => columns f | [] => [] end)
         (flat_map rows frames);
  setup_io := fun _ _ => ([], Ok Saving.ProgramDirs_default)
|}.

Definition nowhere (p : Path) : bool := false.
Definition only (q : Path) (p : Path) : bool := PyPath.eqb p q.

Definition plain : Env := env nowhere nowhere None None.

#[refine] Definition first_seen : PySet :=
  {| set_iter := nodup string_dec; set_iter_num := num_dedup |}.
Proof. all: intros; apply Permutation_refl. Defined.

(** A reader of a few size texts. *)
Definition sizes : Cli.FloatText := {|
  Cli.float_of_str := fun s =>
    if String.eqb s "0.2" then Some (Cli.FFinite (1 # 5))
    else if String.eqb s "5" then Some (Cli.FFinite 5)
    else if String.eqb s "1" then Some (Cli.FFinite 1)
    else if String.eqb s "2.5" then Some (Cli.FFinite (5 # 2))
    else if String.eqb s "nan" then Some Cli.FNan
    else if String.eqb s "inf" then Some (Cli.FInf false)
    else None
|}.



(** The same two sizes, the whole number once as an [int] and once as a
    [float], listed in the two orders. *)
Definition int_first : dict raw_option :=
  [ ("test_val_sizes", Sizes [NInt 5; NFloat five]) ].

Definition float_first : dict raw_option :=
  [ ("test_val_sizes", Sizes [NFloat five; NInt 5]) ].

(** A regression run that asks for Cohen's d, in a world where the
    default output directory is not there yet. *)
Definition regress_args : Cli.InitArgs :=
  Cli.mkInitArgs ["data"; "x.csv"] "y" "none" ["constant"] ["pca"; "d"; "pca"] 10
    "regress" ["svm"] ["linear"] false "kfold" 100 "kfold" None false Cli.INFO.

Definition fresh_outdir : Env :=
  env (only ["data"; "df-analyze-results__x"]) nowhere None None.

(** A classification run with the same choices, and what its
    construction returns in the plain world. *)
Definition classify_args : Cli.InitArgs :=
  Cli.mkInitArgs ["data"; "x.csv"] "y" "none" ["constant"] ["pca"; "d"; "pca"] 10
    "classify" ["svm"] ["linear"] false "kfold" 100 "kfold" None false Cli.INFO.

Definition classify_options : Cli.ProgramOptions :=
  let cleaning := Cli.mkCleaningOptions ["data"; "x.csv"] "y" ["constant"] "none" in
  Cli.mkProgramOptions cleaning
    (Cli.mkSelectionOptions cleaning "classify" ["svm"] ["linear"] ["d"; "pca"] 10)
    ["data"; "x.csv"] "y" "none" ["constant"] ["d"; "pca"] 10 "classify" ["svm"]
    ["linear"] false "kfold" 100 "kfold" ["data"; "df-analyze-results__x"]
    Saving.ProgramDirs_default false Cli.INFO.

Definition classify_trace : World :=
  [ EExists ["data"; "x.csv"] true; EIsFile ["data"; "x.csv"] true;
    EExists ["data"; "df-analyze-results__x"] true;
    EIsDir ["data"; "df-analyze-results__x"] true;
    EPrint "To silence these warnings, use `--verbosity=0`." ].

(** Four grid points that share one output directory, in a world where
    no write succeeds. *)
Definition point (e : string) (sel : string) : LoopArgs :=
  mkLoopArgs (mkRunOptions (Some ["o"])) e (Some sel).

Definition grid : list LoopArgs :=
  [point "knn" "none"; point "knn" "step-up"; point "svm" "none"; point "svm" "step-up"].

Definition disk_full : Env :=
  env nowhere nowhere (Some (OSError OtherOSError)) (Some (OSError OtherOSError)).

Fixpoint analyses (w : World) : nat :=
  match w with
  | [] => 0
  | EAnalysis _ _ :: w' => S (analyses w')
  | _ :: w' => analyses w'
  end.

(** The world [base], except that the analysis fails from its call
    number [k + 1] on. *)
Definition stops_after (k : nat) (base : Env) : Env := {|
  env_access_w := @env_access_w base;
  env_exists := @env_exists base;
  env_is_dir := @env_is_dir base;
  env_is_file := @env_is_file base;
  env_mkdir := @env_mkdir base;
  env_mkdtemp := @env_mkdtemp base;
  env_to_json := @env_to_json base;
  env_to_csv := @env_to_csv base;
  env_ctime := @env_ctime base;
  env_analysis := fun w arg =>
    if (k <=? analyses w)%nat then Raise (OtherException "analysis stopped")
    else @env_analysis base w arg;
  env_home := @env_home base;
  env_cwd := @env_cwd base;
  format_exc := @format_exc base;
  md5_hexdigest := @md5_hexdigest base;
  float_repr := @float_repr base;
  to_markdown := @to_markdown base;
  pd_concat := @pd_concat base;
  setup_io := @setup_io base
|}.

End Demo.

(** ** What an observer sees of a trace *)

(** The lines written to standard output. *)
Fixpoint stdout (w : World) : list string :=
match w with
| [] => []
| EPrint msg :: w' => msg :: stdout w'
| _ :: w' => stdout w'
end.

(** The files the trace has written in full. *)
Fixpoint files_written (w : World) : list Path :=
match w with
| [] => []
| EToJson _ p None :: w' => p :: files_written w'
| EToCsv _ p None :: w' => p :: files_written w'
| _ :: w' => files_written w'
end.

(** The paths the trace has tried to write, in order. *)
Fixpoint write_paths (w : World) : list Path :=
match w with
| [] => []
| EToJson _ p _ :: w' => p :: write_paths w'
| EToCsv _ p _ :: w' => p :: write_paths w'
| _ :: w' => write_paths w'
end.

(** Whether the grid point is marked as step-up in its file name. *)
Definition is_step_up (arg : LoopArgs) : bool :=
match feature_selection arg with
| Some sel => String.eqb "step-up" sel
| None => false
end.

(** The directories the trace has asked for and obtained. *)
Fixpoint dirs_made (w : World) : list Path :=
match w with
| [] => []
| EMkdir p None :: w' => p :: dirs_made w'
| EMkdtemp _ (inr p) :: w' => p :: dirs_made w'
| _ :: w' => dirs_made w'
end.

(** The events of one write attempt, by its outcome. *)
Definition json_outcome (df : DataFrame) (json : Path) (saved failed : string)
  (err : option exn) : list event :=
match err with
| None => [EToJson df json None; EPrint saved]
| Some e => [EToJson df json (Some e); ETraceback; EPrint failed]
end.

Definition csv_outcome (df : DataFrame) (csv : Path) (saved failed : string)
  (err : option exn) : list event :=
match err with
| None => [EToCsv df csv None; EPrint saved]
| Some e => [EToCsv df csv (Some e); ETraceback; EPrint failed]
end.

(** The line [try_save] of [df-analyze.py] prints for one format. *)
Definition interim_line (p : Path) (err : option exn) : string :=
match err with
| None => "Saved interim result to " ++ to_str p
| Some _ => "Failed to save following results to " ++ to_str p
end.

(** The lines [try_save] of [src/saving.py] prints for the two formats. *)
Definition saved_json_line (desc : string) (p : Path) (err : option exn) : string :=
match err with
| None => "Saved " ++ desc ++ " to " ++ to_str p
| Some _ => "Failed to save following results to " ++ to_str p
end.

Definition saved_csv_line (desc : string) (p : Path) (err : option exn) : string :=
match err with
| None => "Saved " ++ desc ++ " to " ++ to_str p
| Some _ => "Failed to save " ++ desc ++ " results to " ++ to_str p ++ ":"
end.

(** The run loop with its grid points: which point the analysis was
    called for and what it returned, and which table a write was attempted
    for, and where. *)
Inductive step :=
| StepAnalysis (arg : LoopArgs) (res : Result DataFrame)
| StepJson (df : DataFrame) (p : Path)
| StepCsv (df : DataFrame) (p : Path).

Fixpoint steps (w : World) : list step :=
match w with
| [] => []
| EAnalysis arg res :: w' => StepAnalysis arg res :: steps w'
| EToJson df p _ :: w' => StepJson df p :: steps w'
| EToCsv df p _ :: w' => StepCsv df p :: steps w'
| _ :: w' => steps w'
end.

(** The name of the interim files of a grid point, and of the files of
    the aggregate, for a time stamp. *)
Definition interim_name (arg : LoopArgs) (stamp : string) : string :=
"results__" ++ estimator arg ++ (if is_step_up arg then "_step-up" else "") ++ "__" ++ stamp.

Definition final_name (estimators : list string) (is_stepup : bool) (stamp : string)
  : string :=
"results__" ++ DfAnalyze.models_text estimators ++ (if is_stepup then "__step-up" else "")
++ "__" ++ stamp.

(** What one completed grid point leaves among the steps, [stamp] being
    the time stamp of its interim save. *)
Definition point_steps (point : LoopArgs * DataFrame * string) : list step :=
let '(arg, result, stamp) := point in
StepAnalysis arg (Ok result) ::
match run_outdir (options arg) with
| Some outdir =>
    [StepJson result (outdir // (interim_name arg stamp ++ ".json"));
     StepCsv result (outdir // (interim_name arg stamp ++ ".csv"))]
| None => []
end.

(** Rows in ascending order of column [i]: no row has a key below the
    key of the row before it. *)
Definition ascending_by (i : nat) (rs : list (list cell)) : Prop :=
Sorted (fun r1 r2 => DfAnalyze.cell_lt (DfAnalyze.cell_at i r2) (DfAnalyze.cell_at i r1) = false)
       rs.

(** No two rows have equal keys in column [i]: of two rows one has the
    smaller key. *)
Definition distinct_keys (i : nat) (rs : list (list cell)) : Prop :=
NoDup rs
/\ forall r1 r2, In r1 rs -> In r2 rs ->
     r1 = r2
     \/ DfAnalyze.cell_lt (DfAnalyze.cell_at i r1) (DfAnalyze.cell_at i r2) = true
     \/ DfAnalyze.cell_lt (DfAnalyze.cell_at i r2) (DfAnalyze.cell_at i r1) = true.

(** The table has no two rows with equal keys in the column [sort_df]
    sorts by.  pandas leaves the order of such rows open. *)
Definition no_ties (df : DataFrame) : Prop :=
forall col i,
  DfAnalyze.find_sort_col (map PyStr.lower (columns df)) = Some col ->
  DfAnalyze.index_of col (columns df) = Some i ->
  distinct_keys i (rows df).

(** The run loop seen from afar: which tables were computed, and which
    tables a write was attempted for. *)
Inductive mark :=
| Analysed (df : DataFrame)
| AnalysisFailed
| JsonAttempt (df : DataFrame)
| CsvAttempt (df : DataFrame).

Fixpoint outline (w : World) : list mark :=
match w with
| [] => []
| EAnalysis _ (Ok df) :: w' => Analysed df :: outline w'
| EAnalysis _ (Raise _) :: w' => AnalysisFailed :: outline w'
| EToJson df _ _ :: w' => JsonAttempt df :: outline w'
| EToCsv df _ _ :: w' => CsvAttempt df :: outline w'
| _ :: w' => outline w'
end.

(** What one completed grid point leaves in the outline. *)
Definition point_marks (point : LoopArgs * DataFrame) : list mark :=
let '(arg, result) := point in
Analysed result ::
match run_outdir (options arg) with
| Some _ => [JsonAttempt result; CsvAttempt result]
| None => []
end.

(** * Properties *)

(** ** The order on strings *)

Lemma ltb_lt (a b : string) : String.ltb a b = true <-> String_as_OT.lt a b.
Proof.
  unfold String.ltb. rewrite <- String_as_OT.cmp_lt. unfold String_as_OT.cmp.
  destruct (String.compare a b); split; congruence.
Qed.

Lemma ltb_trans (a b c : string) :
  String.ltb a b = true -> String.ltb b c = true -> String.ltb a c = true.
Proof.
  rewrite !ltb_lt. apply String_as_OT.lt_trans.
Qed.

Lemma ltb_irrefl (a : string) : String.ltb a a = false.
Proof.
  destruct (String.ltb a a) eqn:H; [|reflexivity].
  apply ltb_lt in H. exfalso. exact (String_as_OT.lt_not_eq _ _ H eq_refl).
Qed.

Lemma ltb_total (a b : string) :
  a <> b -> String.ltb a b = false -> String.ltb b a = true.
Proof.
  unfold String.ltb. intros Hne. rewrite (String.compare_antisym b a).
  destruct (String.compare a b) eqn:Hc; simpl; try congruence.
  apply String.compare_eq_iff in Hc. contradiction.
Qed.

Lemma ltb_asym (a b : string) :
  String.ltb a b = true -> String.ltb b a = true -> False.
Proof.
  intros H1 H2. pose proof (ltb_trans _ _ _ H1 H2) as H.
  rewrite ltb_irrefl in H. discriminate.
Qed.

(** ** [sorted] on lists whose keys are pairwise distinct *)

Section SortedByKey.
Context {A : Type} (key : A -> string).

Let lt (a b : A) : bool := String.ltb (key a) (key b).
Let below (a b : A) : Prop := String.ltb (key a) (key b) = true.

Lemma insert_sorted_perm (x : A) (l : list A) :
  Permutation (insert_sorted lt x l) (x :: l).
Proof.
  induction l as [|y l IH]; simpl; [apply Permutation_refl|].
  destruct (lt y x).
  - eapply Permutation_trans; [apply perm_skip, IH | apply perm_swap].
  - apply Permutation_refl.
Qed.

Lemma sorted_perm (l : list A) : Permutation (sorted lt l) l.
Proof.
  induction l as [|x l IH]; simpl; [constructor|].
  eapply Permutation_trans; [apply insert_sorted_perm | apply perm_skip, IH].
Qed.

Lemma insert_sorted_strong (x : A) (l : list A) :
  StronglySorted below l ->
  (forall y, In y l -> key y <> key x) ->
  StronglySorted below (insert_sorted lt x l).
Proof.
  induction l as [|y l IH]; simpl; intros Hs Hk.
  - repeat constructor.
  - inversion Hs as [|? ? Hs' Hall]; subst.
    destruct (lt y x) eqn:Hyx.
    + constructor.
      * apply IH; auto.
      * rewrite Forall_forall in *. intros z Hz.
        apply (Permutation_in _ (insert_sorted_perm x l)) in Hz.
        destruct Hz as [<-|Hz]; [exact Hyx | auto].
    + assert (Hxy : below x y).
      { apply ltb_total; [apply Hk; now left | exact Hyx]. }
      constructor; [exact Hs|].
      constructor; [exact Hxy|].
      rewrite Forall_forall in *. intros z Hz.
      eapply ltb_trans; [exact Hxy | apply Hall, Hz].
Qed.

Lemma sorted_strong (l : list A) :
  NoDup (map key l) -> StronglySorted below (sorted lt l).
Proof.
  induction l as [|x l IH]; simpl; intros Hnd; [constructor|].
  inversion Hnd as [|? ? Hnin Hnd']; subst.
  apply insert_sorted_strong; [auto|].
  intros y Hy Heq. apply Hnin. rewrite <- Heq. apply in_map.
  apply (Permutation_in _ (sorted_perm l)). exact Hy.
Qed.

Lemma strongly_sorted_unique (l1 l2 : list A) :
  StronglySorted below l1 -> StronglySorted below l2 ->
  Permutation l1 l2 -> l1 = l2.
Proof.
  revert l2. induction l1 as [|a l1 IH]; intros l2 H1 H2 Hp.
  - apply Permutation_nil in Hp. now subst.
  - destruct l2 as [|b l2].
    + apply Permutation_sym, Permutation_nil in Hp. discriminate.
    + inversion H1 as [|? ? H1' Ha]; inversion H2 as [|? ? H2' Hb]; subst.
      rewrite Forall_forall in Ha, Hb.
      assert (Hab : a = b).
      { assert (Hin1 : In a (b :: l2)) by (apply (Permutation_in _ Hp); now left).
        assert (Hin2 : In b (a :: l1))
          by (apply (Permutation_in _ (Permutation_sym Hp)); now left).
        destruct Hin1 as [Hba|Hin1]; [now symmetry|].
        destruct Hin2 as [Hab|Hin2]; [exact Hab|].
        exfalso. eapply ltb_asym; [apply Ha, Hin2 | apply Hb, Hin1]. }
      subst b. f_equal. apply IH; auto.
      eapply Permutation_cons_inv; exact Hp.
Qed.

(** Sorting forgets the order the elements came in. *)
Lemma sorted_of_perm (l1 l2 : list A) :
  NoDup (map key l1) -> Permutation l1 l2 -> sorted lt l1 = sorted lt l2.
Proof.
  intros Hnd Hp.
  apply strongly_sorted_unique.
  - now apply sorted_strong.
  - apply sorted_strong.
    eapply Permutation_NoDup; [apply Permutation_map, Hp | exact Hnd].
  - eapply Permutation_trans; [apply sorted_perm|].
    eapply Permutation_trans; [exact Hp | apply Permutation_sym, sorted_perm].
Qed.

End SortedByKey.

(** ** [sorted] for any strict comparison *)

Section SortedAny.
Context {A : Type} (lt : A -> A -> bool).

Let not_above (a b : A) : Prop := lt b a = false.

Lemma insert_sorted_perm_any (x : A) (l : list A) :
  Permutation (insert_sorted lt x l) (x :: l).
Proof.
  induction l as [|y l IH]; simpl; [apply Permutation_refl|].
  destruct (lt y x).
  - eapply Permutation_trans; [apply perm_skip, IH | apply perm_swap].
  - apply Permutation_refl.
Qed.

Lemma sorted_perm_any (l : list A) : Permutation (sorted lt l) l.
Proof.
  induction l as [|x l IH]; simpl; [constructor|].
  eapply Permutation_trans; [apply insert_sorted_perm_any | apply perm_skip, IH].
Qed.

Hypothesis lt_asym : forall a b, lt a b = true -> lt b a = false.

Lemma insert_sorted_ascending (x : A) (l : list A) :
  Sorted not_above l -> Sorted not_above (insert_sorted lt x l).
Proof.
  induction l as [|y l IH]; simpl; intros Hs.
  - repeat constructor.
  - inversion Hs as [|? ? Hs' Hhd]; subst.
    destruct (lt y x) eqn:Hyx.
    + constructor; [now apply IH|].
      destruct l as [|z l]; simpl.
      * constructor. now apply lt_asym.
      * destruct (lt z x); constructor.
        -- now inversion Hhd.
        -- now apply lt_asym.
    + constructor; [exact Hs|]. constructor. exact Hyx.
Qed.

Lemma sorted_ascending (l : list A) : Sorted not_above (sorted lt l).
Proof.
  induction l as [|x l IH]; simpl; [constructor | now apply insert_sorted_ascending].
Qed.

(** Sorting again changes nothing. *)
Lemma sorted_fixed (l : list A) : Sorted not_above l -> sorted lt l = l.
Proof.
  induction l as [|x l IH]; simpl; intros Hs; [reflexivity|].
  inversion Hs as [|? ? Hs' Hhd]; subst. rewrite (IH Hs').
  destruct l as [|y l]; simpl; [reflexivity|].
  inversion Hhd; subst. unfold not_above in *.
  match goal with H : lt y x = false |- _ => now rewrite H end.
Qed.

Hypothesis lt_trans : forall a b c, lt a b = true -> lt b c = true -> lt a c = true.

Let strictly (a b : A) : Prop := lt a b = true.

(** Without equal keys an ascending list is strictly ascending. *)
Lemma ascending_strict (l : list A) :
  NoDup l ->
  (forall x y, In x l -> In y l -> x = y \/ lt x y = true \/ lt y x = true) ->
  Sorted not_above l -> StronglySorted strictly l.
Proof.
  induction l as [|a l IH]; intros Hnd Hcmp Hs; [constructor|].
  inversion Hnd as [|? ? Hnin Hnd']; subst.
  inversion Hs as [|? ? Hs' Hhd]; subst.
  assert (IHl : StronglySorted strictly l).
  { apply IH; auto. intros x y Hx Hy. apply Hcmp; now right. }
  constructor; [exact IHl|].
  destruct l as [|b l]; [constructor|].
  inversion Hhd as [|? ? Hba]; subst.
  assert (Hab : strictly a b).
  { destruct (Hcmp a b) as [Heq|[H|H]]; [now left | right; now left | | exact H | ].
    - subst. exfalso. apply Hnin. now left.
    - unfold not_above in Hba. congruence. }
  constructor; [exact Hab|].
  inversion IHl as [|? ? _ Hall]; subst.
  rewrite Forall_forall in *. intros c Hc.
  eapply lt_trans; [exact Hab | apply Hall, Hc].
Qed.

Lemma strictly_sorted_unique (l1 l2 : list A) :
  StronglySorted strictly l1 -> StronglySorted strictly l2 ->
  Permutation l1 l2 -> l1 = l2.
Proof.
  revert l2. induction l1 as [|a l1 IH]; intros l2 H1 H2 Hp.
  - apply Permutation_nil in Hp. now subst.
  - destruct l2 as [|b l2].
    + apply Permutation_sym, Permutation_nil in Hp. discriminate.
    + inversion H1 as [|? ? H1' Ha]; inversion H2 as [|? ? H2' Hb]; subst.
      rewrite Forall_forall in Ha, Hb.
      assert (Hab : a = b).
      { assert (Hin1 : In a (b :: l2)) by (apply (Permutation_in _ Hp); now left).
        assert (Hin2 : In b (a :: l1))
          by (apply (Permutation_in _ (Permutation_sym Hp)); now left).
        destruct Hin1 as [Hba|Hin1]; [now symmetry|].
        destruct Hin2 as [Hab|Hin2]; [exact Hab|].
        exfalso. pose proof (lt_asym _ _ (Ha _ Hin2)) as Hno.
        pose proof (Hb _ Hin1) as Hyes. unfold strictly in Hyes. congruence. }
      subst b. f_equal. apply IH; auto.
      eapply Permutation_cons_inv; exact Hp.
Qed.

(** Without equal keys a list has one ascending arrangement only. *)
Lemma ascending_unique (l l1 l2 : list A) :
  NoDup l ->
  (forall x y, In x l -> In y l -> x = y \/ lt x y = true \/ lt y x = true) ->
  Permutation l1 l -> Permutation l2 l ->
  Sorted not_above l1 -> Sorted not_above l2 -> l1 = l2.
Proof.
  intros Hnd Hcmp Hp1 Hp2 Hs1 Hs2.
  apply strictly_sorted_unique.
  - apply ascending_strict; [| |exact Hs1].
    + eapply Permutation_NoDup; [apply Permutation_sym, Hp1 | exact Hnd].
    + intros x y Hx Hy.
      apply Hcmp; [exact (Permutation_in _ Hp1 Hx) | exact (Permutation_in _ Hp1 Hy)].
  - apply ascending_strict; [| |exact Hs2].
    + eapply Permutation_NoDup; [apply Permutation_sym, Hp2 | exact Hnd].
    + intros x y Hx Hy.
      apply Hcmp; [exact (Permutation_in _ Hp2 Hx) | exact (Permutation_in _ Hp2 Hy)].
  - eapply Permutation_trans; [exact Hp1 | apply Permutation_sym, Hp2].
Qed.

(** Sorting forgets the order the elements came in, when no two of them
    are equal. *)
Lemma sorted_of_perm_any (l1 l2 : list A) :
  NoDup l1 ->
  (forall x y, In x l1 -> In y l1 -> x = y \/ lt x y = true \/ lt y x = true) ->
  Permutation l1 l2 -> sorted lt l1 = sorted lt l2.
Proof.
  intros Hnd Hcmp Hp.
  apply (ascending_unique l1); auto.
  - apply sorted_perm_any.
  - eapply Permutation_trans; [apply sorted_perm_any | apply Permutation_sym, Hp].
  - apply sorted_ascending.
  - apply sorted_ascending.
Qed.

End SortedAny.

(** ** Numbers *)

Lemma num_eqb_value (x y : num) : num_eqb x y = true <-> num_value x = num_value y.
Proof.
  unfold num_eqb. rewrite Qeq_bool_iff. split.
  - apply Qc_is_canon.
  - intros ->. reflexivity.
Qed.

Lemma num_eqb_refl (x : num) : num_eqb x x = true.
Proof. now apply num_eqb_value. Qed.


Lemma num_ltb_lt (x y : num) : num_ltb x y = true <-> (num_value x < num_value y)%Q.
Proof.
  unfold num_ltb. rewrite negb_true_iff. split.
  - intros H. apply Qnot_le_lt. intros Hle. apply Qle_bool_iff in Hle. congruence.
  - intros H. destruct (Qle_bool (num_value y) (num_value x)) eqn:Hb; [|reflexivity].
    apply Qle_bool_iff in Hb. exfalso. eapply Qlt_not_le; eauto.
Qed.

Lemma num_ltb_asym (x y : num) : num_ltb x y = true -> num_ltb y x = false.
Proof.
  intros H. apply num_ltb_lt in H. destruct (num_ltb y x) eqn:H2; [|reflexivity].
  apply num_ltb_lt in H2. exfalso.
  apply (Qlt_irrefl (num_value x)). eapply Qlt_trans; eauto.
Qed.

Lemma num_ltb_trans (x y z : num) :
  num_ltb x y = true -> num_ltb y z = true -> num_ltb x z = true.
Proof.
  rewrite !num_ltb_lt. apply Qlt_trans.
Qed.


Lemma num_dedup_In (x : num) (xs : list num) : In x (num_dedup xs) -> In x xs.
Proof.
  induction xs as [|a xs IH]; simpl; [tauto|].
  intros [->|H]; [now left|]. apply filter_In in H. right. now apply IH.
Qed.


Lemma num_dedup_NoDup (xs : list num) : NoDup (num_dedup xs).
Proof.
  induction xs as [|a xs IH]; simpl; constructor.
  - intros H. apply filter_In in H. destruct H as [_ H].
    rewrite num_eqb_refl in H. discriminate.
  - now apply NoDup_filter.
Qed.

(** Every number of the list has its value kept. *)
Lemma num_dedup_covers (xs : list num) (x : num) :
  In x xs -> exists x', In x' (num_dedup xs) /\ num_eqb x' x = true.
Proof.
  induction xs as [|a xs IH]; simpl; [tauto|].
  intros [<-|Hx].
  - exists a. split; [now left | apply num_eqb_refl].
  - destruct (IH Hx) as (x' & Hin & He).
    destruct (num_eqb a x') eqn:Ha.
    + exists a. split; [now left|].
      apply num_eqb_value. apply num_eqb_value in Ha. apply num_eqb_value in He. congruence.
    + exists x'. split; [|exact He]. right. apply filter_In. split; [exact Hin|].
      now rewrite Ha.
Qed.

(** Lists of the same numbers, none of them both as an [int] and as a
    [float], have the same numbers kept. *)
Lemma unmixed_same_kept (xs ys : list num) :
  (forall x, In x xs <-> In x ys) -> unmixed xs ->
  forall x, In x (num_dedup xs) <-> In x (num_dedup ys).
Proof.
  intros Hsame Hun.
  assert (Hun' : unmixed ys).
  { intros x y Hx Hy. apply Hun; now apply Hsame. }
  assert (Hkept : forall l, unmixed l -> forall x, In x (num_dedup l) <-> In x l).
  { intros l Hl x. split; [apply num_dedup_In|].
    intros Hx. destruct (num_dedup_covers l x Hx) as (x' & Hin & He).
    assert (x' = x) by (apply Hl; auto using num_dedup_In). now subst. }
  intros x. rewrite (Hkept xs Hun), (Hkept ys Hun'). apply Hsame.
Qed.

(** Sizes that come from the command line are never listed in both
    forms. *)
Lemma cli_sizes_unmixed (xs : list num) : Forall cli_size xs -> unmixed xs.
Proof.
  intros Hall x y Hx Hy He. rewrite Forall_forall in Hall.
  pose proof (Hall x Hx) as Cx. pose proof (Hall y Hy) as Cy.
  apply num_eqb_value in He.
  destruct x as [z|q], y as [z'|q']; simpl in *.
  - apply Q2Qc_eq_iff in He. f_equal. unfold Qeq, inject_Z in He. simpl in He. lia.
  - exfalso. destruct Cy as [_ Hlt]. rewrite <- He in Hlt.
    assert (Hz : (Q2Qc (inject_Z z) == inject_Z z)%Q) by apply Qred_correct.
    rewrite Hz in Hlt. change 1%Q with (inject_Z 1) in Hlt.
    rewrite <- Zlt_Qlt in Hlt. lia.
  - exfalso. destruct Cx as [_ Hlt]. rewrite He in Hlt.
    assert (Hz : (Q2Qc (inject_Z z') == inject_Z z')%Q) by apply Qred_correct.
    rewrite Hz in Hlt. change 1%Q with (inject_Z 1) in Hlt.
    rewrite <- Zlt_Qlt in Hlt. lia.
  - now subst.
Qed.


Lemma normalized_perm {S : PySet} (xs : list string) :
  Permutation (normalized xs) (nodup string_dec xs).
Proof.
  unfold normalized.
  eapply Permutation_trans; [apply (sorted_perm (fun s => s)) | apply set_iter_perm].
Qed.

Lemma normalized_In {S : PySet} (xs : list string) (x : string) :
  In x (normalized xs) <-> In x xs.
Proof.
  rewrite <- (nodup_In string_dec xs x). split; intro H.
  - eapply Permutation_in; [apply normalized_perm | exact H].
  - eapply Permutation_in; [apply Permutation_sym, normalized_perm | exact H].
Qed.

(** [tuple(sorted(set(xs)))] depends on the elements of [xs] only, not on
    their order, their repetitions or the iteration order of the set. *)
Lemma normalized_same_elements {S : PySet} (xs ys : list string) :
  (forall x, In x xs <-> In x ys) -> normalized xs = normalized ys.
Proof.
  intros Heq. unfold normalized.
  apply (sorted_of_perm (fun s => s)).
  - rewrite map_id. eapply Permutation_NoDup;
      [apply Permutation_sym, set_iter_perm | apply NoDup_nodup].
  - eapply Permutation_trans; [apply set_iter_perm|].
    eapply Permutation_trans; [|apply Permutation_sym, set_iter_perm].
    apply NoDup_Permutation; try apply NoDup_nodup.
    intro x. rewrite !nodup_In. apply Heq.
Qed.

(** ** Dictionaries *)

Lemma dict_get_None {V} (k : string) (d : dict V) :
  dict_get k d = None <-> ~ In k (keys d).
Proof.
  induction d as [|[k' v] d IH]; simpl; [tauto|].
  destruct (String.eqb_spec k k') as [->|Hne].
  - split; [discriminate | intros H; exfalso; apply H; now left].
  - rewrite IH. split; [intros H [Heq|Hin]; [now subst | auto] | tauto].
Qed.



Lemma dict_pop_raise {V} (k : string) (d : dict V) (e : exn) :
  dict_pop k d = Raise e -> e = KeyError k /\ ~ In k (keys d).
Proof.
  induction d as [|[k' v] d IH]; simpl.
  - intros H. inversion H. tauto.
  - destruct (String.eqb_spec k k') as [->|Hne]; [discriminate|].
    destruct (dict_pop k d) as [r|e'] eqn:Hp; [discriminate|].
    intros H. inversion H; subst. destruct (IH eq_refl) as [-> Hnin].
    split; [reflexivity | intros [Heq|Hin]; [now subst | auto]].
Qed.

Lemma dict_pop_ok {V} (k : string) (d d' : dict V) :
  dict_pop k d = Ok d' ->
  In k (keys d) /\
  incl (keys d') (keys d) /\
  (forall x, x <> k -> dict_get x d' = dict_get x d) /\
  (NoDup (keys d) -> NoDup (keys d') /\ dict_get k d' = None).
Proof.
  revert d'. induction d as [|[k' v] d IH]; simpl; intros d'; [discriminate|].
  destruct (String.eqb_spec k k') as [->|Hne].
  - intros H. inversion H; subst. repeat split.
    + now left.
    + intros x Hx. now right.
    + intros x Hx. destruct (String.eqb_spec x k'); [contradiction | reflexivity].
    + now inversion H0.
    + inversion H0; subst. now apply dict_get_None.
  - destruct (dict_pop k d) as [r|e] eqn:Hp; [|discriminate].
    intros H. inversion H; subst. destruct (IH r eq_refl) as (Hin & Hincl & Hget & Hnd).
    repeat split.
    + now right.
    + intros x [Hx|Hx]; [now left | right; auto].
    + intros x Hx. simpl. destruct (String.eqb_spec x k'); [reflexivity | auto].
    + inversion H0; subst. simpl. constructor; [|now apply Hnd].
      intros Hk. apply H3. now apply Hincl.
    + inversion H0; subst. simpl.
      destruct (String.eqb_spec k k'); [contradiction | now apply Hnd].
Qed.




(** ** [get_hash] *)

Section HashFacts.
Context {E : Env}.

Lemma pop_all_ok (ign : list string) (d d' : dict pyval) :
  Saving.pop_all ign d = Ok d' -> forall k, In k ign -> In k (keys d).
Proof.
  revert d. induction ign as [|i rest IH]; simpl; intros d H k Hk; [tauto|].
  destruct (dict_pop i d) as [d1|e] eqn:Hp; [|discriminate].
  destruct (dict_pop_ok _ _ _ Hp) as (Hin & Hincl & _).
  destruct Hk as [<-|Hk]; [exact Hin|].
  apply Hincl. eapply IH; eauto.
Qed.

Lemma pop_all_raise (ign : list string) (d : dict pyval) (e : exn) :
  Saving.pop_all ign d = Raise e -> exists k, In k ign /\ e = KeyError k.
Proof.
  revert d. induction ign as [|i rest IH]; simpl; intros d H; [discriminate|].
  destruct (dict_pop i d) as [d1|e'] eqn:Hp.
  - destruct (IH _ H) as (k & Hk & ->). exists k. split; [now right | reflexivity].
  - inversion H; subst. destruct (dict_pop_raise _ _ _ Hp) as [-> _].
    exists i. split; [now left | reflexivity].
Qed.

Lemma pop_all_total (ign : list string) (d : dict pyval) :
  NoDup ign -> incl ign (keys d) -> NoDup (keys d) ->
  exists d', Saving.pop_all ign d = Ok d'.
Proof.
  revert d. induction ign as [|i rest IH]; simpl; intros d Hnd Hincl Hd.
  - eauto.
  - inversion Hnd as [|? ? Hnin Hnd']; subst.
    destruct (dict_pop i d) as [d1|e] eqn:Hp.
    + destruct (dict_pop_ok _ _ _ Hp) as (_ & _ & Hget & Hnd1).
      apply IH; [exact Hnd' | | now apply Hnd1].
      intros k Hk.
      assert (Hne : k <> i) by (intros ->; contradiction).
      destruct (dict_get k d1) eqn:Hg.
      * apply Decidable.not_not; [|rewrite <- dict_get_None; congruence].
        destruct (in_dec string_dec k (keys d1)); [now left | now right].
      * rewrite (Hget k Hne) in Hg. apply dict_get_None in Hg.
        exfalso. apply Hg, Hincl. now right.
    + destruct (dict_pop_raise _ _ _ Hp) as [_ Hnin'].
      exfalso. apply Hnin', Hincl. now left.
Qed.



End HashFacts.



(** What is hashed for the two orders of an [int] and a [float] of value
    5, under any [md5]. *)
Lemma get_hash_sizes_texts {E : Env} {S : PySet} :
  float_repr Demo.five = "5.0" ->
  Saving.get_hash (stored_args Demo.int_first) None
  = Ok (md5_hexdigest "(('test_val_sizes', (5,)),)")
  /\ Saving.get_hash (stored_args Demo.float_first) None
     = Ok (md5_hexdigest "(('test_val_sizes', (5.0,)),)").
Proof.
  intros Hrepr.
  assert (H1 : normalized_sizes [NInt 5; NFloat Demo.five] = [NInt 5]).
  { unfold normalized_sizes.
    rewrite <- (sorted_of_perm_any num_ltb num_ltb_asym num_ltb_trans
                  (num_dedup [NInt 5; NFloat Demo.five]) (set_iter_num _)).
    - reflexivity.
    - apply num_dedup_NoDup.
    - intros x y [<-|[]] [<-|[]]. now left.
    - apply Permutation_sym, set_iter_num_perm. }
  assert (H2 : normalized_sizes [NFloat Demo.five; NInt 5] = [NFloat Demo.five]).
  { unfold normalized_sizes.
    rewrite <- (sorted_of_perm_any num_ltb num_ltb_asym num_ltb_trans
                  (num_dedup [NFloat Demo.five; NInt 5]) (set_iter_num _)).
    - reflexivity.
    - apply num_dedup_NoDup.
    - intros x y [<-|[]] [<-|[]]. now left.
    - apply Permutation_sym, set_iter_num_perm. }
  unfold Saving.get_hash, Demo.int_first, Demo.float_first, stored_args.
  cbn [map fst snd stored ignored Saving.pop_all].
  rewrite H1, H2. cbn. rewrite Hrepr. split; reflexivity.
Qed.


(** C10. [get_hash] pops every ignored name from its copy of the
    dictionary: a name that is not a key makes it raise a [KeyError], and
    it hands out a digest only when every ignored name is a key. *)
Theorem get_hash_ignores_must_be_keys {E : Env}
    (args : dict pyval) (ignores : list string) (missing : string) :
  In missing ignores -> ~ In missing (keys args) ->
  (exists k, In k ignores /\ Saving.get_hash args (Some ignores) = Raise (KeyError k))
  /\ (forall args' digest,
        Saving.get_hash args' (Some ignores) = Ok digest ->
        forall k, In k ignores -> In k (keys args')).
Proof.
  intros Hin Hnot. split.
  - unfold Saving.get_hash. simpl.
    destruct (Saving.pop_all ignores args) as [d'|e] eqn:Hp.
    + exfalso. apply Hnot. eapply pop_all_ok; eauto.
    + destruct (pop_all_raise _ _ _ Hp) as (k & Hk & ->). eauto.
  - intros args' digest H k Hk. unfold Saving.get_hash in H. simpl in H.
    destruct (Saving.pop_all ignores args') as [d'|e] eqn:Hp; [|discriminate].
    eapply pop_all_ok; eauto.
Qed.

Lemma get_hash_ignores_must_be_keys_witness :
  exists k, In k ["verbosity"]
    /\ Saving.get_hash (E := Demo.plain) [("n_feat", VInt 10)] (Some ["verbosity"])
       = Raise (KeyError k).
Proof.
  apply (proj1 (@get_hash_ignores_must_be_keys Demo.plain [("n_feat", VInt 10)]
                  ["verbosity"] "verbosity" (or_introl eq_refl)
                  (fun H => match H with
                            | or_introl e => ltac:(discriminate e)
                            | or_intror f => f
                            end))).
Defined.

(** ** Output directories *)

Ltac run_m :=
  unfold bind, ret, raise, attempt, emit, discard, warn, print, print_exc,
    os_access_w, path_exists, path_is_dir, path_is_file, mkdir_p, mkdtemp,
    df_to_json, df_to_csv, ctime, full_estimator_analysis, call_setup_io;
  simpl.

Section DirFacts.
Context {E : Env}.

(** The loop of [ProgramDirs.new] runs over the field names, which are
    strings and never paths: it leaves without touching the world. *)
Lemma make_dirs_over_keys (d : dict Saving.pyobj) (new : ProgramDirs) (w : World) :
  Saving.make_dirs (Saving.dict_iter d) new w = (Ok new, w).
Proof.
  induction d as [|[k v] d IH]; simpl; [reflexivity | exact IH].
Qed.

Lemma configure_root_never_raises (root : option Path) (w : World) :
  exists r w', Saving.configure_root root w = (Ok r, w').
Proof.
  unfold Saving.configure_root. run_m.
  destruct (Saving.configure_root_body root w) as [[v|e] w']; eauto.
Qed.

End DirFacts.

(** C1, as the code has it.  [ProgramDirs.new] does nothing to the world
    beyond what [configure_root] did: for a resolved root it returns the
    full layout and has asked for none of the subdirectories. *)
Theorem new_creates_no_subdirectory {E : Env} (requested : option Path) (w : World) :
  snd (Saving.new requested w) = snd (Saving.configure_root requested w)
  /\ forall r needs_clean,
       fst (Saving.configure_root requested w) = Ok (Some r, needs_clean) ->
       fst (Saving.new requested w)
       = Ok {| root := Some r;
               joblib_cache := Some (r // "__JOBLIB_CACHE__");
               inspection := Some (r // "inspection");
               features := Some (r // "features");
               associations := Some (r // "features/associations");
               predictions := Some (r // "features/predictions");
               selection := Some (r // "selection");
               tuning := Some (r // "tuning");
               results := Some (r // "results");
               needs_clean := needs_clean |}.
Proof.
  unfold Saving.new, bind.
  destruct (configure_root_never_raises requested w) as ([r nc] & w' & Hc).
  rewrite Hc. cbv beta iota zeta. destruct r as [r|].
  - rewrite make_dirs_over_keys. simpl. split; [reflexivity|].
    intros r' nc' H. inversion H; subst. reflexivity.
  - split; [reflexivity | discriminate].
Qed.

(** In a world where [/out] is writable and every [mkdir] would succeed,
    [ProgramDirs.new(Path("/out"))] asks for [/out] and for nothing below. *)
Example new_on_writable_root :
  snd (Saving.new (E := Demo.plain) (Some ["out"]) [])
  = [EAccessW ["out"] true; EAccessW ["out"] true; EMkdir ["out"] None].
Proof. reflexivity. Qed.

(** C2, as the code has it.  The [PermissionError] for a requested root
    that is not writable is raised inside the [try] of [configure_root] and
    caught by its own handler: the caller gets [(None, False)] and a
    warning. *)
Theorem configure_root_unwritable_request {E : Env} (requested : Path) (w : World) :
  env_access_w w requested = false ->
  Saving.configure_root (Some requested) w
  = (Ok (None, false),
     w ++ [EAccessW requested false]
       ++ [EWarn ("Could not create temporary directory. Falling back to storing results in memory. Error details:"
                  ++ format_exc (OSError PermissionError))]).
Proof.
  intros H. unfold Saving.configure_root, Saving.configure_root_body. run_m.
  rewrite H. simpl. now rewrite <- app_assoc.
Qed.

Lemma configure_root_unwritable_request_witness :
  Saving.configure_root (E := Demo.env Demo.nowhere (Demo.only ["ro"]) None None)
    (Some ["ro"]) []
  = (Ok (None, false),
     [] ++ [EAccessW ["ro"] false]
        ++ [EWarn ("Could not create temporary directory. Falling back to storing results in memory. Error details:"
                   ++ "Traceback")]).
Proof.
  apply (@configure_root_unwritable_request
           (Demo.env Demo.nowhere (Demo.only ["ro"]) None None) ["ro"] []).
  reflexivity.
Defined.

(** ** Saving a table in two formats *)

Section SaveFacts.
Context {E : Env}.

Lemma dfanalyze_write_json (df : DataFrame) (json : Path) (w : World) :
  DfAnalyze.write_json df json w
  = (Ok tt,
     w ++ json_outcome df json
            ("Saved interim result to " ++ to_str json)
            ("Failed to save following results to " ++ to_str json)
            (env_to_json w df json)).
Proof.
  unfold DfAnalyze.write_json. run_m.
  destruct (env_to_json w df json); simpl; now rewrite <- !app_assoc.
Qed.

Lemma dfanalyze_write_csv (df : DataFrame) (csv : Path) (w : World) :
  DfAnalyze.write_csv df csv w
  = (Ok tt,
     w ++ csv_outcome df csv
            ("Saved interim result to " ++ to_str csv)
            ("Failed to save following results to " ++ to_str csv)
            (env_to_csv w df csv)).
Proof.
  unfold DfAnalyze.write_csv. run_m.
  destruct (env_to_csv w df csv); simpl; now rewrite <- !app_assoc.
Qed.

Lemma saving_write_json (df : DataFrame) (json : Path) (desc : string) (w : World) :
  Saving.write_json df json desc w
  = (Ok tt,
     w ++ json_outcome df json
            ("Saved " ++ desc ++ " to " ++ to_str json)
            ("Failed to save following results to " ++ to_str json)
            (env_to_json w df json)).
Proof.
  unfold Saving.write_json. run_m.
  destruct (env_to_json w df json); simpl; now rewrite <- !app_assoc.
Qed.

Lemma saving_write_csv (df : DataFrame) (csv : Path) (desc : string) (w : World) :
  Saving.write_csv df csv desc w
  = (Ok tt,
     w ++ csv_outcome df csv
            ("Saved " ++ desc ++ " to " ++ to_str csv)
            ("Failed to save " ++ desc ++ " results to " ++ to_str csv ++ ":")
            (env_to_csv w df csv)).
Proof.
  unfold Saving.write_csv. run_m.
  destruct (env_to_csv w df csv); simpl; now rewrite <- !app_assoc.
Qed.

Lemma dfanalyze_try_save (df : DataFrame) (outdir : Path) (file_info : string) (w : World) :
  let json := outdir // (file_info ++ ".json") in
  let csv := outdir // (file_info ++ ".csv") in
  let J := json_outcome df json
             ("Saved interim result to " ++ to_str json)
             ("Failed to save following results to " ++ to_str json)
             (env_to_json w df json) in
  let C := csv_outcome df csv
             ("Saved interim result to " ++ to_str csv)
             ("Failed to save following results to " ++ to_str csv)
             (env_to_csv (w ++ J) df csv) in
  DfAnalyze.try_save df outdir file_info w = (Ok tt, w ++ J ++ C).
Proof.
  intros json csv J C. unfold DfAnalyze.try_save, bind.
  rewrite dfanalyze_write_json, dfanalyze_write_csv.
  now rewrite <- app_assoc.
Qed.

Lemma saving_write_both (df : DataFrame) (json csv : Path) (desc : string) (w : World) :
  let J := json_outcome df json
             ("Saved " ++ desc ++ " to " ++ to_str json)
             ("Failed to save following results to " ++ to_str json)
             (env_to_json w df json) in
  let C := csv_outcome df csv
             ("Saved " ++ desc ++ " to " ++ to_str csv)
             ("Failed to save " ++ desc ++ " results to " ++ to_str csv ++ ":")
             (env_to_csv (w ++ J) df csv) in
  (Saving.write_json df json desc ;; Saving.write_csv df csv desc) w = (Ok tt, w ++ J ++ C).
Proof.
  intros J C. unfold bind.
  rewrite saving_write_json, saving_write_csv.
  now rewrite <- app_assoc.
Qed.

Lemma stdout_app (w1 w2 : World) : stdout (w1 ++ w2) = stdout w1 ++ stdout w2.
Proof.
  induction w1 as [|e w1 IH]; simpl; [reflexivity|].
  destruct e; simpl; now rewrite ?IH.
Qed.

End SaveFacts.

(** C5. In both [try_save] functions the two writes stand apart: the JSON
    write is attempted, then the CSV write is attempted whatever became of
    the first, each succeeds or fails as the world decides at that moment,
    and the caller gets a normal return in all four cases. *)
Theorem try_save_writes_isolated {E : Env}
    (df : DataFrame) (outdir : Path) (file_info desc : string) (json csv : Path)
    (w : World) :
  (let json := outdir // (file_info ++ ".json") in
   let csv := outdir // (file_info ++ ".csv") in
   let J := json_outcome df json
              ("Saved interim result to " ++ to_str json)
              ("Failed to save following results to " ++ to_str json)
              (env_to_json w df json) in
   let C := csv_outcome df csv
              ("Saved interim result to " ++ to_str csv)
              ("Failed to save following results to " ++ to_str csv)
              (env_to_csv (w ++ J) df csv) in
   DfAnalyze.try_save df outdir file_info w = (Ok tt, w ++ J ++ C))
  /\
  (let J := json_outcome df json
              ("Saved " ++ desc ++ " to " ++ to_str json)
              ("Failed to save following results to " ++ to_str json)
              (env_to_json w df json) in
   let C := csv_outcome df csv
              ("Saved " ++ desc ++ " to " ++ to_str csv)
              ("Failed to save " ++ desc ++ " results to " ++ to_str csv ++ ":")
              (env_to_csv (w ++ J) df csv) in
   (Saving.write_json df json desc ;; Saving.write_csv df csv desc) w
   = (Ok tt, w ++ J ++ C)).
Proof.
  split; [apply dfanalyze_try_save | apply saving_write_both].
Qed.

(** A failed JSON write leaves the CSV file written, and the other way
    round. *)
Example json_fails_csv_written :
  DfAnalyze.try_save (E := Demo.env Demo.nowhere Demo.nowhere (Some TypeError) None)
    (mkDF ["a"] [[CNum 1]]) ["o"] "r" []
  = (Ok tt,
     [EToJson (mkDF ["a"] [[CNum 1]]) ["o"; "r.json"] (Some TypeError);
      ETraceback;
      EPrint "Failed to save following results to /o/r.json";
      EToCsv (mkDF ["a"] [[CNum 1]]) ["o"; "r.csv"] None;
      EPrint "Saved interim result to /o/r.csv"]).
Proof. reflexivity. Qed.

Example csv_fails_json_written :
  files_written
    (snd (DfAnalyze.try_save
            (E := Demo.env Demo.nowhere Demo.nowhere None (Some (OSError OtherOSError)))
            (mkDF ["a"] [[CNum 1]]) ["o"] "r" []))
  = [["o"; "r.json"]].
Proof. reflexivity. Qed.

(** C6, as the code has it.  The handler of a failed write computes the
    table rendering and drops it: what reaches standard output is one line
    per format, the line of a failed write being the notice alone. *)
Theorem failed_write_prints_no_table {E : Env}
    (df : DataFrame) (outdir : Path) (file_info desc : string) (json' csv' : Path)
    (w : World) :
  (let json := outdir // (file_info ++ ".json") in
   let csv := outdir // (file_info ++ ".csv") in
   let J := json_outcome df json
              ("Saved interim result to " ++ to_str json)
              ("Failed to save following results to " ++ to_str json)
              (env_to_json w df json) in
   stdout (snd (DfAnalyze.try_save df outdir file_info w))
   = stdout w ++ [interim_line json (env_to_json w df json);
                  interim_line csv (env_to_csv (w ++ J) df csv)])
  /\
  (let J := json_outcome df json'
              ("Saved " ++ desc ++ " to " ++ to_str json')
              ("Failed to save following results to " ++ to_str json')
              (env_to_json w df json') in
   stdout (snd ((Saving.write_json df json' desc ;; Saving.write_csv df csv' desc) w))
   = stdout w ++ [saved_json_line desc json' (env_to_json w df json');
                  saved_csv_line desc csv' (env_to_csv (w ++ J) df csv')]).
Proof.
  split.
  - intros json csv J.
    pose proof (dfanalyze_try_save df outdir file_info w) as H.
    cbv zeta in H. fold json csv in H. fold J in H. rewrite H.
    cbn [snd]. rewrite !stdout_app. f_equal.
    generalize (env_to_csv (w ++ J) df csv) as rc. unfold J.
    generalize (env_to_json w df json) as rj.
    intros [e|] [e'|]; reflexivity.
  - intros J.
    pose proof (saving_write_both df json' csv' desc w) as H.
    cbv zeta in H. fold J in H. rewrite H.
    cbn [snd]. rewrite !stdout_app. f_equal.
    generalize (env_to_csv (w ++ J) df csv') as rc. unfold J.
    generalize (env_to_json w df json') as rj.
    intros [e|] [e'|]; reflexivity.
Qed.

(** With a rendering that reads [TABLE] and a JSON write that fails, the
    word [TABLE] is nowhere on standard output. *)
Example failed_write_output :
  stdout (snd (DfAnalyze.try_save
                 (E := Demo.env Demo.nowhere Demo.nowhere (Some TypeError) None)
                 (mkDF ["a"] [[CNum 1]]) ["o"] "r" []))
  = ["Failed to save following results to /o/r.json";
     "Saved interim result to /o/r.csv"].
Proof. reflexivity. Qed.

(** ** The file type of a saved table *)

(** C4, amended.  [try_save] raises its [ValueError] at once, the world
    untouched, exactly for a [file_type] other than [Interim], [Final],
    [Feature] and [Params]: that includes the member [Univariate].  For
    those four it raises no [ValueError]. *)
Theorem try_save_file_types {E : Env} (program_dirs : ProgramDirs) (df : DataFrame)
    (file_stem : string) (file_type : Saving.file_type_arg) (sel : option string)
    (cleaning : list string) (w : World) :
  let run := Saving.try_save program_dirs df file_stem file_type sel cleaning w in
  let invalid := ValueError "Invalid FileType for manual saving" in
  match file_type with
  | Saving.Member Saving.Interim => forall msg, fst run <> Raise (ValueError msg)
  | Saving.Member Saving.Final => forall msg, fst run <> Raise (ValueError msg)
  | Saving.Member Saving.Feature => forall msg, fst run <> Raise (ValueError msg)
  | Saving.Member Saving.Params => forall msg, fst run <> Raise (ValueError msg)
  | Saving.Member Saving.Univariate => run = (Raise invalid, w)
  | Saving.Foreign _ => run = (Raise invalid, w)
  end.
Proof.
  intros run invalid. subst run.
  destruct file_type as [[| | | |]|what]; try reflexivity; intros msg; discriminate.
Qed.

(** The member [Univariate] of the enumeration is turned away. *)
Lemma try_save_univariate_raises :
  fst (Saving.try_save (E := Demo.plain) Saving.ProgramDirs_default (mkDF ["a"] [[CNum 1]])
         "stem" (Saving.Member Saving.Univariate) None [] [])
  = Raise (ValueError "Invalid FileType for manual saving").
Proof. reflexivity. Qed.

(** A [Feature] table is meant for the directory named after the
    selection method and the cleaning steps. *)
Example feature_directory_name :
  (Saving.selection_label (Some "pca") ++ Saving.cleaning_label ["constant"; "corr"])%string
  = "pca-selection_cleaning=constant-corr"
  /\ (Saving.selection_label (Some "none") ++ Saving.cleaning_label [])%string
     = "no-selection".
Proof. split; reflexivity. Qed.

(** ** Sorting the result table *)

Lemma index_of_None (name : string) (cols : list string) :
  ~ In name cols -> DfAnalyze.index_of name cols = None.
Proof.
  induction cols as [|c cols IH]; simpl; intros Hn; [reflexivity|].
  destruct (String.eqb_spec c name) as [->|Hne].
  - exfalso. apply Hn. now left.
  - rewrite IH; [reflexivity | tauto].
Qed.

Lemma sort_df_without_error_column (df : DataFrame) :
  DfAnalyze.find_sort_col (map PyStr.lower (columns df)) = None ->
  DfAnalyze.sort_df df = Ok df.
Proof.
  intros H. unfold DfAnalyze.sort_df. now rewrite H.
Qed.

(** C7, as the code has it.  [sort_df] finds the error column among the
    lowered names and then asks the table to sort by the lowered name: when
    the table does not spell the column that way, the sort is a
    [KeyError]. *)
Theorem sort_df_lowered_label (df : DataFrame) (sort_col : string) :
  DfAnalyze.find_sort_col (map PyStr.lower (columns df)) = Some sort_col ->
  ~ In sort_col (columns df) ->
  DfAnalyze.sort_df df = Raise (KeyError sort_col).
Proof.
  intros Hf Hn. unfold DfAnalyze.sort_df, DfAnalyze.sort_values.
  now rewrite Hf, (index_of_None _ _ Hn).
Qed.

Lemma sort_df_lowered_label_witness :
  DfAnalyze.sort_df (mkDF ["model"; "MAE"] [[CStr "A"; CNum 2]; [CStr "B"; CNum 1]])
  = Raise (KeyError "mae").
Proof.
  apply (sort_df_lowered_label
           (mkDF ["model"; "MAE"] [[CStr "A"; CNum 2]; [CStr "B"; CNum 1]]) "mae").
  - reflexivity.
  - simpl. intros [H|[H|H]]; [discriminate H | discriminate H | exact H].
Defined.

(** The example of the specification, whose names are lower case: row B
    comes before row A. *)
Example sort_df_by_mae :
  DfAnalyze.sort_df
    (mkDF ["model"; "mae"; "mae_sd"; "accuracy"]
       [ [CStr "A"; CNum 2; CNum (1 # 10); CNum (8 # 10)];
         [CStr "B"; CNum 1; CNum (2 # 10); CNum (7 # 10)] ])
  = Ok (mkDF ["model"; "mae"; "mae_sd"; "accuracy"]
          [ [CStr "B"; CNum 1; CNum (2 # 10); CNum (7 # 10)];
            [CStr "A"; CNum 2; CNum (1 # 10); CNum (8 # 10)] ]).
Proof. reflexivity. Qed.

Example sort_df_no_error_column :
  DfAnalyze.sort_df
    (mkDF ["model"; "accuracy"; "f1"]
       [ [CStr "A"; CNum (8 # 10); CNum (5 # 10)];
         [CStr "B"; CNum (7 # 10); CNum (9 # 10)] ])
  = Ok (mkDF ["model"; "accuracy"; "f1"]
          [ [CStr "A"; CNum (8 # 10); CNum (5 # 10)];
            [CStr "B"; CNum (7 # 10); CNum (9 # 10)] ]).
Proof. reflexivity. Qed.

(** ** Constructing the options *)

Section OptionFacts.
Context {E : Env} {S : PySet}.

Lemma mem_In (x : string) (l : list string) : Cli.mem x l = true <-> In x l.
Proof.
  unfold Cli.mem. rewrite existsb_exists. split.
  - intros (y & Hy & Heq). apply String.eqb_eq in Heq. now subst.
  - intros H. exists x. split; [exact H | apply String.eqb_refl].
Qed.

(** [ensure_outdir] on a path that does not exist yet creates it. *)
Lemma ensure_outdir_creates (datapath : Path) (requested : option Path) (w w1 : World)
    (out : Path) :
  Cli.ensure_outdir datapath requested w = (Ok out, w1) ->
  env_exists w out = false ->
  w1 = w ++ [EExists out false; EMkdir out None].
Proof.
  unfold Cli.ensure_outdir. run_m.
  set (o := match requested with Some o => o | None => _ end).
  destruct (env_exists w o) eqn:Hex.
  - destruct (env_is_dir _ o); simpl; intros H; inversion H; subst; congruence.
  - destruct (env_mkdir _ o) eqn:Hm; simpl; intros H; inversion H; subst.
    intros _. now rewrite <- app_assoc.
Qed.

Lemma init_regress_check (a : Cli.InitArgs) (w w0 w1 : World) (dp out : Path)
    (evs : list event) (dirs : ProgramDirs) :
  Cli.a_mode a = "regress" ->
  In "d" (Cli.a_feat_select a) \/ In "auc" (Cli.a_feat_select a) ->
  Cli.validate_datapath (Cli.a_datapath a) w = (Ok dp, w0) ->
  Cli.ensure_outdir dp (Cli.a_outdir a) w0 = (Ok out, w1) ->
  setup_io w1 out = (evs, Ok dirs) ->
  Cli.init a w
  = (Raise (Cli.regress_error (normalized (Cli.a_feat_select a))), w1 ++ evs).
Proof.
  intros Hm Hsel Hv Ho Hs. unfold Cli.init.
  unfold bind at 1. rewrite Hv.
  unfold bind at 1. rewrite Ho.
  unfold bind at 1. unfold call_setup_io. rewrite Hs.
  cbv zeta. cbn [Cli.mode Cli.feat_select]. rewrite Hm.
  assert (Hmem : Cli.mem "d" (normalized (Cli.a_feat_select a))
                 || Cli.mem "auc" (normalized (Cli.a_feat_select a)) = true).
  { apply orb_true_iff. rewrite !mem_In, !normalized_In. exact Hsel. }
  unfold bind at 1. cbn [String.eqb Ascii.eqb Bool.eqb]. rewrite Hmem. reflexivity.
Qed.

Lemma init_regress_never_ok (a : Cli.InitArgs) (w : World) :
  Cli.a_mode a = "regress" ->
  In "d" (Cli.a_feat_select a) \/ In "auc" (Cli.a_feat_select a) ->
  exists e w', Cli.init a w = (Raise e, w').
Proof.
  intros Hm Hsel.
  destruct (Cli.validate_datapath (Cli.a_datapath a) w) as [[dp|e] w0] eqn:Hv.
  - destruct (Cli.ensure_outdir dp (Cli.a_outdir a) w0) as [[out|e] w1] eqn:Ho.
    + destruct (setup_io w1 out) as [evs [dirs|e]] eqn:Hs.
      * erewrite init_regress_check; eauto.
      * unfold Cli.init. unfold bind at 1. rewrite Hv.
        unfold bind at 1. rewrite Ho.
        unfold bind at 1. unfold call_setup_io. rewrite Hs. eauto.
    + unfold Cli.init. unfold bind at 1. rewrite Hv.
      unfold bind at 1. rewrite Ho. eauto.
  - unfold Cli.init. unfold bind at 1. rewrite Hv. eauto.
Qed.

End OptionFacts.

(** C8, amended.  With [mode = regress] and [d] or [auc] among the
    selection methods the construction never succeeds, and once the data
    path is validated, the output directory ensured and [setup_io] back, it
    raises the [ValueError] of the check.  By then [ensure_outdir] has
    already created the output directory if it was not there. *)
Theorem init_regress_effect_size {E : Env} {S : PySet} (a : Cli.InitArgs) (w : World) :
  Cli.a_mode a = "regress" ->
  In "d" (Cli.a_feat_select a) \/ In "auc" (Cli.a_feat_select a) ->
  (exists e w', Cli.init a w = (Raise e, w'))
  /\ forall dp w0 out w1 evs dirs,
       Cli.validate_datapath (Cli.a_datapath a) w = (Ok dp, w0) ->
       Cli.ensure_outdir dp (Cli.a_outdir a) w0 = (Ok out, w1) ->
       setup_io w1 out = (evs, Ok dirs) ->
       Cli.init a w
       = (Raise (Cli.regress_error (normalized (Cli.a_feat_select a))), w1 ++ evs)
       /\ (env_exists w0 out = false ->
           w1 = w0 ++ [EExists out false; EMkdir out None]).
Proof.
  intros Hm Hsel. split; [now apply init_regress_never_ok|].
  intros dp w0 out w1 evs dirs Hv Ho Hs. split.
  - eapply init_regress_check; eauto.
  - eapply ensure_outdir_creates; eauto.
Qed.

Lemma init_regress_effect_size_witness :
  (exists e w',
      Cli.init (E := Demo.fresh_outdir) (S := Demo.first_seen) Demo.regress_args []
      = (Raise e, w'))
  /\ forall dp w0 out w1 evs dirs,
       Cli.validate_datapath (E := Demo.fresh_outdir) ["data"; "x.csv"] [] = (Ok dp, w0) ->
       Cli.ensure_outdir (E := Demo.fresh_outdir) dp None w0 = (Ok out, w1) ->
       setup_io (Env := Demo.fresh_outdir) w1 out = (evs, Ok dirs) ->
       Cli.init (E := Demo.fresh_outdir) (S := Demo.first_seen) Demo.regress_args []
       = (Raise (Cli.regress_error
                   (normalized (S := Demo.first_seen) ["pca"; "d"; "pca"])), w1 ++ evs)
       /\ (env_exists (Env := Demo.fresh_outdir) w0 out = false ->
           w1 = w0 ++ [EExists out false; EMkdir out None]).
Proof.
  apply (@init_regress_effect_size Demo.fresh_outdir Demo.first_seen Demo.regress_args []).
  - reflexivity.
  - left. simpl. right. left. reflexivity.
Defined.

(** The construction fails on the regression check, and the output
    directory has been created on the way. *)
Lemma init_regress_creates_outdir :
  fst (Cli.init (E := Demo.fresh_outdir) (S := Demo.first_seen) Demo.regress_args [])
  = Raise (Cli.regress_error ["d"; "pca"])
  /\ dirs_made
       (snd (Cli.init (E := Demo.fresh_outdir) (S := Demo.first_seen) Demo.regress_args []))
     = [["data"; "df-analyze-results__x"]].
Proof. split; reflexivity. Qed.

(** ** The run loop *)

Section LoopFacts.
Context {E : Env}.

Lemma outline_app (w1 w2 : World) : outline (w1 ++ w2) = outline w1 ++ outline w2.
Proof.
  induction w1 as [|e w1 IH]; simpl; [reflexivity|].
  destruct e as [| | | | | | | | | | | |arg [df|err]|]; simpl; now rewrite ?IH.
Qed.

Lemma outline_try_save (df : DataFrame) (outdir : Path) (file_info : string) (w : World) :
  exists evs,
    DfAnalyze.try_save df outdir file_info w = (Ok tt, w ++ evs)
    /\ outline evs = [JsonAttempt df; CsvAttempt df].
Proof.
  pose proof (dfanalyze_try_save df outdir file_info w) as H. cbv zeta in H.
  eexists. split; [exact H|].
  rewrite outline_app.
  destruct (env_to_json w df _); destruct (env_to_csv _ df _); reflexivity.
Qed.

Lemma outline_timestamp (w : World) :
  exists t evs, DfAnalyze.timestamp_now w = (Ok t, w ++ evs) /\ outline evs = [].
Proof.
  unfold DfAnalyze.timestamp_now. run_m. eexists. eexists. split; reflexivity.
Qed.

Lemma outline_save_interim (arg : LoopArgs) (result : DataFrame) (w : World) :
  exists evs,
    DfAnalyze.save_interim_result arg result w = (Ok tt, w ++ evs)
    /\ outline evs = match run_outdir (options arg) with
                     | Some _ => [JsonAttempt result; CsvAttempt result]
                     | None => []
                     end.
Proof.
  unfold DfAnalyze.save_interim_result.
  destruct (run_outdir (options arg)) as [outdir|].
  - unfold bind. destruct (outline_timestamp w) as (t & evs1 & -> & H1).
    match goal with |- context [DfAnalyze.try_save ?d ?o ?f ?w'] =>
      destruct (outline_try_save d o f w') as (evs2 & -> & H2) end.
    exists (evs1 ++ evs2). split; [now rewrite app_assoc|].
    now rewrite outline_app, H1, H2.
  - exists []. split; [unfold ret; now rewrite app_nil_r | reflexivity].
Qed.

(** One turn of the loop: the analysis, then the interim save of its
    result, or the failure of the analysis and nothing more. *)
Lemma outline_loop_body (results : list DataFrame) (arg : LoopArgs) (w : World) :
  exists evs,
    snd (DfAnalyze.loop_body results arg w) = w ++ evs
    /\ match fst (DfAnalyze.loop_body results arg w) with
       | Ok results' =>
           exists result,
             results' = results ++ [result] /\ outline evs = point_marks (arg, result)
       | Raise _ => outline evs = [AnalysisFailed]
       end.
Proof.
  unfold DfAnalyze.loop_body, bind, full_estimator_analysis.
  destruct (env_analysis w arg) as [result|e] eqn:Ha.
  - destruct (outline_save_interim arg result (w ++ [EAnalysis arg (Ok result)]))
      as (evs & -> & Hev).
    exists ([EAnalysis arg (Ok result)] ++ evs). simpl. split; [now rewrite <- app_assoc|].
    exists result. split; [reflexivity|]. now rewrite Hev.
  - exists [EAnalysis arg (Raise e)]. simpl. split; reflexivity.
Qed.

Lemma outline_run_loop (loop_args : list LoopArgs) (results : list DataFrame) (w : World) :
  exists evs done,
    snd (DfAnalyze.run_loop loop_args results w) = w ++ evs
    /\ match fst (DfAnalyze.run_loop loop_args results w) with
       | Ok results' =>
           results' = results ++ done
           /\ List.length done = List.length loop_args
           /\ outline evs = flat_map point_marks (combine loop_args done)
       | Raise _ =>
           (List.length done < List.length loop_args)%nat
           /\ outline evs
              = flat_map point_marks (combine (firstn (List.length done) loop_args) done)
                ++ [AnalysisFailed]
       end.
Proof.
  revert results w. induction loop_args as [|arg rest IH]; intros results w.
  - exists [], []. simpl. rewrite !app_nil_r. repeat split; reflexivity.
  - simpl. unfold bind.
    destruct (outline_loop_body results arg w) as (evs1 & Hw1 & H1).
    destruct (DfAnalyze.loop_body results arg w) as [[results'|e] w1]; simpl in Hw1, H1.
    + destruct H1 as (result & -> & Ho1). subst w1.
      destruct (IH (results ++ [result]) (w ++ evs1)) as (evs2 & done & Hw2 & H2).
      exists (evs1 ++ evs2), (result :: done). split; [now rewrite Hw2, app_assoc|].
      destruct (fst (DfAnalyze.run_loop rest (results ++ [result]) (w ++ evs1)))
        as [results'|e].
      * destruct H2 as (-> & Hlen & Ho2). repeat split.
        -- now rewrite <- app_assoc.
        -- simpl. now rewrite Hlen.
        -- rewrite outline_app, Ho1, Ho2. reflexivity.
      * destruct H2 as (Hlen & Ho2). split; [simpl; lia|].
        rewrite outline_app, Ho1, Ho2. simpl. now rewrite <- app_assoc.
    + subst w1. exists evs1, []. simpl. split; [reflexivity|].
      split; [lia | exact H1].
Qed.

Lemma outline_prepare (loop_args : list LoopArgs) (w : World) :
  exists evs, snd (DfAnalyze.prepare loop_args w) = w ++ evs /\ outline evs = [].
Proof.
  unfold DfAnalyze.prepare.
  destruct loop_args as [|first rest]; [exists []; simpl; now rewrite app_nil_r|].
  destruct (run_outdir (options first)) as [d|]; [|exists []; simpl; now rewrite app_nil_r].
  run_m. destruct (env_exists w d); simpl.
  - eexists. split; reflexivity.
  - destruct (env_mkdir _ d); simpl; eexists; (split; [now rewrite <- app_assoc | reflexivity]).
Qed.

Lemma outline_print_sorted (df : DataFrame) (w : World) :
  exists evs, snd (DfAnalyze.print_sorted df w) = w ++ evs /\ outline evs = [].
Proof.
  unfold DfAnalyze.print_sorted.
  destruct (DfAnalyze.find_sort_col _) as [c|].
  - unfold bind, DfAnalyze.lift. destruct (DfAnalyze.sort_values df c true).
    + run_m. eexists. split; reflexivity.
    + exists []. simpl. now rewrite app_nil_r.
  - run_m. eexists. split; reflexivity.
Qed.

Lemma outline_finish (results_dir : Path) (results : list DataFrame)
    (estimators : list string) (is_stepup : bool) (w : World) :
  exists evs,
    snd (DfAnalyze.finish results_dir results estimators is_stepup w) = w ++ evs
    /\ match DfAnalyze.sort_df (pd_concat results) with
       | Ok df => outline evs = [JsonAttempt df; CsvAttempt df]
       | Raise _ => outline evs = []
       end.
Proof.
  unfold DfAnalyze.finish. unfold bind at 1. unfold DfAnalyze.lift.
  destruct (DfAnalyze.sort_df (pd_concat results)) as [df|e].
  - unfold bind at 1. destruct (outline_timestamp w) as (t & evs1 & -> & H1).
    unfold bind at 1.
    match goal with |- context [DfAnalyze.try_save ?d ?o ?f ?w'] =>
      destruct (outline_try_save d o f w') as (evs2 & -> & H2) end.
    unfold bind at 1.
    destruct (outline_print_sorted df ((w ++ evs1) ++ evs2)) as (evs3 & Hw3 & H3).
    destruct (DfAnalyze.print_sorted df ((w ++ evs1) ++ evs2)) as [[u|e] w3];
      simpl in Hw3; subst w3; simpl;
      (exists (evs1 ++ evs2 ++ evs3); split; [now rewrite !app_assoc|];
       now rewrite !outline_app, H1, H2, H3).
  - exists []. simpl. now rewrite app_nil_r.
Qed.

End LoopFacts.

(** C9, amended.  Each turn of the loop of [run_analysis] runs the
    analysis of one grid point and then, before the next turn, attempts
    the JSON and the CSV write of its result when the grid point has an
    output directory; the writes of the aggregate come after the last
    turn.  So a loop that stops after the first grid points has attempted
    their interim saves, one per point and in order, and no write of the
    aggregate.  Whether an attempt leaves a file is for the world to
    say. *)
Theorem run_analysis_saves_in_order {E : Env}
    (loop_args : list LoopArgs) (estimators : list string) (is_stepup : bool)
    (results : list DataFrame) (w : World) :
  (exists evs done,
      snd (DfAnalyze.run_loop loop_args results w) = w ++ evs
      /\ match fst (DfAnalyze.run_loop loop_args results w) with
         | Ok results' =>
             results' = results ++ done
             /\ List.length done = List.length loop_args
             /\ outline evs = flat_map point_marks (combine loop_args done)
         | Raise _ =>
             (List.length done < List.length loop_args)%nat
             /\ outline evs
                = flat_map point_marks (combine (firstn (List.length done) loop_args) done)
                  ++ [AnalysisFailed]
         end)
  /\
  (exists evs done tail,
      snd (DfAnalyze.run_analysis loop_args estimators is_stepup w) = w ++ evs
      /\ outline evs
         = flat_map point_marks (combine (firstn (List.length done) loop_args) done) ++ tail
      /\ (tail = []
          \/ ((List.length done < List.length loop_args)%nat /\ tail = [AnalysisFailed])
          \/ (List.length done = List.length loop_args
              /\ exists df,
                   DfAnalyze.sort_df (pd_concat done) = Ok df
                   /\ tail = [JsonAttempt df; CsvAttempt df]))).
Proof.
  split; [apply outline_run_loop|].
  unfold DfAnalyze.run_analysis. unfold bind at 1.
  destruct (outline_prepare loop_args w) as (evs0 & Hw0 & H0).
  destruct (DfAnalyze.prepare loop_args w) as [[results_dir|e] w0]; simpl in Hw0; subst w0.
  - unfold bind at 1.
    destruct (outline_run_loop loop_args [] (w ++ evs0)) as (evs1 & done & Hw1 & H1).
    destruct (DfAnalyze.run_loop loop_args [] (w ++ evs0)) as [[results'|e] w1];
      simpl in Hw1, H1; subst w1.
    + destruct H1 as (-> & Hlen & Ho1). simpl.
      destruct (outline_finish results_dir done estimators is_stepup ((w ++ evs0) ++ evs1))
        as (evs2 & Hw2 & H2).
      rewrite Hw2.
      destruct (DfAnalyze.sort_df (pd_concat done)) as [df|e] eqn:Hs.
      * exists (evs0 ++ evs1 ++ evs2), done, [JsonAttempt df; CsvAttempt df].
        split; [now rewrite !app_assoc|].
        split; [rewrite !outline_app, H0, Ho1, H2, Hlen, firstn_all; reflexivity|].
        right. right. split; [exact Hlen|]. exists df. split; [exact Hs | reflexivity].
      * exists (evs0 ++ evs1 ++ evs2), done, [].
        split; [now rewrite !app_assoc|].
        split; [rewrite !outline_app, H0, Ho1, H2, Hlen, firstn_all; reflexivity|].
        now left.
    + destruct H1 as (Hlen & Ho1). simpl.
      exists (evs0 ++ evs1), done, [AnalysisFailed].
      split; [now rewrite !app_assoc|].
      split; [rewrite outline_app, H0, Ho1; reflexivity|].
      right. left. split; [exact Hlen | reflexivity].
  - simpl. exists evs0, [], []. split; [reflexivity|].
    split; [rewrite H0; reflexivity | now left].
Qed.

(** Two of four grid points complete, then the run stops, in a world
    where no write succeeds: both interim saves were attempted in turn and
    no interim file exists. *)
Lemma stopped_run_without_interim_files :
  fst (DfAnalyze.run_analysis (E := Demo.stops_after 2 Demo.disk_full)
         Demo.grid ["knn"; "svm"] true [])
  = Raise (OtherException "analysis stopped")
  /\ outline (snd (DfAnalyze.run_analysis (E := Demo.stops_after 2 Demo.disk_full)
                     Demo.grid ["knn"; "svm"] true []))
     = [ Analysed (Demo.table_of "knn");
         JsonAttempt (Demo.table_of "knn"); CsvAttempt (Demo.table_of "knn");
         Analysed (Demo.table_of "knn");
         JsonAttempt (Demo.table_of "knn"); CsvAttempt (Demo.table_of "knn");
         AnalysisFailed ]
  /\ files_written (snd (DfAnalyze.run_analysis (E := Demo.stops_after 2 Demo.disk_full)
                           Demo.grid ["knn"; "svm"] true []))
     = [].
Proof. repeat split; reflexivity. Qed.

(** The same stop in a world where writes succeed leaves the two interim
    results on disk, in both formats, and no aggregate. *)
Example stopped_run_with_interim_files :
  files_written (snd (DfAnalyze.run_analysis (E := Demo.stops_after 2 Demo.plain)
                        Demo.grid ["knn"; "svm"] true []))
  = [ ["o"; "results__knn__Tue_Nov_3_10-20-30_2026.json"];
      ["o"; "results__knn__Tue_Nov_3_10-20-30_2026.csv"];
      ["o"; "results__knn_step-up__Tue_Nov_3_10-20-30_2026.json"];
      ["o"; "results__knn_step-up__Tue_Nov_3_10-20-30_2026.csv"] ].
Proof. reflexivity. Qed.

(** * Further properties of the code *)

(** ** The fallback chain of [configure_root] *)

Section RootFacts.
Context {E : Env}.

Ltac in_now := simpl; solve [repeat (first [left; reflexivity | right])].
Ltac no_in :=
  let q := fresh "q" in let Hq := fresh "Hq" in
  intros q Hq; simpl in Hq;
  repeat (destruct Hq as [Hq|Hq]; [discriminate Hq|]); exact Hq.

(** Every way [configure_root] can end: no root and nothing temporary
    made; no root although a temporary directory was made; a root that
    was asked about and found writable; the temporary directory. *)
Lemma configure_root_cases (requested : option Path) (w : World) :
  exists r nc evs,
    Saving.configure_root requested w = (Ok (r, nc), w ++ evs)
    /\ ((r = None /\ nc = false
         /\ forall q, ~ In (EMkdtemp "df_analyze_tmp" (inr q)) evs)
        \/ (r = None /\ nc = true
            /\ exists q, In (EMkdtemp "df_analyze_tmp" (inr q)) evs)
        \/ (exists p, r = Some p /\ nc = false
            /\ last evs (EWarn "") = EMkdir p None
            /\ In (EAccessW p true) evs
            /\ (requested = Some p
                \/ (requested = None /\ p = env_home // "df-analyze-outputs")
                \/ p = env_cwd // "df-analyze-outputs")
            /\ forall q, ~ In (EMkdtemp "df_analyze_tmp" (inr q)) evs)
        \/ (exists p, r = Some p /\ nc = true
            /\ last evs (EWarn "") = EMkdir p None
            /\ In (EMkdtemp "df_analyze_tmp" (inr p)) evs)).
Proof.
  unfold Saving.configure_root, Saving.configure_root_body, Saving.temp_failed.
  destruct requested as [req|]; run_m;
    repeat (rewrite ?Bool.if_negb;
            match goal with
            | |- context [match ?x with _ => _ end] =>
                match type of x with
                | bool => destruct x eqn:?
                | option _ => destruct x eqn:?
                | sum _ _ => destruct x eqn:?
                | exn => destruct x eqn:?
                | os_error => destruct x eqn:?
                end
            end; simpl);
    rewrite <- ?app_assoc; simpl;
    do 3 eexists; (split; [reflexivity|]);
    first
      [ solve [left; split; [reflexivity | split; [reflexivity | no_in]]]
      | solve [right; left; split; [reflexivity | split; [reflexivity | eexists; in_now]]]
      | solve [right; right; left; eexists; split; [reflexivity|];
               split; [reflexivity|]; split; [reflexivity|]; split; [in_now|];
               split; [first [left; reflexivity
                             | right; left; split; reflexivity
                             | right; right; reflexivity]
                      | no_in]]
      | solve [right; right; right; eexists; split; [reflexivity|];
               split; [reflexivity|]; split; [reflexivity | in_now]] ].
Qed.

End RootFacts.

(** X1. [configure_root] never raises, only adds to the history, and a
    root it hands out is a directory it has just created: its last act is
    the successful [mkdir] of that root, which is the requested root, one
    of the two default locations or the directory [mkdtemp] made. *)
Theorem configure_root_returns_made_root {E : Env} (requested : option Path) (w : World) :
  exists r nc evs,
    Saving.configure_root requested w = (Ok (r, nc), w ++ evs)
    /\ forall p, r = Some p ->
         last evs (EWarn "") = EMkdir p None
         /\ (requested = Some p
             \/ (requested = None /\ p = env_home // "df-analyze-outputs")
             \/ p = env_cwd // "df-analyze-outputs"
             \/ In (EMkdtemp "df_analyze_tmp" (inr p)) evs).
Proof.
  destruct (configure_root_cases requested w) as (r & nc & evs & Heq & H).
  exists r, nc, evs. split; [exact Heq|]. intros p Hp.
  destruct H as [(Hr & _)|[(Hr & _)|[(p' & Hr & _ & Hl & _ & Hfrom & _)|(p' & Hr & _ & Hl & Hin)]]];
    try congruence.
  - assert (p' = p) by congruence. subst p'. split; [exact Hl|]. tauto.
  - assert (p' = p) by congruence. subst p'. split; [exact Hl|]. tauto.
Qed.

(** X2. The flag [needs_clean] is set exactly when [mkdtemp] has made a
    temporary directory; a root returned with the flag is that directory.
    (The flag can be set without a root, when the directory was made and
    could not be used.) *)
Theorem configure_root_needs_clean_iff_temp {E : Env} (requested : option Path) (w : World) :
  exists r nc evs,
    Saving.configure_root requested w = (Ok (r, nc), w ++ evs)
    /\ (nc = true <-> exists q, In (EMkdtemp "df_analyze_tmp" (inr q)) evs)
    /\ forall p, r = Some p -> nc = true -> In (EMkdtemp "df_analyze_tmp" (inr p)) evs.
Proof.
  destruct (configure_root_cases requested w) as (r & nc & evs & Heq & H).
  exists r, nc, evs. split; [exact Heq|].
  destruct H as [(Hr & Hn & Hno)|[(Hr & Hn & Hin)|[(p' & Hr & Hn & _ & _ & _ & Hno)|(p' & Hr & Hn & _ & Hin)]]];
    subst r nc.
  - split; [split; [discriminate | intros (q & Hq); exfalso; exact (Hno q Hq)]|].
    intros p Hp; discriminate Hp.
  - split; [split; [intros _; exact Hin | reflexivity]|]. intros p Hp; discriminate Hp.
  - split; [split; [discriminate | intros (q & Hq); exfalso; exact (Hno q Hq)]|].
    intros p _ Hf; discriminate Hf.
  - split; [split; [intros _; eauto | reflexivity]|].
    intros p Hp _. inversion Hp; subst. exact Hin.
Qed.

(** X3. A root returned without the [needs_clean] flag is a location
    [os.access] has reported writable during the call. *)
Theorem configure_root_kept_root_was_writable {E : Env} (requested : option Path) (w : World) :
  exists r nc evs,
    Saving.configure_root requested w = (Ok (r, nc), w ++ evs)
    /\ forall p, r = Some p -> nc = false -> In (EAccessW p true) evs.
Proof.
  destruct (configure_root_cases requested w) as (r & nc & evs & Heq & H).
  exists r, nc, evs. split; [exact Heq|]. intros p Hp Hn.
  destruct H as [(Hr & _)|[(Hr & _)|[(p' & Hr & _ & _ & Hin & _)|(p' & _ & Hn' & _)]]];
    congruence.
Qed.

(** ** More on [get_hash] *)

Section MoreHashFacts.
Context {E : Env}.

Lemma dict_pop_filter (k : string) (d d' : dict pyval) :
  NoDup (keys d) -> dict_pop k d = Ok d' -> d' = without_keys [k] d.
Proof.
  revert d'. induction d as [|[k' v] d IH]; simpl; intros d' Hnd H; [discriminate|].
  inversion Hnd as [|? ? Hnin Hnd']; subst.
  unfold without_keys. simpl. rewrite String.eqb_sym.
  destruct (String.eqb_spec k k') as [->|Hne]; simpl.
  - inversion H; subst. symmetry. apply forallb_filter_id.
    apply forallb_forall. intros [k1 v1] Hin. simpl.
    destruct (String.eqb_spec k1 k') as [->|]; [|reflexivity].
    exfalso. apply Hnin. change k' with (fst (k', v1)). now apply in_map.
  - destruct (dict_pop k d) as [r|e] eqn:Hp; [|discriminate].
    inversion H; subst. f_equal. now apply IH.
Qed.

Lemma without_keys_cons (k : string) (rest : list string) (d : dict pyval) :
  without_keys rest (without_keys [k] d) = without_keys (k :: rest) d.
Proof.
  unfold without_keys. induction d as [|[k' v] d IH]; simpl in *; [reflexivity|].
  destruct (String.eqb k' k); simpl; [exact IH|].
  destruct (existsb (String.eqb k') rest); simpl; now rewrite IH.
Qed.

Lemma pop_all_filter (ign : list string) (d d' : dict pyval) :
  NoDup (keys d) -> Saving.pop_all ign d = Ok d' -> d' = without_keys ign d.
Proof.
  revert d. induction ign as [|i rest IH]; simpl; intros d Hnd H.
  - inversion H; subst. unfold without_keys. symmetry. apply forallb_filter_id.
    apply forallb_forall. reflexivity.
  - destruct (dict_pop i d) as [d1|e] eqn:Hp; [|discriminate].
    destruct (dict_pop_ok _ _ _ Hp) as (_ & _ & _ & Hn1).
    rewrite (IH d1 (proj1 (Hn1 Hnd)) H), (dict_pop_filter _ _ _ Hnd Hp).
    apply without_keys_cons.
Qed.

Lemma pop_all_distinct (ign : list string) (d d' : dict pyval) :
  NoDup (keys d) -> Saving.pop_all ign d = Ok d' -> NoDup ign.
Proof.
  revert d. induction ign as [|i rest IH]; simpl; intros d Hnd H; [constructor|].
  destruct (dict_pop i d) as [d1|e] eqn:Hp; [|discriminate].
  destruct (dict_pop_ok _ _ _ Hp) as (_ & _ & _ & Hn1).
  destruct (Hn1 Hnd) as [Hnd1 Hgone].
  constructor; [|eapply IH; eauto].
  intros Hin. apply dict_get_None in Hgone. apply Hgone.
  eapply pop_all_ok; eauto.
Qed.

End MoreHashFacts.

(** X4. On a dictionary (distinct keys), [get_hash] hands out a digest
    exactly when the ignored names are pairwise distinct keys of it: a
    name that is missing or listed twice ends in a [KeyError]. *)
Theorem get_hash_digest_iff {E : Env} (args : dict pyval) (ignores : list string) :
  NoDup (keys args) ->
  ((exists digest, Saving.get_hash args (Some ignores) = Ok digest)
   <-> NoDup ignores /\ incl ignores (keys args))
  /\ ((forall digest, Saving.get_hash args (Some ignores) <> Ok digest)
      -> exists k, In k ignores /\ Saving.get_hash args (Some ignores) = Raise (KeyError k)).
Proof.
  intros Hnd. unfold Saving.get_hash. simpl. split; [split|].
  - intros (digest & H).
    destruct (Saving.pop_all ignores args) as [d'|e] eqn:Hp; [|discriminate].
    split; [eapply pop_all_distinct; eauto | intros k Hk; eapply pop_all_ok; eauto].
  - intros [Hi Hincl].
    destruct (pop_all_total ignores args Hi Hincl Hnd) as [d' ->]. eauto.
  - intros Hno.
    destruct (Saving.pop_all ignores args) as [d'|e] eqn:Hp.
    + exfalso. eapply Hno. reflexivity.
    + destruct (pop_all_raise _ _ _ Hp) as (k & Hk & ->). eauto.
Qed.

Lemma get_hash_digest_iff_witness :
  ((exists digest,
       Saving.get_hash (E := Demo.plain) [("n_feat", VInt 10); ("verbosity", VInt 1)]
         (Some ["verbosity"; "verbosity"]) = Ok digest)
   <-> NoDup ["verbosity"; "verbosity"]
       /\ incl ["verbosity"; "verbosity"] (keys [("n_feat", VInt 10); ("verbosity", VInt 1)]))
  /\ ((forall digest,
          Saving.get_hash (E := Demo.plain) [("n_feat", VInt 10); ("verbosity", VInt 1)]
            (Some ["verbosity"; "verbosity"]) <> Ok digest)
      -> exists k, In k ["verbosity"; "verbosity"]
           /\ Saving.get_hash (E := Demo.plain) [("n_feat", VInt 10); ("verbosity", VInt 1)]
                (Some ["verbosity"; "verbosity"]) = Raise (KeyError k)).
Proof.
  apply (@get_hash_digest_iff Demo.plain [("n_feat", VInt 10); ("verbosity", VInt 1)]
           ["verbosity"; "verbosity"]).
  repeat constructor; simpl; intuition discriminate.
Defined.

(** X5. Ignored fields count as absent: the digest of a dictionary with
    some names ignored is the digest of the dictionary without those
    entries. *)
Theorem get_hash_ignores_as_absent {E : Env} (args : dict pyval) (ignores : list string)
    (digest : string) :
  NoDup (keys args) ->
  Saving.get_hash args (Some ignores) = Ok digest ->
  Saving.get_hash (without_keys ignores args) None = Ok digest.
Proof.
  intros Hnd. unfold Saving.get_hash. simpl.
  destruct (Saving.pop_all ignores args) as [d'|e] eqn:Hp; [|discriminate].
  now rewrite (pop_all_filter _ _ _ Hnd Hp).
Qed.

Lemma get_hash_ignores_as_absent_witness :
  Saving.get_hash (E := Demo.plain)
    (without_keys ["verbosity"] [("n_feat", VInt 10); ("verbosity", VInt 1)]) None
  = Ok "(('n_feat', 10),)".
Proof.
  apply (@get_hash_ignores_as_absent Demo.plain [("n_feat", VInt 10); ("verbosity", VInt 1)]
           ["verbosity"] "(('n_feat', 10),)").
  - repeat constructor; simpl; intuition discriminate.
  - reflexivity.
Defined.

(** ** More on sorting the result table *)

Lemma cell_lt_asym (a b : cell) :
  DfAnalyze.cell_lt a b = true -> DfAnalyze.cell_lt b a = false.
Proof.
  destruct a as [s|x], b as [t|y]; simpl; try discriminate.
  - intros H. destruct (String.ltb t s) eqn:Ht; [|reflexivity].
    exfalso. exact (ltb_asym _ _ H Ht).
  - unfold DfAnalyze.Qltb. intros H. apply negb_true_iff in H.
    apply negb_false_iff. apply Qle_bool_iff.
    destruct (Qlt_le_dec x y) as [Hlt|Hle].
    + now apply Qlt_le_weak.
    + apply Qle_bool_iff in Hle. congruence.
Qed.

Lemma cell_lt_trans (a b c : cell) :
  DfAnalyze.cell_lt a b = true -> DfAnalyze.cell_lt b c = true ->
  DfAnalyze.cell_lt a c = true.
Proof.
  destruct a as [s|x], b as [t|y], c as [u|z]; simpl; try discriminate.
  - apply ltb_trans.
  - unfold DfAnalyze.Qltb. intros H1 H2.
    apply negb_true_iff in H1. apply negb_true_iff in H2. apply negb_true_iff.
    destruct (Qle_bool z x) eqn:Hzx; [|reflexivity]. exfalso.
    apply Qle_bool_iff in Hzx.
    destruct (Qlt_le_dec x y) as [Hxy|Hyx];
      [|apply Qle_bool_iff in Hyx; congruence].
    destruct (Qlt_le_dec y z) as [Hyz|Hzy];
      [|apply Qle_bool_iff in Hzy; congruence].
    apply (Qlt_irrefl x). eapply Qlt_le_trans; [|exact Hzx].
    eapply Qlt_trans; eauto.
Qed.

Lemma forallb_perm {A} (f : A -> bool) (l l' : list A) :
  Permutation l l' -> forallb f l = forallb f l'.
Proof.
  induction 1; simpl; try congruence.
  destruct (f x), (f y); reflexivity.
Qed.

Lemma index_of_In (name : string) (cols : list string) (i : nat) :
  DfAnalyze.index_of name cols = Some i -> In name cols.
Proof.
  revert i. induction cols as [|c cols IH]; simpl; intros i; [discriminate|].
  destruct (String.eqb_spec c name) as [->|Hne]; [now left|].
  destruct (DfAnalyze.index_of name cols) as [j|]; [|discriminate].
  intros _. right. eapply IH. reflexivity.
Qed.

(** What [sort_values] returns when it returns. *)
Lemma sort_values_ok (df df' : DataFrame) (by_ : string) (ascending : bool) :
  DfAnalyze.sort_values df by_ ascending = Ok df' ->
  exists i,
    DfAnalyze.index_of by_ (columns df) = Some i
    /\ df' = mkDF (columns df)
               (sorted (fun r1 r2 =>
                          if ascending
                          then DfAnalyze.cell_lt (DfAnalyze.cell_at i r1) (DfAnalyze.cell_at i r2)
                          else DfAnalyze.cell_lt (DfAnalyze.cell_at i r2) (DfAnalyze.cell_at i r1))
                       (rows df)).
Proof.
  unfold DfAnalyze.sort_values.
  destruct (DfAnalyze.index_of by_ (columns df)) as [i|]; [|discriminate].
  destruct (_ || _); [|discriminate].
  intros H. inversion H. eauto.
Qed.

(** X6. The column [sort_df] sorts by is the first one whose lowered name
    contains [mae] and does not contain [sd]; when no column qualifies the
    table comes back as it is. *)
Theorem sort_df_column_choice (df : DataFrame) :
  let qualifies := fun col =>
    PyStr.contains "mae" col && negb (PyStr.contains "sd" col) in
  match DfAnalyze.find_sort_col (map PyStr.lower (columns df)) with
  | Some col =>
      qualifies col = true
      /\ (exists before after,
             map PyStr.lower (columns df) = before ++ col :: after
             /\ forall x, In x before -> qualifies x = false)
      /\ DfAnalyze.sort_df df = DfAnalyze.sort_values df col true
  | None =>
      (forall x, In x (map PyStr.lower (columns df)) -> qualifies x = false)
      /\ DfAnalyze.sort_df df = Ok df
  end.
Proof.
  intros qualifies. unfold DfAnalyze.sort_df.
  generalize (map PyStr.lower (columns df)) as cols.
  intros cols.
  assert (H : match DfAnalyze.find_sort_col cols with
              | Some col =>
                  qualifies col = true
                  /\ exists before after,
                       cols = before ++ col :: after
                       /\ forall x, In x before -> qualifies x = false
              | None => forall x, In x cols -> qualifies x = false
              end).
  { induction cols as [|c cols IH]; simpl; [tauto|].
    fold (qualifies c). destruct (qualifies c) eqn:Hq.
    - split; [exact Hq|]. exists [], cols. split; [reflexivity | intros x []].
    - destruct (DfAnalyze.find_sort_col cols) as [col|].
      + destruct IH as (Hc & before & after & -> & Hb). split; [exact Hc|].
        exists (c :: before), after. split; [reflexivity|].
        intros x [<-|Hx]; auto.
      + intros x [<-|Hx]; auto. }
  destruct (DfAnalyze.find_sort_col cols) as [col|].
  - destruct H as (Hc & Hex). repeat split; assumption.
  - split; [exact H | reflexivity].
Qed.

(** X7. When [sort_df] returns a table, it has the header of the input
    and the same rows, each as often as before. *)
Theorem sort_df_keeps_rows (df df' : DataFrame) :
  DfAnalyze.sort_df df = Ok df' ->
  columns df' = columns df /\ Permutation (rows df') (rows df).
Proof.
  unfold DfAnalyze.sort_df.
  destruct (DfAnalyze.find_sort_col _) as [col|].
  - intros H. destruct (sort_values_ok _ _ _ _ H) as (i & _ & ->). simpl.
    split; [reflexivity | apply sorted_perm_any].
  - intros H. inversion H; subst. split; [reflexivity | apply Permutation_refl].
Qed.

Lemma sort_df_keeps_rows_witness :
  columns (mkDF ["model"; "mae"] [[CStr "B"; CNum 1]; [CStr "A"; CNum 2]])
  = columns (mkDF ["model"; "mae"] [[CStr "A"; CNum 2]; [CStr "B"; CNum 1]])
  /\ Permutation
       (rows (mkDF ["model"; "mae"] [[CStr "B"; CNum 1]; [CStr "A"; CNum 2]]))
       (rows (mkDF ["model"; "mae"] [[CStr "A"; CNum 2]; [CStr "B"; CNum 1]])).
Proof.
  apply (sort_df_keeps_rows
           (mkDF ["model"; "mae"] [[CStr "A"; CNum 2]; [CStr "B"; CNum 1]])
           (mkDF ["model"; "mae"] [[CStr "B"; CNum 1]; [CStr "A"; CNum 2]])).
  reflexivity.
Defined.

(** X8. The rows [sort_df] returns are in ascending order of the chosen
    column: no row has a key below the key of the row before it. *)
Theorem sort_df_ascending (df df' : DataFrame) (col : string) (i : nat) :
  DfAnalyze.find_sort_col (map PyStr.lower (columns df)) = Some col ->
  DfAnalyze.index_of col (columns df) = Some i ->
  DfAnalyze.sort_df df = Ok df' ->
  Sorted (fun r1 r2 =>
            DfAnalyze.cell_lt (DfAnalyze.cell_at i r2) (DfAnalyze.cell_at i r1) = false)
         (rows df').
Proof.
  intros Hc Hi. unfold DfAnalyze.sort_df. rewrite Hc.
  intros H. destruct (sort_values_ok _ _ _ _ H) as (j & Hj & ->). simpl.
  assert (j = i) by congruence. subst j.
  apply (sorted_ascending
           (fun r1 r2 => DfAnalyze.cell_lt (DfAnalyze.cell_at i r1) (DfAnalyze.cell_at i r2))).
  intros a b. apply cell_lt_asym.
Qed.

Lemma sort_df_ascending_witness :
  Sorted (fun r1 r2 =>
            DfAnalyze.cell_lt (DfAnalyze.cell_at 1 r2) (DfAnalyze.cell_at 1 r1) = false)
         (rows (mkDF ["model"; "mae"] [[CStr "B"; CNum 1]; [CStr "A"; CNum 2]])).
Proof.
  apply (sort_df_ascending
           (mkDF ["model"; "mae"] [[CStr "A"; CNum 2]; [CStr "B"; CNum 1]])
           (mkDF ["model"; "mae"] [[CStr "B"; CNum 1]; [CStr "A"; CNum 2]]) "mae" 1);
    reflexivity.
Defined.

(** Without equal keys, what [sort_values] returns is the only ascending
    arrangement of the rows. *)
Lemma sort_values_determined (df df' : DataFrame) (col : string) (i : nat)
    (rs : list (list cell)) :
  DfAnalyze.index_of col (columns df) = Some i ->
  distinct_keys i (rows df) ->
  DfAnalyze.sort_values df col true = Ok df' ->
  Permutation rs (rows df) -> ascending_by i rs ->
  rs = rows df'.
Proof.
  intros Hi [Hnd Hcmp] H Hp Hs.
  destruct (sort_values_ok _ _ _ _ H) as (j & Hj & ->). simpl.
  assert (j = i) by congruence. subst j.
  apply (ascending_unique
           (fun r1 r2 => DfAnalyze.cell_lt (DfAnalyze.cell_at i r1) (DfAnalyze.cell_at i r2)))
    with (l := rows df).
  - intros a b. apply cell_lt_asym.
  - intros a b c. apply cell_lt_trans.
  - exact Hnd.
  - exact Hcmp.
  - exact Hp.
  - apply sorted_perm_any.
  - exact Hs.
  - apply sorted_ascending. intros a b. apply cell_lt_asym.
Qed.

(** Sorting by the same column once more: the second sort does not fail,
    and without equal keys it returns the same table. *)
Lemma sort_values_again (df df' : DataFrame) (col : string) (i : nat) :
  DfAnalyze.index_of col (columns df) = Some i ->
  distinct_keys i (rows df) ->
  DfAnalyze.sort_values df col true = Ok df' ->
  DfAnalyze.sort_values df' col true = Ok df'.
Proof.
  intros Hi Hd H. destruct (sort_values_ok _ _ _ _ H) as (j & Hj & Hdf).
  assert (j = i) by congruence. subst j.
  assert (Hperm : Permutation (rows df') (rows df))
    by (rewrite Hdf; apply sorted_perm_any).
  assert (Hcols : columns df' = columns df) by (rewrite Hdf; reflexivity).
  destruct (DfAnalyze.sort_values df' col true) as [df''|e] eqn:H2.
  - destruct (sort_values_ok _ _ _ _ H2) as (j & Hj' & Hdf'').
    f_equal.
    assert (Hrows : rows df'' = rows df').
    { apply (sort_values_determined df df' col i); auto.
      - rewrite Hdf''. simpl.
        eapply Permutation_trans; [apply sorted_perm_any | exact Hperm].
      - rewrite Hdf''. simpl. rewrite Hcols, Hi in Hj'.
        assert (j = i) by congruence. subst j.
        apply (sorted_ascending
                 (fun r1 r2 =>
                    DfAnalyze.cell_lt (DfAnalyze.cell_at i r1) (DfAnalyze.cell_at i r2))).
        intros a b. apply cell_lt_asym. }
    destruct df'' as [c'' r'']. destruct df' as [c' r']. simpl in *.
    inversion Hdf''. subst. congruence.
  - exfalso. pose proof H as Hv. unfold DfAnalyze.sort_values in Hv, H2.
    rewrite Hcols, Hi in *.
    rewrite (forallb_perm _ _ _ (Permutation_map (DfAnalyze.cell_at i) Hperm)) in H2.
    rewrite (forallb_perm (fun c => negb (DfAnalyze.cell_is_num c)) _ _
               (Permutation_map (DfAnalyze.cell_at i) Hperm)) in H2.
    destruct (_ || _); discriminate.
Qed.

(** X9. Where no two rows have equal keys, the table [sort_df] returns is
    the only ascending arrangement of the rows, so it does not depend on
    how [sort_values] treats equal keys, and [sort_df] applied to it
    returns it again. *)
Theorem sort_df_idempotent (df df' : DataFrame) :
  no_ties df ->
  DfAnalyze.sort_df df = Ok df' ->
  (forall col i rs,
      DfAnalyze.find_sort_col (map PyStr.lower (columns df)) = Some col ->
      DfAnalyze.index_of col (columns df) = Some i ->
      Permutation rs (rows df) -> ascending_by i rs -> rs = rows df')
  /\ DfAnalyze.sort_df df' = Ok df'.
Proof.
  intros Hties. unfold DfAnalyze.sort_df.
  destruct (DfAnalyze.find_sort_col (map PyStr.lower (columns df))) as [col|] eqn:Hc.
  - intros H. destruct (sort_values_ok _ _ _ _ H) as (i & Hi & Hdf).
    assert (Hcols : columns df' = columns df) by (rewrite Hdf; reflexivity).
    split.
    + intros col' i' rs Hcol' Hi' Hp Hs.
      assert (col' = col) by congruence. subst col'.
      exact (sort_values_determined df df' col i' rs Hi' (Hties col i' Hc Hi') H Hp Hs).
    + rewrite Hcols, Hc.
      exact (sort_values_again df df' col i Hi (Hties col i Hc Hi) H).
  - intros H. inversion H; subst. split; [discriminate | now rewrite Hc].
Qed.

Lemma sort_df_idempotent_witness :
  (forall col i rs,
      DfAnalyze.find_sort_col
        (map PyStr.lower
           (columns (mkDF ["model"; "mae"] [[CStr "A"; CNum 2]; [CStr "B"; CNum 1]])))
      = Some col ->
      DfAnalyze.index_of col
        (columns (mkDF ["model"; "mae"] [[CStr "A"; CNum 2]; [CStr "B"; CNum 1]]))
      = Some i ->
      Permutation rs (rows (mkDF ["model"; "mae"] [[CStr "A"; CNum 2]; [CStr "B"; CNum 1]])) ->
      ascending_by i rs ->
      rs = rows (mkDF ["model"; "mae"] [[CStr "B"; CNum 1]; [CStr "A"; CNum 2]]))
  /\ DfAnalyze.sort_df (mkDF ["model"; "mae"] [[CStr "B"; CNum 1]; [CStr "A"; CNum 2]])
     = Ok (mkDF ["model"; "mae"] [[CStr "B"; CNum 1]; [CStr "A"; CNum 2]]).
Proof.
  apply (sort_df_idempotent
           (mkDF ["model"; "mae"] [[CStr "A"; CNum 2]; [CStr "B"; CNum 1]])).
  - intros col i Hc Hi. simpl in Hc, Hi.
    inversion Hc; subst col. inversion Hi; subst i.
    split.
    + repeat constructor; simpl; intuition discriminate.
    + simpl. intros r1 r2 [<-|[<-|[]]] [<-|[<-|[]]].
      * left. reflexivity.
      * right. right. reflexivity.
      * right. left. reflexivity.
      * left. reflexivity.
  - reflexivity.
Defined.

(** ** The characters of file names *)

Lemma chars_app (s1 s2 : string) :
  list_ascii_of_string (s1 ++ s2) = list_ascii_of_string s1 ++ list_ascii_of_string s2.
Proof.
  induction s1 as [|c s1 IH]; simpl; [reflexivity | now rewrite IH].
Qed.

(** [replace] brings in no character that is neither in the text nor in
    the replacement. *)
Lemma replace_from_no_new_char (old new : string) (c : ascii) (skip : nat) (s : string) :
  ~ In c (list_ascii_of_string s) -> ~ In c (list_ascii_of_string new) ->
  ~ In c (list_ascii_of_string (PyStr.replace_from old new skip s)).
Proof.
  intros Hs Hn. revert skip. induction s as [|a s IH]; intros skip; [simpl; tauto|].
  simpl in Hs.
  assert (Hs' : ~ In c (list_ascii_of_string s)) by tauto.
  cbn [PyStr.replace_from].
  destruct skip as [|n]; [|now apply IH].
  destruct (String.prefix old (String a s)).
  - rewrite chars_app. intros Hin. apply in_app_or in Hin.
    destruct Hin as [Hin|Hin]; [now apply Hn | exact (IH Hs' _ Hin)].
  - cbn [list_ascii_of_string]. intros [Heq|Hin]; [tauto | exact (IH Hs' _ Hin)].
Qed.

Lemma prefix_char (c a : ascii) (s : string) :
  String.prefix (String c "") (String a s) = if Ascii.ascii_dec c a then true else false.
Proof.
  simpl. destruct (Ascii.ascii_dec c a); [destruct s; reflexivity | reflexivity].
Qed.

(** Replacing a character by a text without it removes the character. *)
Lemma replace_char_gone (c : ascii) (new s : string) :
  ~ In c (list_ascii_of_string new) ->
  ~ In c (list_ascii_of_string (PyStr.replace (String c "") new s)).
Proof.
  intros Hn. unfold PyStr.replace. induction s as [|a s IH]; [simpl; tauto|].
  cbn [PyStr.replace_from]. rewrite prefix_char.
  destruct (Ascii.ascii_dec c a) as [<-|Hne].
  - cbn [String.length Nat.sub]. rewrite chars_app. intros Hin.
    apply in_app_or in Hin. destruct Hin as [Hin|Hin]; auto.
  - cbn [list_ascii_of_string]. intros [Heq|Hin]; [now subst | auto].
Qed.

(** X10. The time stamp that goes into a file name holds no colon and no
    blank, whatever the clock returns. *)
Theorem timestamp_has_no_colon_or_blank {E : Env} (w : World) :
  exists stamp,
    DfAnalyze.timestamp_now w = (Ok stamp, w ++ [ECtime (env_ctime w)])
    /\ ~ In ":"%char (list_ascii_of_string stamp)
    /\ ~ In " "%char (list_ascii_of_string stamp).
Proof.
  unfold DfAnalyze.timestamp_now. run_m. eexists. split; [reflexivity|]. split.
  - apply replace_from_no_new_char; [|simpl; intuition discriminate].
    apply replace_from_no_new_char; [|simpl; intuition discriminate].
    apply (replace_char_gone ":"%char). simpl; intuition discriminate.
  - apply (replace_char_gone " "%char). simpl; intuition discriminate.
Qed.

(** X11. The estimator part of the name of the final file holds no blank,
    comma, bracket or quote. *)
Theorem models_text_is_plain (estimators : list string) (c : ascii) :
  In c [" "; ","; "("; ")"; "'"]%char ->
  ~ In c (list_ascii_of_string (DfAnalyze.models_text estimators)).
Proof.
  unfold DfAnalyze.models_text.
  generalize (PyStr.str_tuple estimators) as t. intros t Hc.
  simpl in Hc.
  destruct Hc as [<-|[<-|[<-|[<-|[<-|[]]]]]].
  - do 4 (apply replace_from_no_new_char; [|simpl; intuition discriminate]).
    apply (replace_char_gone " "%char). simpl; tauto.
  - do 3 (apply replace_from_no_new_char; [|simpl; intuition discriminate]).
    apply (replace_char_gone ","%char). simpl; intuition discriminate.
  - do 2 (apply replace_from_no_new_char; [|simpl; intuition discriminate]).
    apply (replace_char_gone "("%char). simpl; tauto.
  - apply replace_from_no_new_char; [|simpl; intuition discriminate].
    apply (replace_char_gone ")"%char). simpl; tauto.
  - apply (replace_char_gone "'"%char). simpl; tauto.
Qed.

Lemma models_text_is_plain_witness :
  ~ In ","%char (list_ascii_of_string (DfAnalyze.models_text ["knn"; "svm"])).
Proof.
  apply (models_text_is_plain ["knn"; "svm"] ","%char).
  simpl. right. left. reflexivity.
Defined.

(** ** More on the run loop *)

(** X12. [print_sorted] sorts the table once more before printing it.
    Given a table that comes from [sort_df], this second sort does not
    fail, and where no two rows have equal keys it moves no row: what is
    printed is the table that was saved, and [print_sorted] returns. *)
Theorem print_sorted_after_sort_df {E : Env} (df sorted_df : DataFrame) (w : World) :
  no_ties df ->
  DfAnalyze.sort_df df = Ok sorted_df ->
  DfAnalyze.print_sorted sorted_df w
  = (Ok tt, w ++ [EPrint (to_markdown sorted_df "simple" "0.3f")]).
Proof.
  intros Hties. unfold DfAnalyze.sort_df, DfAnalyze.print_sorted.
  destruct (DfAnalyze.find_sort_col (map PyStr.lower (columns df))) as [col|] eqn:Hc.
  - intros H. destruct (sort_values_ok _ _ _ _ H) as (i & Hi & Hdf).
    assert (Hcols : columns sorted_df = columns df) by (rewrite Hdf; reflexivity).
    rewrite Hcols, Hc. unfold bind, DfAnalyze.lift.
    rewrite (sort_values_again df sorted_df col i Hi (Hties col i Hc Hi) H). reflexivity.
  - intros H. inversion H; subst. rewrite Hc. reflexivity.
Qed.

Lemma print_sorted_after_sort_df_witness :
  DfAnalyze.print_sorted (E := Demo.plain)
    (mkDF ["model"; "mae"] [[CStr "B"; CNum 1]; [CStr "A"; CNum 2]]) []
  = (Ok tt, [] ++ [EPrint "TABLE"]).
Proof.
  apply (@print_sorted_after_sort_df Demo.plain
           (mkDF ["model"; "mae"] [[CStr "A"; CNum 2]; [CStr "B"; CNum 1]])
           (mkDF ["model"; "mae"] [[CStr "B"; CNum 1]; [CStr "A"; CNum 2]]) []).
  - intros col i Hc Hi. simpl in Hc, Hi.
    inversion Hc; subst col. inversion Hi; subst i.
    split.
    + repeat constructor; simpl; intuition discriminate.
    + simpl. intros r1 r2 [<-|[<-|[]]] [<-|[<-|[]]].
      * left. reflexivity.
      * right. right. reflexivity.
      * right. left. reflexivity.
      * left. reflexivity.
  - reflexivity.
Defined.

Section MoreLoopFacts.
Context {E : Env}.

Lemma finish_value (results_dir : Path) (results : list DataFrame)
    (estimators : list string) (is_stepup : bool) (w : World) (df : DataFrame) :
  fst (DfAnalyze.finish results_dir results estimators is_stepup w) = Ok df ->
  DfAnalyze.sort_df (pd_concat results) = Ok df.
Proof.
  unfold DfAnalyze.finish. unfold bind at 1. unfold DfAnalyze.lift.
  destruct (DfAnalyze.sort_df (pd_concat results)) as [d|e]; [|discriminate].
  unfold bind at 1. destruct (DfAnalyze.timestamp_now w) as [[t|e] w1]; [|discriminate].
  unfold bind at 1. destruct (DfAnalyze.try_save _ _ _ w1) as [[u|e] w2]; [|discriminate].
  unfold bind at 1. destruct (DfAnalyze.print_sorted d w2) as [[u'|e] w3]; [|discriminate].
  simpl. congruence.
Qed.

Lemma steps_app (w1 w2 : World) : steps (w1 ++ w2) = steps w1 ++ steps w2.
Proof.
  induction w1 as [|e w1 IH]; simpl; [reflexivity|].
  destruct e; simpl; now rewrite ?IH.
Qed.

Lemma steps_try_save (df : DataFrame) (outdir : Path) (file_info : string) (w : World) :
  exists evs,
    DfAnalyze.try_save df outdir file_info w = (Ok tt, w ++ evs)
    /\ steps evs = [StepJson df (outdir // (file_info ++ ".json"));
                    StepCsv df (outdir // (file_info ++ ".csv"))].
Proof.
  pose proof (dfanalyze_try_save df outdir file_info w) as H. cbv zeta in H.
  eexists. split; [exact H|].
  rewrite steps_app.
  destruct (env_to_json w df _); destruct (env_to_csv _ df _); reflexivity.
Qed.

Lemma steps_timestamp (w : World) :
  exists t evs, DfAnalyze.timestamp_now w = (Ok t, w ++ evs) /\ steps evs = [].
Proof.
  unfold DfAnalyze.timestamp_now. run_m. eexists. eexists. split; reflexivity.
Qed.

Lemma steps_save_interim (arg : LoopArgs) (result : DataFrame) (w : World) :
  exists evs stamp,
    DfAnalyze.save_interim_result arg result w = (Ok tt, w ++ evs)
    /\ StepAnalysis arg (Ok result) :: steps evs = point_steps (arg, result, stamp).
Proof.
  unfold DfAnalyze.save_interim_result, point_steps.
  destruct (run_outdir (options arg)) as [outdir|].
  - unfold bind. destruct (steps_timestamp w) as (t & evs1 & -> & H1).
    match goal with |- context [DfAnalyze.try_save ?d ?o ?f ?w'] =>
      destruct (steps_try_save d o f w') as (evs2 & -> & H2) end.
    exists (evs1 ++ evs2), t. split; [now rewrite app_assoc|].
    rewrite steps_app, H1, H2. reflexivity.
  - exists [], "". split; [unfold ret; now rewrite app_nil_r | reflexivity].
Qed.

(** One completed turn of the loop: the analysis of this grid point, then
    the interim save of what it returned, under the name of this point. *)
Lemma steps_loop_body (results : list DataFrame) (arg : LoopArgs) (w : World) :
  exists evs,
    snd (DfAnalyze.loop_body results arg w) = w ++ evs
    /\ forall results',
         fst (DfAnalyze.loop_body results arg w) = Ok results' ->
         exists result stamp,
           results' = results ++ [result]
           /\ steps evs = point_steps (arg, result, stamp).
Proof.
  unfold DfAnalyze.loop_body, bind, full_estimator_analysis.
  destruct (env_analysis w arg) as [result|e] eqn:Ha.
  - destruct (steps_save_interim arg result (w ++ [EAnalysis arg (Ok result)]))
      as (evs & stamp & -> & Hev).
    exists ([EAnalysis arg (Ok result)] ++ evs). simpl. split; [now rewrite <- app_assoc|].
    intros results' H. inversion H; subst. exists result, stamp.
    split; [reflexivity | exact Hev].
  - exists [EAnalysis arg (Raise e)]. simpl. split; [reflexivity | discriminate].
Qed.

Lemma steps_run_loop (loop_args : list LoopArgs) (results : list DataFrame) (w : World) :
  exists evs,
    snd (DfAnalyze.run_loop loop_args results w) = w ++ evs
    /\ forall results',
         fst (DfAnalyze.run_loop loop_args results w) = Ok results' ->
         exists done stamps,
           results' = results ++ done
           /\ List.length done = List.length loop_args
           /\ List.length stamps = List.length loop_args
           /\ steps evs = flat_map point_steps (combine (combine loop_args done) stamps).
Proof.
  revert results w. induction loop_args as [|arg rest IH]; intros results w.
  - exists []. simpl. rewrite app_nil_r. split; [reflexivity|].
    intros results' H. inversion H; subst. exists [], []. rewrite app_nil_r.
    repeat split; reflexivity.
  - simpl. unfold bind.
    destruct (steps_loop_body results arg w) as (evs1 & Hw1 & H1).
    destruct (DfAnalyze.loop_body results arg w) as [[results1|e] w1]; simpl in Hw1, H1.
    + subst w1. destruct (H1 _ eq_refl) as (result & stamp & -> & Hs1).
      destruct (IH (results ++ [result]) (w ++ evs1)) as (evs2 & Hw2 & H2).
      exists (evs1 ++ evs2). split; [now rewrite Hw2, app_assoc|].
      intros results' H. destruct (H2 _ H) as (done & stamps & -> & Hlen & Hlen' & Hs2).
      exists (result :: done), (stamp :: stamps). repeat split.
      * now rewrite <- app_assoc.
      * simpl. now rewrite Hlen.
      * simpl. now rewrite Hlen'.
      * rewrite steps_app, Hs1, Hs2. reflexivity.
    + subst w1. exists evs1. simpl. split; [reflexivity | discriminate].
Qed.

Lemma steps_prepare (loop_args : list LoopArgs) (w : World) :
  exists evs,
    snd (DfAnalyze.prepare loop_args w) = w ++ evs /\ steps evs = []
    /\ forall results_dir,
         fst (DfAnalyze.prepare loop_args w) = Ok results_dir ->
         exists first rest,
           loop_args = first :: rest /\ run_outdir (options first) = Some results_dir.
Proof.
  destruct loop_args as [|first rest].
  { exists []. simpl. rewrite app_nil_r. repeat split. discriminate. }
  unfold DfAnalyze.prepare.
  destruct (run_outdir (options first)) as [d|] eqn:Hd.
  2:{ exists []. simpl. rewrite app_nil_r. repeat split. discriminate. }
  assert (Hfirst : forall results_dir : Path,
             Ok d = Ok results_dir ->
             exists first0 rest0,
               first :: rest = first0 :: rest0
               /\ run_outdir (options first0) = Some results_dir).
  { intros results_dir H. inversion H; subst. exists first, rest. split; [reflexivity | exact Hd]. }
  run_m. destruct (env_exists w d); simpl.
  - eexists. split; [reflexivity|]. split; [reflexivity | exact Hfirst].
  - destruct (env_mkdir _ d); simpl; eexists;
      (split; [now rewrite <- app_assoc|]); (split; [reflexivity|]).
    + discriminate.
    + exact Hfirst.
Qed.

Lemma steps_print_sorted (df : DataFrame) (w : World) :
  exists evs, snd (DfAnalyze.print_sorted df w) = w ++ evs /\ steps evs = [].
Proof.
  unfold DfAnalyze.print_sorted.
  destruct (DfAnalyze.find_sort_col _) as [c|].
  - unfold bind, DfAnalyze.lift. destruct (DfAnalyze.sort_values df c true).
    + run_m. eexists. split; reflexivity.
    + exists []. simpl. now rewrite app_nil_r.
  - run_m. eexists. split; reflexivity.
Qed.

Lemma steps_finish (results_dir : Path) (results : list DataFrame)
    (estimators : list string) (is_stepup : bool) (w : World) (df : DataFrame) :
  DfAnalyze.sort_df (pd_concat results) = Ok df ->
  exists evs stamp,
    snd (DfAnalyze.finish results_dir results estimators is_stepup w) = w ++ evs
    /\ steps evs
       = [StepJson df (results_dir // (final_name estimators is_stepup stamp ++ ".json"));
          StepCsv df (results_dir // (final_name estimators is_stepup stamp ++ ".csv"))].
Proof.
  intros Hs. unfold DfAnalyze.finish. unfold bind at 1. unfold DfAnalyze.lift. rewrite Hs.
  unfold bind at 1. destruct (steps_timestamp w) as (t & evs1 & -> & H1).
  unfold bind at 1.
  match goal with |- context [DfAnalyze.try_save ?d ?o ?f ?w'] =>
    destruct (steps_try_save d o f w') as (evs2 & -> & H2) end.
  unfold bind at 1.
  destruct (steps_print_sorted df ((w ++ evs1) ++ evs2)) as (evs3 & Hw3 & H3).
  destruct (DfAnalyze.print_sorted df ((w ++ evs1) ++ evs2)) as [[u|e] w3];
    simpl in Hw3; subst w3; simpl;
    (exists (evs1 ++ evs2 ++ evs3), t; split; [now rewrite !app_assoc|];
     rewrite !steps_app, H1, H2, H3; reflexivity).
Qed.

End MoreLoopFacts.

(** X13. When [run_analysis] returns a table, the list of grid points was
    not empty and its first point has an output directory; the analysis
    was called for every grid point, once and in the order of the list,
    and for no other; each result was followed at once by its two interim
    write attempts, under the name and in the directory of its own grid
    point, when the point has an output directory; the table is [sort_df]
    of the concatenation of the results in that order, and its two write
    attempts, in the directory of the first point, are the last of the
    run. *)
Theorem run_analysis_returns_sorted_concat {E : Env}
    (loop_args : list LoopArgs) (estimators : list string) (is_stepup : bool)
    (w : World) (df : DataFrame) :
  fst (DfAnalyze.run_analysis loop_args estimators is_stepup w) = Ok df ->
  exists first rest results_dir evs done stamps stamp,
    loop_args = first :: rest
    /\ run_outdir (options first) = Some results_dir
    /\ snd (DfAnalyze.run_analysis loop_args estimators is_stepup w) = w ++ evs
    /\ List.length done = List.length loop_args
    /\ List.length stamps = List.length loop_args
    /\ DfAnalyze.sort_df (pd_concat done) = Ok df
    /\ steps evs
       = flat_map point_steps (combine (combine loop_args done) stamps)
         ++ [StepJson df (results_dir // (final_name estimators is_stepup stamp ++ ".json"));
             StepCsv df (results_dir // (final_name estimators is_stepup stamp ++ ".csv"))].
Proof.
  unfold DfAnalyze.run_analysis, bind.
  destruct (steps_prepare loop_args w) as (evs0 & Hw0 & H0 & Hfirst).
  destruct (DfAnalyze.prepare loop_args w) as [[results_dir|e] w0] eqn:Hp;
    cbn [fst snd] in Hw0, Hfirst; subst w0; [|discriminate].
  destruct (Hfirst _ eq_refl) as (first & rest & Hargs & Hdir).
  destruct (steps_run_loop loop_args [] (w ++ evs0)) as (evs1 & Hw1 & H1).
  destruct (DfAnalyze.run_loop loop_args [] (w ++ evs0)) as [[results'|e] w1];
    cbn [fst snd] in Hw1, H1; subst w1; [|discriminate].
  destruct (H1 _ eq_refl) as (done & stamps & -> & Hlen & Hlen' & Hs1). cbn [app].
  intros Hf.
  pose proof (finish_value _ _ _ _ _ _ Hf) as Hs.
  destruct (steps_finish results_dir done estimators is_stepup ((w ++ evs0) ++ evs1) df Hs)
    as (evs2 & stamp & Hw2 & H2).
  exists first, rest, results_dir, (evs0 ++ evs1 ++ evs2), done, stamps, stamp.
  rewrite Hw2.
  split; [exact Hargs|]. split; [exact Hdir|].
  split; [now rewrite !app_assoc|]. split; [exact Hlen|]. split; [exact Hlen'|].
  split; [exact Hs|].
  now rewrite !steps_app, H0, Hs1, H2.
Qed.

Lemma run_analysis_returns_sorted_concat_witness :
  exists first rest results_dir evs done stamps stamp,
    [Demo.point "knn" "none"; Demo.point "svm" "none"] = first :: rest
    /\ run_outdir (options first) = Some results_dir
    /\ snd (DfAnalyze.run_analysis (E := Demo.plain)
              [Demo.point "knn" "none"; Demo.point "svm" "none"] ["knn"; "svm"] false [])
       = [] ++ evs
    /\ List.length done = List.length [Demo.point "knn" "none"; Demo.point "svm" "none"]
    /\ List.length stamps = List.length [Demo.point "knn" "none"; Demo.point "svm" "none"]
    /\ DfAnalyze.sort_df (pd_concat (Env := Demo.plain) done)
       = Ok (mkDF ["model"; "acc"] [[CStr "knn"; CNum (4 # 5)]; [CStr "svm"; CNum (4 # 5)]])
    /\ steps evs
       = flat_map point_steps
           (combine (combine [Demo.point "knn" "none"; Demo.point "svm" "none"] done) stamps)
         ++ [StepJson
               (mkDF ["model"; "acc"]
                  [[CStr "knn"; CNum (4 # 5)]; [CStr "svm"; CNum (4 # 5)]])
               (results_dir // (final_name ["knn"; "svm"] false stamp ++ ".json"));
             StepCsv
               (mkDF ["model"; "acc"]
                  [[CStr "knn"; CNum (4 # 5)]; [CStr "svm"; CNum (4 # 5)]])
               (results_dir // (final_name ["knn"; "svm"] false stamp ++ ".csv"))].
Proof.
  apply (@run_analysis_returns_sorted_concat Demo.plain
           [Demo.point "knn" "none"; Demo.point "svm" "none"] ["knn"; "svm"] false []).
  reflexivity.
Defined.

(** The steps of that run, in full. *)
Example run_analysis_steps :
  steps (snd (DfAnalyze.run_analysis (E := Demo.plain)
                [Demo.point "knn" "none"; Demo.point "svm" "none"] ["knn"; "svm"] false []))
  = [ StepAnalysis (Demo.point "knn" "none") (Ok (Demo.table_of "knn"));
      StepJson (Demo.table_of "knn") ["o"; "results__knn__Tue_Nov_3_10-20-30_2026.json"];
      StepCsv (Demo.table_of "knn") ["o"; "results__knn__Tue_Nov_3_10-20-30_2026.csv"];
      StepAnalysis (Demo.point "svm" "none") (Ok (Demo.table_of "svm"));
      StepJson (Demo.table_of "svm") ["o"; "results__svm__Tue_Nov_3_10-20-30_2026.json"];
      StepCsv (Demo.table_of "svm") ["o"; "results__svm__Tue_Nov_3_10-20-30_2026.csv"];
      StepJson (mkDF ["model"; "acc"] [[CStr "knn"; CNum (4 # 5)]; [CStr "svm"; CNum (4 # 5)]])
        ["o"; "results__knn_svm__Tue_Nov_3_10-20-30_2026.json"];
      StepCsv (mkDF ["model"; "acc"] [[CStr "knn"; CNum (4 # 5)]; [CStr "svm"; CNum (4 # 5)]])
        ["o"; "results__knn_svm__Tue_Nov_3_10-20-30_2026.csv"] ].
Proof. reflexivity. Qed.

Lemma write_paths_try_save {E : Env} (df : DataFrame) (outdir : Path) (file_info : string)
    (w : World) :
  exists evs,
    DfAnalyze.try_save df outdir file_info w = (Ok tt, w ++ evs)
    /\ write_paths evs = [outdir // (file_info ++ ".json"); outdir // (file_info ++ ".csv")].
Proof.
  pose proof (dfanalyze_try_save df outdir file_info w) as H. cbv zeta in H.
  eexists. split; [exact H|].
  destruct (env_to_json w df _); destruct (env_to_csv _ df _); reflexivity.
Qed.

(** X14. The names of the interim files are made of the output
    directory, the estimator, the step-up mark and the time stamp alone:
    two grid points that agree on these write to the same two paths,
    whatever else distinguishes them (their selection method, unless it is
    step-up, and their results). *)
Theorem interim_paths_collide {E : Env} (arg1 arg2 : LoopArgs) (r1 r2 : DataFrame)
    (w1 w2 : World) :
  run_outdir (options arg1) <> None ->
  run_outdir (options arg1) = run_outdir (options arg2) ->
  estimator arg1 = estimator arg2 ->
  is_step_up arg1 = is_step_up arg2 ->
  env_ctime w1 = env_ctime w2 ->
  exists evs1 evs2 json csv,
    DfAnalyze.save_interim_result arg1 r1 w1 = (Ok tt, w1 ++ evs1)
    /\ DfAnalyze.save_interim_result arg2 r2 w2 = (Ok tt, w2 ++ evs2)
    /\ write_paths evs1 = [json; csv]
    /\ write_paths evs2 = [json; csv].
Proof.
  intros Hsome Hout Hest Hstep Htime.
  unfold DfAnalyze.save_interim_result. rewrite <- Hout, <- Hest.
  unfold is_step_up in Hstep. rewrite <- Hstep.
  destruct (run_outdir (options arg1)) as [outdir|]; [|congruence].
  unfold DfAnalyze.timestamp_now, ctime, ret, bind. cbv beta iota zeta.
  rewrite <- Htime.
  match goal with
  | |- context [DfAnalyze.try_save r1 ?o ?f ?w] =>
      destruct (write_paths_try_save r1 o f w) as (e1 & -> & P1);
      destruct (write_paths_try_save r2 o f (w2 ++ [ECtime (env_ctime w1)]))
        as (e2 & -> & P2);
      exists ([ECtime (env_ctime w1)] ++ e1), ([ECtime (env_ctime w1)] ++ e2),
        (o // (f ++ ".json")), (o // (f ++ ".csv"))
  end.
  rewrite <- !app_assoc. repeat split; assumption.
Qed.

Lemma interim_paths_collide_witness :
  exists evs1 evs2 json csv,
    DfAnalyze.save_interim_result (E := Demo.plain) (Demo.point "svm" "pca")
      (Demo.table_of "svm") [] = (Ok tt, [] ++ evs1)
    /\ DfAnalyze.save_interim_result (E := Demo.plain) (Demo.point "svm" "none")
         (Demo.table_of "other") [] = (Ok tt, [] ++ evs2)
    /\ write_paths evs1 = [json; csv]
    /\ write_paths evs2 = [json; csv].
Proof.
  apply (@interim_paths_collide Demo.plain (Demo.point "svm" "pca") (Demo.point "svm" "none")
           (Demo.table_of "svm") (Demo.table_of "other") [] []);
    try reflexivity.
  discriminate.
Defined.

(** ** More on the options *)

(** X15. [tuple(sorted(set(xs)))] is in strictly ascending order, has no
    repetition and holds exactly the elements of [xs]; normalizing it
    again changes nothing. *)
Theorem normalized_is_canonical {S : PySet} (xs : list string) :
  StronglySorted (fun a b => String.ltb a b = true) (normalized xs)
  /\ NoDup (normalized xs)
  /\ (forall x, In x (normalized xs) <-> In x xs)
  /\ normalized (normalized xs) = normalized xs.
Proof.
  assert (Hnd : NoDup (set_iter xs)).
  { eapply Permutation_NoDup; [apply Permutation_sym, set_iter_perm | apply NoDup_nodup]. }
  split; [|split; [|split]].
  - unfold normalized. apply (sorted_strong (fun s => s)). now rewrite map_id.
  - eapply Permutation_NoDup; [apply Permutation_sym, normalized_perm | apply NoDup_nodup].
  - apply normalized_In.
  - apply normalized_same_elements. apply normalized_In.
Qed.

Section MoreOptionFacts.
Context {E : Env} {S : PySet}.

(** What a successful construction went through. *)
Lemma init_ok_inv (a : Cli.InitArgs) (w w' : World) (self : Cli.ProgramOptions) :
  Cli.init a w = (Ok self, w') ->
  exists dp w0 out w1 evs dirs,
    Cli.validate_datapath (Cli.a_datapath a) w = (Ok dp, w0)
    /\ Cli.ensure_outdir dp (Cli.a_outdir a) w0 = (Ok out, w1)
    /\ setup_io w1 out = (evs, Ok dirs)
    /\ (String.eqb (Cli.a_mode a) "regress"
        && (Cli.mem "d" (normalized (Cli.a_feat_select a))
            || Cli.mem "auc" (normalized (Cli.a_feat_select a))) = false)
    /\ self
       = Cli.mkProgramOptions
           (Cli.mkCleaningOptions dp (Cli.a_target a) (normalized (Cli.a_feat_clean a))
              (Cli.a_drop_nan a))
           (Cli.mkSelectionOptions
              (Cli.mkCleaningOptions dp (Cli.a_target a) (normalized (Cli.a_feat_clean a))
                 (Cli.a_drop_nan a))
              (Cli.a_mode a) (normalized (Cli.a_classifiers a))
              (normalized (Cli.a_regressors a)) (normalized (Cli.a_feat_select a))
              (Cli.a_n_feat a))
           dp (Cli.a_target a) (Cli.a_drop_nan a) (normalized (Cli.a_feat_clean a))
           (normalized (Cli.a_feat_select a)) (Cli.a_n_feat a) (Cli.a_mode a)
           (normalized (Cli.a_classifiers a)) (normalized (Cli.a_regressors a))
           (Cli.a_htune a) (Cli.a_htune_val a) (Cli.a_htune_trials a) (Cli.a_test_val a)
           out dirs (Cli.a_is_spreadsheet a) (Cli.a_verbosity a).
Proof.
  unfold Cli.init. unfold bind at 1.
  destruct (Cli.validate_datapath (Cli.a_datapath a) w) as [[dp|e] w0] eqn:Hv;
    [|discriminate].
  unfold bind at 1.
  destruct (Cli.ensure_outdir dp (Cli.a_outdir a) w0) as [[out|e] w1] eqn:Ho;
    [|discriminate].
  unfold bind at 1. unfold call_setup_io.
  destruct (setup_io w1 out) as [evs [dirs|e]] eqn:Hs; [|discriminate].
  cbv zeta. cbn [Cli.mode Cli.feat_select]. unfold bind at 1.
  destruct (String.eqb (Cli.a_mode a) "regress") eqn:Hm.
  - destruct (Cli.mem "d" _ || Cli.mem "auc" _) eqn:Hsel; [discriminate|].
    unfold ret at 1. unfold bind at 1.
    match goal with |- context [Cli.spam_warnings ?s ?w] =>
      destruct (Cli.spam_warnings s w) as [[u|e] w2]; [|discriminate] end.
    unfold ret. intros H. inversion H; subst.
    exists dp, w0, out, w1, evs, dirs.
    split; [reflexivity|]. split; [exact Ho|]. split; [exact Hs|].
    split; reflexivity.
  - unfold ret at 1. unfold bind at 1.
    match goal with |- context [Cli.spam_warnings ?s ?w] =>
      destruct (Cli.spam_warnings s w) as [[u|e] w2]; [|discriminate] end.
    unfold ret. intros H. inversion H; subst.
    exists dp, w0, out, w1, evs, dirs.
    split; [reflexivity|]. split; [exact Ho|]. split; [exact Hs|].
    split; reflexivity.
Qed.

Lemma spam_warnings_returns (self : Cli.ProgramOptions) (w : World) :
  exists evs, Cli.spam_warnings self w = (Ok tt, w ++ evs).
Proof.
  unfold Cli.spam_warnings. destruct (Cli.verbosity self);
    [exists []; unfold ret; now rewrite app_nil_r | |];
    run_m;
    destruct (Cli.htune_trials self <? 100)%Z;
    destruct (Cli.mem "step-up" (Cli.feat_select self) || Cli.mem "step-down" (Cli.feat_select self));
    destruct (Cli.mem "step-down" (Cli.feat_select self));
    unfold emit; simpl; eexists; repeat rewrite <- app_assoc; simpl; reflexivity.
Qed.

End MoreOptionFacts.

(** X16. Every options object the constructor returns is coherent: its
    multi-valued fields are normalized, the two memoization keys repeat
    the object's own fields (the selection key holding the cleaning key),
    and it never pairs [regress] with the methods [d] or [auc]. *)
Theorem init_result_is_coherent {E : Env} {S : PySet}
    (a : Cli.InitArgs) (w w' : World) (self : Cli.ProgramOptions) :
  Cli.init a w = (Ok self, w') ->
  Cli.feat_select self = normalized (Cli.a_feat_select a)
  /\ Cli.feat_clean self = normalized (Cli.a_feat_clean a)
  /\ Cli.classifiers self = normalized (Cli.a_classifiers a)
  /\ Cli.regressors self = normalized (Cli.a_regressors a)
  /\ Cli.cleaning_options self
     = Cli.mkCleaningOptions (Cli.datapath self) (Cli.target self) (Cli.feat_clean self)
         (Cli.drop_nan self)
  /\ Cli.selection_options self
     = Cli.mkSelectionOptions (Cli.cleaning_options self) (Cli.mode self)
         (Cli.classifiers self) (Cli.regressors self) (Cli.feat_select self)
         (Cli.n_feat self)
  /\ (Cli.mode self = "regress" ->
      ~ In "d" (Cli.feat_select self) /\ ~ In "auc" (Cli.feat_select self)).
Proof.
  intros H. destruct (init_ok_inv a w w' self H)
    as (dp & w0 & out & w1 & evs & dirs & _ & _ & _ & Hcheck & ->).
  cbn. repeat split; try reflexivity.
  - intros Hd. rewrite H0, String.eqb_refl in Hcheck. simpl in Hcheck.
    apply orb_false_iff in Hcheck. destruct Hcheck as [Hc _].
    apply (proj2 (mem_In "d" _)) in Hd. congruence.
  - intros Hd. rewrite H0, String.eqb_refl in Hcheck. simpl in Hcheck.
    apply orb_false_iff in Hcheck. destruct Hcheck as [_ Hc].
    apply (proj2 (mem_In "auc" _)) in Hd. congruence.
Qed.

(** X17. The constructor succeeds whenever the data path is a file, the
    output directory can be ensured, [setup_io] returns, and the options
    do not pair [regress] with [d] or [auc]; the object carries the
    ensured directory and what [setup_io] returned, and after [setup_io]
    no further directory is created. *)
Theorem init_accepts {E : Env} {S : PySet} (a : Cli.InitArgs) (w w0 w1 : World)
    (dp out : Path) (evs : list event) (dirs : ProgramDirs) :
  Cli.a_mode a <> "regress"
  \/ (~ In "d" (Cli.a_feat_select a) /\ ~ In "auc" (Cli.a_feat_select a)) ->
  Cli.validate_datapath (Cli.a_datapath a) w = (Ok dp, w0) ->
  Cli.ensure_outdir dp (Cli.a_outdir a) w0 = (Ok out, w1) ->
  setup_io w1 out = (evs, Ok dirs) ->
  exists self more,
    Cli.init a w = (Ok self, (w1 ++ evs) ++ more)
    /\ Cli.outdir self = out
    /\ Cli.program_dirs self = dirs
    /\ dirs_made more = [].
Proof.
  intros Hok Hv Ho Hs. unfold Cli.init.
  unfold bind at 1. rewrite Hv.
  unfold bind at 1. rewrite Ho.
  unfold bind at 1. unfold call_setup_io. rewrite Hs.
  cbv zeta. cbn [Cli.mode Cli.feat_select].
  assert (Hcheck : String.eqb (Cli.a_mode a) "regress"
                   && (Cli.mem "d" (normalized (Cli.a_feat_select a))
                       || Cli.mem "auc" (normalized (Cli.a_feat_select a))) = false).
  { destruct Hok as [Hm|[Hd Ha]].
    - apply String.eqb_neq in Hm. now rewrite Hm.
    - apply andb_false_iff. right. apply orb_false_iff. split.
      + destruct (Cli.mem "d" _) eqn:Hmem; [|reflexivity].
        apply (proj1 (mem_In _ _)) in Hmem.
        apply (proj1 (normalized_In _ _)) in Hmem. contradiction.
      + destruct (Cli.mem "auc" _) eqn:Hmem; [|reflexivity].
        apply (proj1 (mem_In _ _)) in Hmem.
        apply (proj1 (normalized_In _ _)) in Hmem. contradiction. }
  unfold bind at 1.
  assert (Hpass :
    (if String.eqb (Cli.a_mode a) "regress"
     then if Cli.mem "d" (normalized (Cli.a_feat_select a))
             || Cli.mem "auc" (normalized (Cli.a_feat_select a))
          then raise (Cli.regress_error (normalized (Cli.a_feat_select a)))
          else ret tt
     else ret tt) (w1 ++ evs) = (Ok tt, w1 ++ evs)).
  { destruct (String.eqb (Cli.a_mode a) "regress"); [|reflexivity].
    simpl in Hcheck. now rewrite Hcheck. }
  rewrite Hpass. unfold bind at 1.
  match goal with |- context [Cli.spam_warnings ?s ?w] =>
    destruct (spam_warnings_returns s w) as (more & Hsp);
    pose proof Hsp as Hsp'; rewrite Hsp end.
  unfold ret. eexists. exists more. split; [reflexivity|]. split; [reflexivity|].
  split; [reflexivity|].
  revert Hsp'. unfold Cli.spam_warnings. cbn [Cli.verbosity Cli.htune_trials Cli.feat_select].
  destruct (Cli.a_verbosity a).
  - unfold ret. intros H. inversion H as [Hw].
    rewrite <- (app_nil_r (w1 ++ evs)) in Hw at 1. apply app_inv_head in Hw. now subst.
  - run_m. set (fs := normalized (Cli.a_feat_select a)).
    destruct (Cli.a_htune_trials a <? 100)%Z;
      destruct (Cli.mem "step-up" fs || Cli.mem "step-down" fs);
      destruct (Cli.mem "step-down" fs); unfold emit; simpl; repeat rewrite <- app_assoc; simpl;
      intros H; inversion H as [Hw]; repeat apply app_inv_head in Hw; subst more;
      reflexivity.
  - run_m. set (fs := normalized (Cli.a_feat_select a)).
    destruct (Cli.a_htune_trials a <? 100)%Z;
      destruct (Cli.mem "step-up" fs || Cli.mem "step-down" fs);
      destruct (Cli.mem "step-down" fs); unfold emit; simpl; repeat rewrite <- app_assoc; simpl;
      intros H; inversion H as [Hw]; repeat apply app_inv_head in Hw; subst more;
      reflexivity.
Qed.

Lemma init_result_is_coherent_witness :
  Cli.feat_select Demo.classify_options
  = normalized (S := Demo.first_seen) (Cli.a_feat_select Demo.classify_args)
  /\ Cli.feat_clean Demo.classify_options
     = normalized (S := Demo.first_seen) (Cli.a_feat_clean Demo.classify_args)
  /\ Cli.classifiers Demo.classify_options
     = normalized (S := Demo.first_seen) (Cli.a_classifiers Demo.classify_args)
  /\ Cli.regressors Demo.classify_options
     = normalized (S := Demo.first_seen) (Cli.a_regressors Demo.classify_args)
  /\ Cli.cleaning_options Demo.classify_options
     = Cli.mkCleaningOptions (Cli.datapath Demo.classify_options)
         (Cli.target Demo.classify_options) (Cli.feat_clean Demo.classify_options)
         (Cli.drop_nan Demo.classify_options)
  /\ Cli.selection_options Demo.classify_options
     = Cli.mkSelectionOptions (Cli.cleaning_options Demo.classify_options)
         (Cli.mode Demo.classify_options) (Cli.classifiers Demo.classify_options)
         (Cli.regressors Demo.classify_options) (Cli.feat_select Demo.classify_options)
         (Cli.n_feat Demo.classify_options)
  /\ (Cli.mode Demo.classify_options = "regress" ->
      ~ In "d" (Cli.feat_select Demo.classify_options)
      /\ ~ In "auc" (Cli.feat_select Demo.classify_options)).
Proof.
  apply (@init_result_is_coherent Demo.plain Demo.first_seen Demo.classify_args []
           Demo.classify_trace Demo.classify_options).
  reflexivity.
Defined.

Lemma init_accepts_witness :
  exists self more,
    Cli.init (E := Demo.plain) (S := Demo.first_seen) Demo.classify_args []
    = (Ok self,
       ([ EExists ["data"; "x.csv"] true; EIsFile ["data"; "x.csv"] true;
          EExists ["data"; "df-analyze-results__x"] true;
          EIsDir ["data"; "df-analyze-results__x"] true ] ++ []) ++ more)
    /\ Cli.outdir self = ["data"; "df-analyze-results__x"]
    /\ Cli.program_dirs self = Saving.ProgramDirs_default
    /\ dirs_made more = [].
Proof.
  apply (@init_accepts Demo.plain Demo.first_seen Demo.classify_args []
           [EExists ["data"; "x.csv"] true; EIsFile ["data"; "x.csv"] true]
           [ EExists ["data"; "x.csv"] true; EIsFile ["data"; "x.csv"] true;
             EExists ["data"; "df-analyze-results__x"] true;
             EIsDir ["data"; "df-analyze-results__x"] true ]
           ["data"; "x.csv"] ["data"; "df-analyze-results__x"] []
           Saving.ProgramDirs_default).
  - left. discriminate.
  - reflexivity.
  - reflexivity.
  - reflexivity.
Defined.

(** X18. [ensure_outdir] returns the requested directory, or the one
    named after the data file next to it, and nothing else; it returns it
    only after the world said it is a directory or after creating it; it
    never creates a path that exists, and raises [FileExistsError] exactly
    when the path exists and is not a directory. *)
Theorem ensure_outdir_outcome {E : Env} (datapath : Path) (requested : option Path)
    (w : World) :
  let target := match requested with
                | Some o => o
                | None => parent datapath // ("df-analyze-results__" ++ stem datapath)
                end in
  exists evs,
    snd (Cli.ensure_outdir datapath requested w) = w ++ evs
    /\ match fst (Cli.ensure_outdir datapath requested w) with
       | Ok out =>
           out = target
           /\ (evs = [EExists target true; EIsDir target true]
               \/ evs = [EExists target false; EMkdir target None])
       | Raise e =>
           (e = OSError FileExistsError
            /\ evs = [EExists target true; EIsDir target false])
           \/ (exists k, e = OSError k /\ evs = [EExists target false; EMkdir target (Some k)])
       end.
Proof.
  intros target. unfold Cli.ensure_outdir. fold target. run_m.
  destruct (env_exists w target).
  - destruct (env_is_dir _ target); simpl; eexists;
      (split; [now rewrite <- app_assoc|]); simpl; auto.
  - destruct (env_mkdir _ target) as [k|]; simpl; eexists;
      (split; [now rewrite <- app_assoc|]); simpl; eauto.
Qed.

(** X19. A data path that does not exist or is not a file stops the
    constructor at once with [FileNotFoundError]: no directory is made
    and nothing is printed. *)
Theorem init_stops_at_bad_datapath {E : Env} {S : PySet} (a : Cli.InitArgs) (w : World) :
  env_exists w (Cli.a_datapath a) = false
  \/ env_is_file (w ++ [EExists (Cli.a_datapath a) true]) (Cli.a_datapath a) = false ->
  exists evs,
    Cli.init a w = (Raise (OSError FileNotFoundError), w ++ evs)
    /\ dirs_made evs = [] /\ stdout evs = [].
Proof.
  intros H. unfold Cli.init, Cli.validate_datapath. run_m.
  destruct (env_exists w (Cli.a_datapath a)) eqn:Hex; simpl.
  - destruct H as [H|H]; [discriminate|]. rewrite H. simpl.
    eexists. split; [now rewrite <- app_assoc|]. split; reflexivity.
  - eexists. split; [reflexivity|]. split; reflexivity.
Qed.

Lemma init_stops_at_bad_datapath_witness :
  exists evs,
    Cli.init (E := Demo.env (Demo.only ["data"; "x.csv"]) Demo.nowhere None None)
      (S := Demo.first_seen) Demo.classify_args []
    = (Raise (OSError FileNotFoundError), [] ++ evs)
    /\ dirs_made evs = [] /\ stdout evs = [].
Proof.
  apply (@init_stops_at_bad_datapath
           (Demo.env (Demo.only ["data"; "x.csv"]) Demo.nowhere None None)
           Demo.first_seen Demo.classify_args []).
  left. reflexivity.
Defined.

(** X20. Whatever the pair of [--spreadsheet] and [--df], the data path
    handed to the constructor is the spreadsheet path: without a
    spreadsheet [get_options] ends in a [ValueError] before touching the
    world, with one it behaves the same for every [--df]. *)
Theorem get_options_ignores_df {E : Env} {S : PySet} (cargs : Cli.ParsedArgs)
    (d : option Path) (w : World) :
  match Cli.p_spreadsheet cargs with
  | None => exists msg, Cli.get_options (Cli.with_df d cargs) w = (Raise (ValueError msg), w)
  | Some _ => Cli.get_options (Cli.with_df d cargs) w = Cli.get_options cargs w
  end.
Proof.
  unfold Cli.get_options, Cli.with_df. simpl.
  destruct (Cli.p_spreadsheet cargs) as [p|].
  - destruct d, (Cli.p_df cargs); reflexivity.
  - destruct d; simpl; eexists; reflexivity.
Qed.

(** ** Sizes on the command line *)

(** X21. [cv_size] accepts exactly the fractions strictly between 0 and
    1, which it returns as they are, and the whole numbers from 2 on,
    which it returns as integers; everything else (a text that is no
    number, NaN, an infinity, a value at or below 0, the value 1, a
    fraction above 1) is a [ValueError]. *)
Theorem cv_size_accepts {F : Cli.FloatText} (cv_str : string) :
  match Cli.cv_size cv_str with
  | Ok (Cli.SizeInt n) =>
      (2 <= n)%Z
      /\ exists q, Cli.float_of_str cv_str = Some (Cli.FFinite q) /\ Qeq q (inject_Z n)
  | Ok (Cli.SizeFloat cv) =>
      Cli.float_of_str cv_str = Some cv
      /\ exists q, cv = Cli.FFinite q /\ Qlt 0 q /\ Qlt q 1
  | Raise e =>
      (exists msg, e = ValueError msg)
      /\ forall q, Cli.float_of_str cv_str = Some (Cli.FFinite q) ->
           ~ (Qlt 0 q /\ Qlt q 1)
           /\ forall n, (2 <= n)%Z -> ~ Qeq q (inject_Z n)
  end.
Proof.
  unfold Cli.cv_size.
  destruct (Cli.float_of_str cv_str) as [[|neg|[a d]]|].
  - simpl. split; [eauto | intros q H; discriminate H].
  - destruct neg; simpl; (split; [eauto | intros q H; discriminate H]).
  - unfold Cli.f_isnan, Cli.f_le0, Cli.f_eq1, Cli.f_gt1, Cli.f_is_integer, Cli.f_int.
    unfold Qle_bool, Qeq_bool. cbn [Qnum Qden].
    change (Qnum 0) with 0%Z. change (Qnum 1) with 1%Z.
    change (QDen 0) with 1%Z. change (QDen 1) with 1%Z.
    rewrite !Z.mul_1_r, Z.mul_0_l, Z.mul_1_l.
    pose proof (Pos2Z.is_pos d) as Hd.
    destruct (a <=? 0)%Z eqn:H0.
    { apply Z.leb_le in H0. split; [eauto|].
      intros q Hq. inversion Hq; subst q. unfold Qlt, Qeq; simpl. split.
      - intros [Hlt _]. lia.
      - intros n Hn Heq. nia. }
    apply Z.leb_gt in H0.
    destruct (a =? Zpos d)%Z eqn:H1.
    { apply Z.eqb_eq in H1. split; [eauto|].
      intros q Hq. inversion Hq; subst q. unfold Qlt, Qeq; simpl. split.
      - intros [_ Hlt]. lia.
      - intros n Hn Heq. nia. }
    apply Z.eqb_neq in H1.
    destruct (a <=? Zpos d)%Z eqn:H2; cbn [negb andb].
    + apply Z.leb_le in H2. split; [reflexivity|].
      eexists. split; [reflexivity|]. unfold Qlt; simpl. lia.
    + apply Z.leb_gt in H2.
      destruct (a mod Zpos d =? 0)%Z eqn:H3; cbn [negb].
      * apply Z.eqb_eq in H3.
        assert (Hq : (a ÷ Zpos d = a / Zpos d)%Z) by (apply Z.quot_div_nonneg; lia).
        pose proof (Z.div_mod a (Zpos d) ltac:(lia)) as Hdm.
        rewrite H3, Z.add_0_r in Hdm. rewrite Hq. split.
        -- nia.
        -- eexists. split; [reflexivity|]. unfold Qeq; simpl. lia.
      * apply Z.eqb_neq in H3. split; [eauto|].
        intros q Hq. inversion Hq; subst q. unfold Qlt, Qeq; simpl. split.
        -- intros [_ Hlt]. lia.
        -- intros n Hn Heq. apply H3.
           rewrite Z.mul_1_r in Heq. rewrite Heq. apply Z.mod_mul. lia.
  - split; [eauto | intros q H; discriminate H].
Qed.

Example cv_size_samples :
  Cli.cv_size (F := Demo.sizes) "0.2" = Ok (Cli.SizeFloat (Cli.FFinite (1 # 5)))
  /\ Cli.cv_size (F := Demo.sizes) "5" = Ok (Cli.SizeInt 5)
  /\ Cli.cv_size (F := Demo.sizes) "1"
     = Raise (ValueError
                "'1' is not a valid value for `... -size` arguments (e.g. --htune-val-size).")
  /\ Cli.cv_size (F := Demo.sizes) "nan" = Raise (ValueError "NaN is not a valid size").
Proof. repeat split; reflexivity. Qed.

(** ** The grid of the main block *)

Lemma grid_row_length (opts : Cli.ProgramOptions) (e : string) (fs : list string) :
  List.length
    (map (fun f => mkLoopArgs (mkRunOptions (Some (Cli.outdir opts))) e (Some f)) fs)
  = List.length fs.
Proof. apply length_map. Qed.

Lemma grid_length (opts : Cli.ProgramOptions) (estimators feature_selection : list string) :
  List.length (DfAnalyze.grid opts estimators feature_selection)
  = (List.length estimators * List.length feature_selection)%nat.
Proof.
  unfold DfAnalyze.grid. induction estimators as [|e es IH]; simpl; [reflexivity|].
  now rewrite length_app, grid_row_length, IH.
Qed.

Lemma grid_In (opts : Cli.ProgramOptions) (estimators feature_selection : list string)
    (arg : LoopArgs) :
  In arg (DfAnalyze.grid opts estimators feature_selection)
  <-> exists e f,
        In e estimators /\ In f feature_selection
        /\ arg = mkLoopArgs (mkRunOptions (Some (Cli.outdir opts))) e (Some f).
Proof.
  unfold DfAnalyze.grid. rewrite in_flat_map. split.
  - intros (e & He & Hin). apply in_map_iff in Hin. destruct Hin as (f & <- & Hf). eauto.
  - intros (e & f & He & Hf & ->). exists e. split; [exact He|].
    apply in_map_iff. eauto.
Qed.

Lemma grid_NoDup (opts : Cli.ProgramOptions) (estimators feature_selection : list string) :
  NoDup estimators -> NoDup feature_selection ->
  NoDup (DfAnalyze.grid opts estimators feature_selection).
Proof.
  unfold DfAnalyze.grid.
  intros He Hf. induction He as [|e es Hnin Hnd IH]; simpl; [constructor|].
  apply NoDup_app.
  - apply Finite.Injective_map_NoDup; [|exact Hf].
    intros f1 f2 H. now inversion H.
  - exact IH.
  - intros arg Hin1 Hin2. apply in_map_iff in Hin1. destruct Hin1 as (f & <- & _).
    apply in_flat_map in Hin2. destruct Hin2 as (e' & He' & Hin2).
    apply in_map_iff in Hin2. destruct Hin2 as (f' & Heq & _).
    inversion Heq; subst. contradiction.
Qed.

(** X22. For non-empty tuples the grid holds one point for every pair of
    an estimator and a selection method, all with the output directory of
    the options: its length is the product of the two numbers, and it has
    no repeated point when the two tuples have no repeated element. *)
Theorem grid_shape (opts : Cli.ProgramOptions) (estimators feature_selection : list string) :
  estimators <> [] -> feature_selection <> [] ->
  List.length (DfAnalyze.grid opts estimators feature_selection)
  = (List.length estimators * List.length feature_selection)%nat
  /\ (forall arg,
        In arg (DfAnalyze.grid opts estimators feature_selection)
        <-> exists e f,
              In e estimators /\ In f feature_selection
              /\ arg = mkLoopArgs (mkRunOptions (Some (Cli.outdir opts))) e (Some f))
  /\ (NoDup estimators -> NoDup feature_selection ->
      NoDup (DfAnalyze.grid opts estimators feature_selection)).
Proof.
  intros _ _. split; [apply grid_length|]. split.
  - intros arg. apply grid_In.
  - apply grid_NoDup.
Qed.

Lemma grid_shape_witness :
  List.length (DfAnalyze.grid Demo.classify_options ["knn"; "svm"] ["none"; "step-up"])
  = 4%nat.
Proof.
  apply (grid_shape Demo.classify_options ["knn"; "svm"] ["none"; "step-up"]);
    discriminate.
Defined.

(** X23. The grid made from options the constructor has returned, with
    at least one estimator for the mode and one selection method, has no
    repeated point, holds one point per pair of a chosen estimator and a
    selection method, and every point carries the output directory of the
    options. *)
Theorem grid_of_constructed_options {E : Env} {S : PySet}
    (a : Cli.InitArgs) (w w' : World) (self : Cli.ProgramOptions) :
  Cli.init a w = (Ok self, w') ->
  let estimators := if String.eqb (Cli.mode self) "classify"
                    then Cli.classifiers self else Cli.regressors self in
  let feature_selection := Cli.so_feat_select (Cli.selection_options self) in
  estimators <> [] -> feature_selection <> [] ->
  NoDup (DfAnalyze.grid self estimators feature_selection)
  /\ List.length (DfAnalyze.grid self estimators feature_selection)
     = (List.length estimators * List.length feature_selection)%nat
  /\ forall arg, In arg (DfAnalyze.grid self estimators feature_selection) ->
       run_outdir (options arg) = Some (Cli.outdir self).
Proof.
  intros H estimators feature_selection _ _.
  destruct (init_ok_inv a w w' self H)
    as (dp & w0 & out & w1 & evs & dirs & _ & _ & _ & _ & Hself).
  assert (Hnd : forall xs, NoDup (normalized xs)).
  { intros xs. eapply Permutation_NoDup;
      [apply Permutation_sym, normalized_perm | apply NoDup_nodup]. }
  pose proof (grid_length self estimators feature_selection) as Hlen.
  pose proof (grid_In self estimators feature_selection) as Hin.
  split; [|split; [exact Hlen|]].
  - apply grid_NoDup.
    + subst estimators. rewrite Hself. cbn.
      destruct (String.eqb (Cli.a_mode a) "classify"); apply Hnd.
    + subst feature_selection. rewrite Hself. cbn. apply Hnd.
  - intros arg Harg. apply Hin in Harg. destruct Harg as (e & f & _ & _ & ->). reflexivity.
Qed.

Lemma grid_of_constructed_options_witness :
  NoDup (DfAnalyze.grid Demo.classify_options
           (if String.eqb (Cli.mode Demo.classify_options) "classify"
            then Cli.classifiers Demo.classify_options
            else Cli.regressors Demo.classify_options)
           (Cli.so_feat_select (Cli.selection_options Demo.classify_options)))
  /\ List.length
       (DfAnalyze.grid Demo.classify_options
          (if String.eqb (Cli.mode Demo.classify_options) "classify"
           then Cli.classifiers Demo.classify_options
           else Cli.regressors Demo.classify_options)
          (Cli.so_feat_select (Cli.selection_options Demo.classify_options)))
     = (List.length
          (if String.eqb (Cli.mode Demo.classify_options) "classify"
           then Cli.classifiers Demo.classify_options
           else Cli.regressors Demo.classify_options)
        * List.length (Cli.so_feat_select (Cli.selection_options Demo.classify_options)))%nat
  /\ forall arg,
       In arg (DfAnalyze.grid Demo.classify_options
                 (if String.eqb (Cli.mode Demo.classify_options) "classify"
                  then Cli.classifiers Demo.classify_options
                  else Cli.regressors Demo.classify_options)
                 (Cli.so_feat_select (Cli.selection_options Demo.classify_options))) ->
       run_outdir (options arg) = Some (Cli.outdir Demo.classify_options).
Proof.
  apply (@grid_of_constructed_options Demo.plain Demo.first_seen Demo.classify_args []
           Demo.classify_trace Demo.classify_options).
  - reflexivity.
  - discriminate.
  - discriminate.
Defined.

Lemma run_analysis_touches {E : Env} (first : LoopArgs) (rest : list LoopArgs)
    (estimators : list string) (is_stepup : bool) (w : World) (d : Path) :
  run_outdir (options first) = Some d ->
  exists evs,
    snd (DfAnalyze.run_analysis (first :: rest) estimators is_stepup w)
    = w ++ EExists d (env_exists w d) :: evs.
Proof.
  intros Hd. unfold DfAnalyze.run_analysis. unfold bind at 1.
  assert (Hp : exists r more,
             DfAnalyze.prepare (first :: rest) w
             = (r, w ++ EExists d (env_exists w d) :: more)).
  { unfold DfAnalyze.prepare. rewrite Hd. run_m. destruct (env_exists w d); simpl.
    - eexists _, []. reflexivity.
    - destruct (env_mkdir _ d); simpl; eexists _, [_]; rewrite <- app_assoc; reflexivity. }
  destruct Hp as (r & more & ->).
  destruct r as [results_dir|e]; [|eexists; reflexivity].
  unfold bind at 1.
  destruct (outline_run_loop (first :: rest) [] (w ++ EExists d (env_exists w d) :: more))
    as (evs1 & done & Hw1 & _).
  destruct (DfAnalyze.run_loop (first :: rest) [] (w ++ EExists d (env_exists w d) :: more))
    as [[results|e] w1]; simpl in Hw1; subst w1.
  - destruct (outline_finish results_dir results estimators is_stepup
                ((w ++ EExists d (env_exists w d) :: more) ++ evs1)) as (evs2 & Hw2 & _).
    rewrite Hw2. exists (more ++ evs1 ++ evs2). rewrite <- !app_assoc. reflexivity.
  - simpl. exists (more ++ evs1). rewrite <- app_assoc. reflexivity.
Qed.

(** X24. [run_analysis] ends in an [IndexError] without having touched
    anything exactly when the list of grid points is empty: with a grid
    point it asks at least whether the output directory exists, or misses
    the directory of the first point altogether. *)
Theorem run_analysis_empty_grid {E : Env} (loop_args : list LoopArgs)
    (estimators : list string) (is_stepup : bool) (w : World) :
  DfAnalyze.run_analysis loop_args estimators is_stepup w = (Raise IndexError, w)
  <-> loop_args = [].
Proof.
  split; [|intros ->; reflexivity].
  destruct loop_args as [|first rest]; [reflexivity|]. intros H. exfalso.
  destruct (run_outdir (options first)) as [d|] eqn:Hd.
  - destruct (run_analysis_touches first rest estimators is_stepup w d Hd) as (evs & Hw).
    rewrite H in Hw. simpl in Hw.
    apply (f_equal (@List.length event)) in Hw. rewrite length_app in Hw. simpl in Hw. lia.
  - unfold DfAnalyze.run_analysis, bind, DfAnalyze.prepare in H. rewrite Hd in H.
    discriminate.
Qed.

(** ** More on [try_save] of [src/saving.py] *)

(** X25. [try_save] never reaches its directories or its writes: a
    [ProgramDirs] object has none of the attributes [interim_results],
    [final_results] and [feature_selection], so the four file types that
    pass the test end in an [AttributeError], the others in the
    [ValueError], and the world is left as it was. *)
Theorem try_save_stops_at_attribute {E : Env} (program_dirs : ProgramDirs) (df : DataFrame)
    (file_stem : string) (file_type : Saving.file_type_arg) (sel : option string)
    (cleaning : list string) (w : World) :
  Saving.try_save program_dirs df file_stem file_type sel cleaning w
  = (Raise (match file_type with
            | Saving.Member Saving.Interim => AttributeError
            | Saving.Member Saving.Final => AttributeError
            | Saving.Member Saving.Feature => AttributeError
            | Saving.Member Saving.Params => AttributeError
            | _ => ValueError "Invalid FileType for manual saving"
            end), w).
Proof.
  destruct file_type as [[| | | |]|what]; reflexivity.
Qed.
